(** * DealerBDC call orchestration and routing

    A shallow embedding of the call-orchestration core of the repository:
    the compliance gate ([LeadService.isOptedOut]), the calling-window gate,
    rate limits and retry delays ([DealerService]), the rule based
    [RoutingEngine], the call session and call attempt store ([CallService]),
    the SignalWire status webhook and the [trigger-call] job steps.
    Around that core it covers the phone utilities and [retry], the
    conference-status and SWAIG webhooks, the scoring of the pixel webhook,
    the lead store of [LeadService], the dealer numbers, and the agent's
    tools [initiate-transfer], [lookup-lead] and [log-qualification].

    Conventions.
    - A table is the list of its rows in storage order.  A lookup by a unique
      key or without [orderBy] reads that list; the order in which the
      routing queries get rows that tie on their sort key, and the text the
      driver sends for a parameter that is not a string, are decided by the
      database and its driver and are parameters of the model
      ([Postgres.Executor]).
    - An [async] method that may throw returns a [Result]; a method that
      writes returns the new [Database] next to its value, and a refused
      write leaves the store as it was.  Identifiers are well-formed UUIDs.
    - [new Date()] is an explicit argument [now] (milliseconds since the
      epoch); the IANA time-zone database is an explicit argument too.
    - A JavaScript number is modelled by its exact value (an integer or a
      fraction), [NaN] or an infinity; the rounding of 64-bit floats is
      left out.  A string is the sequence of its code units, each below
      256.  A property read on an object literal finds the object's own
      properties and the members inherited from [Object.prototype]. *)

From Stdlib Require Import ZArith List String Ascii Bool Lia.
From Stdlib Require Import Permutation Sorted DecimalString.
Import ListNotations.
Open Scope Z_scope.
Open Scope list_scope.
Set Warnings "-register-all".

(* ================================================================== *)
(** * JavaScript values                                                *)
(* ================================================================== *)

Module Js.

(** A JavaScript number: an integer, [NaN], [-Infinity], [Infinity], or a
    finite number [n/d] that is not an integer, as a fraction in lowest
    terms. *)
Inductive jsnum : Type :=
| NaN
| NegInf
| Fin (z : Z)
| PosInf
| Frac (n : Z) (d : positive).

(** A JavaScript value: a JSON-shaped value, or a member that every object
    literal inherits from [Object.prototype], named by its key (a built-in
    function; under [__proto__] the prototype object itself). *)
Inductive jsval : Type :=
| JUndefined
| JNull
| JBool (b : bool)
| JNum (n : jsnum)
| JStr (s : string)
| JArr (elems : list jsval)
| JObj (props : list (string * jsval))
| JBuiltin (key : string).

(** What an [await]ed lookup hands back: [undefined], [null] or an object. *)
Inductive jsref (A : Type) : Type :=
| RefUndefined
| RefNull
| RefObject (a : A).

Arguments RefUndefined {A}.
Arguments RefNull {A}.
Arguments RefObject {A} a.

(** [x !== null] *)
Definition strict_ne_null {A : Type} (x : jsref A) : bool :=
  match x with
  | RefNull => false
  | RefUndefined | RefObject _ => true
  end.

(** [x || null] *)
Definition ref_or_null {A : Type} (x : jsref A) : jsref A :=
  match x with
  | RefObject a => RefObject a
  | RefUndefined | RefNull => RefNull
  end.

(** The number [n/d]: an integer when [d] divides [n], else the fraction
    in lowest terms. *)
Definition ratio (n : Z) (d : positive) : jsnum :=
  let g := Z.gcd n (Zpos d) in
  if Zpos d / g =? 1 then Fin (n / g)
  else Frac (n / g) (Z.to_pos (Zpos d / g)).

(** [a <= b] on numbers; any comparison with [NaN] is false. *)
Definition num_le (a b : jsnum) : bool :=
  match a, b with
  | NaN, _ | _, NaN => false
  | NegInf, _ => true
  | _, PosInf => true
  | Fin x, Fin y => x <=? y
  | Fin x, Frac n d => x * Zpos d <=? n
  | Frac n d, Fin y => n <=? y * Zpos d
  | Frac n d, Frac m e => n * Zpos e <=? m * Zpos d
  | (Fin _ | Frac _ _), NegInf => false
  | PosInf, (NegInf | Fin _ | Frac _ _) => false
  end.

(** [a >= b] *)
Definition num_ge (a b : jsnum) : bool := num_le b a.

(** [a + b] *)
Definition num_add (a b : jsnum) : jsnum :=
  match a, b with
  | NaN, _ | _, NaN => NaN
  | PosInf, NegInf | NegInf, PosInf => NaN
  | PosInf, _ | _, PosInf => PosInf
  | NegInf, _ | _, NegInf => NegInf
  | Fin x, Fin y => Fin (x + y)
  | Fin x, Frac n d | Frac n d, Fin x => ratio (x * Zpos d + n) d
  | Frac n d, Frac m e => ratio (n * Zpos e + m * Zpos d) (d * e)
  end.

(** [a * b] *)
Definition num_mul (a b : jsnum) : jsnum :=
  match a, b with
  | NaN, _ | _, NaN => NaN
  | Fin x, Fin y => Fin (x * y)
  | Fin x, Frac n d | Frac n d, Fin x => ratio (x * n) d
  | Frac n d, Frac m e => ratio (n * m) (d * e)
  | Fin x, PosInf | PosInf, Fin x | Frac x _, PosInf | PosInf, Frac x _ =>
      if x =? 0 then NaN else if 0 <? x then PosInf else NegInf
  | Fin x, NegInf | NegInf, Fin x | Frac x _, NegInf | NegInf, Frac x _ =>
      if x =? 0 then NaN else if 0 <? x then NegInf else PosInf
  | PosInf, PosInf | NegInf, NegInf => PosInf
  | PosInf, NegInf | NegInf, PosInf => NegInf
  end.

Definition num_eqb (a b : jsnum) : bool :=
  match a, b with
  | Fin x, Fin y => x =? y
  | Fin x, Frac n d | Frac n d, Fin x => x * Zpos d =? n
  | Frac n d, Frac m e => n * Zpos e =? m * Zpos d
  | PosInf, PosInf | NegInf, NegInf => true
  | _, _ => false
  end.

(** [a === b].  Two numbers are equal when neither is [NaN] and they agree.
    Objects and arrays compare by identity: a value parsed from a [jsonb]
    column and a value of the routing context are never the same object,
    and an inherited member is the same object only as itself. *)
Definition strict_eq (a b : jsval) : bool :=
  match a, b with
  | JUndefined, JUndefined => true
  | JNull, JNull => true
  | JBool x, JBool y => Bool.eqb x y
  | JNum x, JNum y => num_eqb x y
  | JStr x, JStr y => String.eqb x y
  | JBuiltin x, JBuiltin y => String.eqb x y
  | _, _ => false
  end.

(** SameValueZero, the comparison of [Array.prototype.includes]: strict
    equality, except that [NaN] is found. *)
Definition same_value_zero (a b : jsval) : bool :=
  match a, b with
  | JNum NaN, JNum NaN => true
  | _, _ => strict_eq a b
  end.

(** [arr.includes(v)] *)
Definition includes (arr : list jsval) (v : jsval) : bool :=
  existsb (fun e => same_value_zero e v) arr.

(** Truthiness of a value. *)
Definition truthy (v : jsval) : bool :=
  match v with
  | JUndefined | JNull => false
  | JBool b => b
  | JNum NaN => false
  | JNum (Fin z) => negb (z =? 0)
  | JNum _ => true
  | JStr s => negb (String.eqb s EmptyString)
  | JArr _ | JObj _ | JBuiltin _ => true
  end.

(** [a || b] *)
Definition or_else (a b : jsval) : jsval := if truthy a then a else b.

(** The keys of [Object.prototype]. *)
Definition objectPrototypeKeys : list string :=
  [ "constructor"; "__defineGetter__"; "__defineSetter__"; "hasOwnProperty";
    "__lookupGetter__"; "__lookupSetter__"; "isPrototypeOf";
    "propertyIsEnumerable"; "toString"; "valueOf"; "__proto__";
    "toLocaleString" ]%string.

(** Is [key] the key of a member that a plain object inherits? *)
Definition inherited (key : string) : bool :=
  existsb (String.eqb key) objectPrototypeKeys.

(** Lookup among an object's own properties ([undefined] when the key is
    not an own property) and the own-property test. *)
Fixpoint get_prop (props : list (string * jsval)) (key : string) : jsval :=
  match props with
  | [] => JUndefined
  | (k, v) :: rest => if String.eqb k key then v else get_prop rest key
  end.

Fixpoint has_prop (props : list (string * jsval)) (key : string) : bool :=
  match props with
  | [] => false
  | (k, _) :: rest => String.eqb k key || has_prop rest key
  end.

Definition is_digit (c : ascii) : bool :=
  let n := nat_of_ascii c in (48 <=? n)%nat && (n <=? 57)%nat.

Definition digit_value (c : ascii) : Z := Z.of_nat (nat_of_ascii c) - 48.

Fixpoint all_digits (s : string) : bool :=
  match s with
  | EmptyString => true
  | String c rest => is_digit c && all_digits rest
  end.

(** The value of a string of decimal digits, most significant first. *)
Fixpoint digits_value (acc : Z) (s : string) : Z :=
  match s with
  | EmptyString => acc
  | String c rest => digits_value (10 * acc + digit_value c) rest
  end.

Definition num_neg (n : jsnum) : jsnum :=
  match n with
  | NaN => NaN
  | NegInf => PosInf
  | PosInf => NegInf
  | Fin z => Fin (- z)
  | Frac m d => Frac (- m) d
  end.

(** White space and line terminators among the code units below 256: tab,
    line feed, vertical tab, form feed, carriage return, space and the
    no-break space. *)
Definition is_space (c : ascii) : bool :=
  let n := nat_of_ascii c in
  ((9 <=? n) && (n <=? 13) || (n =? 32) || (n =? 160))%nat.

Fixpoint trim_start (s : string) : string :=
  match s with
  | EmptyString => EmptyString
  | String c rest => if is_space c then trim_start rest else s
  end.

Fixpoint trim_end (s : string) : string :=
  match s with
  | EmptyString => EmptyString
  | String c rest =>
      match trim_end rest with
      | EmptyString => if is_space c then EmptyString else String c EmptyString
      | kept => String c kept
      end
  end.

(** [s.trim()] *)
Definition trim (s : string) : string := trim_end (trim_start s).

(** The decimal digits at the front of a string, and what follows them. *)
Fixpoint take_digits (s : string) : string * string :=
  match s with
  | EmptyString => (EmptyString, EmptyString)
  | String c rest =>
      if is_digit c
      then let (digits, tail) := take_digits rest in (String c digits, tail)
      else (EmptyString, s)
  end.

(** A non-empty string of decimal digits. *)
Definition is_digits (s : string) : bool :=
  match s with
  | EmptyString => false
  | _ => all_digits s
  end.

(** The value of a digit of a literal in radix 2, 8 or 16. *)
Definition radix_digit (radix : Z) (c : ascii) : option Z :=
  let n := Z.of_nat (nat_of_ascii c) in
  let v := if (48 <=? n) && (n <=? 57) then n - 48
           else if (65 <=? n) && (n <=? 70) then n - 55
           else if (97 <=? n) && (n <=? 102) then n - 87
           else radix in
  if v <? radix then Some v else None.

Fixpoint radix_value (radix acc : Z) (s : string) : option Z :=
  match s with
  | EmptyString => Some acc
  | String c rest =>
      match radix_digit radix c with
      | Some v => radix_value radix (radix * acc + v) rest
      | None => None
      end
  end.

(** A finite value as a 64-bit float holds it, as far as its range goes:
    past the largest float it is an infinity, below the smallest it is
    zero. *)
Definition in_float_range (n : jsnum) : jsnum :=
  let overflow := 2 ^ 1024 - 2 ^ 970 in
  match n with
  | Fin z =>
      if overflow <=? Z.abs z then (if 0 <? z then PosInf else NegInf) else n
  | Frac m d =>
      if overflow * Zpos d <=? Z.abs m then (if 0 <? m then PosInf else NegInf)
      else if Z.abs m * 2 ^ 1075 <=? Zpos d then Fin 0
      else n
  | _ => n
  end.

(** The digits of a [0x], [0o] or [0b] literal. *)
Definition radix_literal (radix : Z) (digits : string) : jsnum :=
  match digits with
  | EmptyString => NaN
  | _ =>
      match radix_value radix 0 digits with
      | Some v => in_float_range (Fin v)
      | None => NaN
      end
  end.

(** The exponent part that may follow the digits of a decimal literal:
    nothing, or [e] or [E] with a signed integer. *)
Definition exponent_part (s : string) : option Z :=
  match s with
  | EmptyString => Some 0
  | String c rest =>
      if Ascii.eqb c "e" || Ascii.eqb c "E" then
        match rest with
        | String "+"%char digits =>
            if is_digits digits then Some (digits_value 0 digits) else None
        | String "-"%char digits =>
            if is_digits digits then Some (- digits_value 0 digits) else None
        | digits =>
            if is_digits digits then Some (digits_value 0 digits) else None
        end
      else None
  end.

(** [m * 10 ^ k] *)
Definition scale (m k : Z) : jsnum :=
  if 0 <=? k then Fin (m * 10 ^ k) else ratio m (Z.to_pos (10 ^ (- k))).

(** An unsigned decimal literal: [Infinity], or digits with an optional
    fraction and exponent, of which the digits before or after the point
    may be missing but not both. *)
Definition unsigned_decimal (s : string) : jsnum :=
  if String.eqb s "Infinity" then PosInf
  else
    let (whole, afterWhole) := take_digits s in
    let (fraction, afterFraction) :=
      match afterWhole with
      | String "."%char rest => take_digits rest
      | _ => (EmptyString, afterWhole)
      end in
    match (whole ++ fraction)%string with
    | EmptyString => NaN
    | digits =>
        match exponent_part afterFraction with
        | Some e =>
            in_float_range
              (scale (digits_value 0 digits)
                 (e - Z.of_nat (String.length fraction)))
        | None => NaN
        end
    end.

(** [Number(s)] on a string: white space around the literal is dropped,
    the empty string is 0, a literal is a [0x], [0o] or [0b] integer or an
    optionally signed decimal literal, and every other text is [NaN]. *)
Definition StringToNumber (s : string) : jsnum :=
  match trim s with
  | EmptyString => Fin 0
  | String "0"%char (String x digits) as literal =>
      if Ascii.eqb x "x" || Ascii.eqb x "X" then radix_literal 16 digits
      else if Ascii.eqb x "o" || Ascii.eqb x "O" then radix_literal 8 digits
      else if Ascii.eqb x "b" || Ascii.eqb x "B" then radix_literal 2 digits
      else unsigned_decimal literal
  | String "+"%char rest => unsigned_decimal rest
  | String "-"%char rest => num_neg (unsigned_decimal rest)
  | literal => unsigned_decimal literal
  end.

(** [parseInt(s, 10)]: leading white space and a sign are read, then the
    decimal digits up to the first other character; without a digit the
    result is [NaN]. *)
Definition parseInt (s : string) : jsnum :=
  let body := trim_start s in
  let (negative, unsigned) :=
    match body with
    | String "-"%char rest => (true, rest)
    | String "+"%char rest => (false, rest)
    | _ => (false, body)
    end in
  match fst (take_digits unsigned) with
  | EmptyString => NaN
  | digits =>
      let value := digits_value 0 digits in
      in_float_range (Fin (if negative then - value else value))
  end.

(** [Number(v)].  An array converts through its string form: the empty
    array and a one-element array holding [null] or [undefined] give 0, a
    one-element array converts like its element's string, longer arrays
    (their string has a comma) and plain objects give [NaN]. *)
Fixpoint Number (v : jsval) : jsnum :=
  match v with
  | JUndefined => NaN
  | JNull => Fin 0
  | JBool b => if b then Fin 1 else Fin 0
  | JNum n => n
  | JStr s => StringToNumber s
  | JArr [] => Fin 0
  | JArr [e] =>
      match e with
      | JUndefined | JNull => Fin 0
      | JBool _ => NaN
      | _ => Number e
      end
  | JArr _ => NaN
  | JObj _ => NaN
  | JBuiltin _ => NaN
  end.

(** [s.split(sep)] for a one-character separator. *)
Fixpoint split_on (sep : ascii) (cur : string) (s : string) : list string :=
  match s with
  | EmptyString => [cur]
  | String c rest =>
      if Ascii.eqb c sep then cur :: split_on sep EmptyString rest
      else split_on sep (cur ++ String c EmptyString)%string rest
  end.

Definition split (s : string) (sep : ascii) : list string :=
  split_on sep EmptyString s.

(** [s.replace(/\D/g, '')]: keep the decimal digits. *)
Fixpoint strip_non_digits (s : string) : string :=
  match s with
  | EmptyString => EmptyString
  | String c rest =>
      if is_digit c then String c (strip_non_digits rest)
      else strip_non_digits rest
  end.

(** [s.startsWith(p)] *)
Definition startsWith (s p : string) : bool := String.prefix p s.

(** [arr[i]] for an integer index: [undefined] outside the array. *)
Definition index_Z {A : Type} (arr : list A) (i : Z) : option A :=
  if i <? 0 then None else nth_error arr (Z.to_nat i).

(** A stable descending sort.  [geb x y] says that [x] ranks at least as
    high as [y]; an element is inserted in front of the first element it
    ranks at least as high as, so elements of equal rank keep their input
    order.  It stands for [ORDER BY column DESC] over rows in storage order
    and for [Array.prototype.sort] with a descending comparator, which is
    stable. *)
Section StableSort.
Context {A : Type} (geb : A -> A -> bool).

Fixpoint insert_desc (x : A) (l : list A) : list A :=
  match l with
  | [] => [x]
  | y :: rest =>
      if geb x y then x :: y :: rest
      else y :: insert_desc x rest
  end.

Fixpoint sort_desc (l : list A) : list A :=
  match l with
  | [] => []
  | x :: rest => insert_desc x (sort_desc rest)
  end.

End StableSort.

End Js.

(* ================================================================== *)
(** * Shared: errors and utilities                                     *)
(* ================================================================== *)

Module Shared.

(** The error classes of [shared/src/errors] that the core throws; the
    routing context that [NoRoutingRuleError] copies into its details is
    left out. *)
Inductive DealerBDCError : Type :=
| DealerNotFoundError (dealerId : string)
| DealerInactiveError (dealerId : string)
| CallingWindowError (dealerId reason : string)
| RateLimitError (dealerId limitType : string)
| OptOutError (dealerId phone : string)
| MaxAttemptsError (leadId : string) (maxAttempts : Z)
| NoRoutingRuleError (dealerId : string)
| NoAvailableRepError (dealerId : string)
| ValidationError (message : string).

(** The [code] each error class passes to its base constructor. *)
Definition code (e : DealerBDCError) : string :=
  match e with
  | DealerNotFoundError _ => "DEALER_NOT_FOUND"
  | DealerInactiveError _ => "DEALER_INACTIVE"
  | CallingWindowError _ _ => "CALLING_WINDOW_ERROR"
  | RateLimitError _ _ => "RATE_LIMIT_ERROR"
  | OptOutError _ _ => "OPT_OUT_ERROR"
  | MaxAttemptsError _ _ => "MAX_ATTEMPTS_ERROR"
  | NoRoutingRuleError _ => "NO_ROUTING_RULE"
  | NoAvailableRepError _ => "NO_AVAILABLE_REP"
  | ValidationError _ => "VALIDATION_ERROR"
  end.

(** Everything a call can throw: an error class of the repository, a plain
    [Error], a [TypeError] of the runtime, or an error of the Postgres
    driver (named by its condition). *)
Inductive Exception : Type :=
| Thrown (e : DealerBDCError)
| PlainError (message : string)
| TypeError (message : string)
| PostgresError (condition : string).

Definition Result (A : Type) : Type := (Exception + A)%type.

Definition ret {A : Type} (a : A) : Result A := inr a.
Definition throw {A : Type} (e : Exception) : Result A := inl e.

Definition bind {A B : Type} (m : Result A) (k : A -> Result B) : Result B :=
  match m with
  | inl e => inl e
  | inr a => k a
  end.

(** [phoneUtils.toE164] with its default country code ['+1']. *)
Definition toE164 (phone : string) : string :=
  let defaultCountryCode := "+1"%string in
  let digits := Js.strip_non_digits phone in
  if (String.length digits =? 10)%nat then (defaultCountryCode ++ digits)%string
  else if (String.length digits =? 11)%nat && Js.startsWith digits "1"
  then ("+" ++ digits)%string
  else if Js.startsWith digits "+" then digits else ("+" ++ digits)%string.

End Shared.

Notation "x <- m ;; k" :=
  (Shared.bind m (fun x => k))
  (at level 100, m at next level, right associativity, only parsing).

(* ================================================================== *)
(** * Database schema                                                  *)
(* ================================================================== *)

Module Schema.

(** [dealers] *)
Module Dealer.
Record t : Type := mk {
  id : string;
  name : string;
  status : string;
  timezone : string
}.
End Dealer.

(** [dealer_users] *)
Module DealerUser.
Record t : Type := mk {
  id : string;
  dealerId : string;
  email : string;
  phone : option string;
  firstName : string;
  lastName : string;
  role : string;
  department : option string;
  acceptsTransfers : bool;
  transferPriority : option Z;
  status : string
}.
End DealerUser.

(** [dealer_calling_profiles]; the [time] columns arrive as ['HH:MM:SS']. *)
Module CallingProfile.
Record t : Type := mk {
  dealerId : string;
  callingHoursStart : string;
  callingHoursEnd : string;
  callingDaysOfWeek : list Z;
  maxConcurrentCalls : Z;
  maxCallsPerHour : Z;
  maxAttemptsPerLead : Z;
  retryDelayMinutes : list Z;
  honorDnc : bool;
  requireConsent : bool
}.
End CallingProfile.

(** [routing_rules]; [conditions] is the JSON object of the [jsonb] column. *)
Module RoutingRule.
Record t : Type := mk {
  id : string;
  dealerId : string;
  storeId : option string;
  name : string;
  priority : Z;
  conditions : list (string * Js.jsval);
  routeToType : string;
  routeToId : option string;
  fallbackRuleId : option string;
  active : bool
}.
End RoutingRule.

(** [opt_outs] *)
Module OptOut.
Record t : Type := mk {
  id : string;
  dealerId : string;
  phone : option string;
  email : option string;
  optOutType : string;
  reason : option string
}.
End OptOut.

(** [call_sessions] *)
Module CallSession.
Record t : Type := mk {
  id : string;
  dealerId : string;
  leadId : string;
  signalwireCallSid : option string;
  fromNumber : string;
  toNumber : string;
  swaigSessionId : option string;
  swaigAgentId : option string;
  status : string;
  outcome : option string;
  answeredAt : option Z;
  endedAt : option Z;
  durationSeconds : option Z;
  transferredToUserId : option string;
  transferCompleted : option bool;
  recordingUrl : option string;
  recordingDuration : option Z;
  updatedAt : Z;
  metadata : list (string * Js.jsval)
}.
End CallSession.

(** [call_attempts]; the table carries the unique index
    [unique_lead_attempt] on [(lead_id, attempt_number)]. *)
Module CallAttempt.
Record t : Type := mk {
  id : Z;
  dealerId : string;
  leadId : string;
  callSessionId : option string;
  attemptNumber : Z;
  status : string;
  scheduledFor : option Z;
  attemptedAt : option Z;
  failureReason : option string
}.
End CallAttempt.

(** The tables the core reads and writes, each in storage order. *)
Record Database : Type := mkDatabase {
  dealers : list Dealer.t;
  dealerUsers : list DealerUser.t;
  dealerCallingProfiles : list CallingProfile.t;
  routingRules : list RoutingRule.t;
  optOuts : list OptOut.t;
  callSessions : list CallSession.t;
  callAttempts : list CallAttempt.t
}.

End Schema.

(* ================================================================== *)
(** * The query layer                                                  *)
(* ================================================================== *)

Module Drizzle.

(** [findMany({ where })]: the rows that satisfy [where], in storage order. *)
Definition findMany {A : Type} (where_ : A -> bool) (rows : list A) : list A :=
  filter where_ rows.

(** [findFirst({ where })]: the first matching row, and [undefined] when no
    row matches (the callers in this repository test the result with [!row]
    or normalise it with [row || null]). *)
Definition findFirst {A : Type} (where_ : A -> bool) (rows : list A) : Js.jsref A :=
  match filter where_ rows with
  | [] => Js.RefUndefined
  | row :: _ => Js.RefObject row
  end.

(** [eq(column, value)] on a nullable text column: SQL [=] is not true on
    [NULL]. *)
Definition eq_nullable (column : option string) (value : string) : bool :=
  match column with
  | Some c => String.eqb c value
  | None => false
  end.

(** A relation declared with [relations(table, ...)], with the schema key
    of the table it refers to.  Every [one] of the schema carries its
    [fields] and [references]. *)
Inductive Relation : Type :=
| One (referencedTable : string)
| Many (referencedTable : string).

Definition referenced (r : Relation) : string :=
  match r with
  | One t | Many t => t
  end.

(** The relations that [schema/index.ts] declares: [dealersRelations],
    [storesRelations] and [leadsRelations].  No other table has any. *)
Definition declaredRelations (table : string) : list (string * Relation) :=
  if String.eqb table "dealers" then
    [ ("stores", Many "stores"); ("users", Many "dealerUsers");
      ("numbers", Many "dealerNumbers");
      ("callingProfile", Many "dealerCallingProfiles");
      ("routingRules", Many "routingRules"); ("leads", Many "leads") ]%string
  else if String.eqb table "stores" then
    [ ("dealer", One "dealers"); ("users", Many "dealerUsers");
      ("numbers", Many "dealerNumbers"); ("routingRules", Many "routingRules");
      ("leads", Many "leads") ]%string
  else if String.eqb table "leads" then
    [ ("dealer", One "dealers"); ("store", One "stores");
      ("assignedToUser", One "dealerUsers");
      ("identities", Many "leadIdentities");
      ("intentScores", Many "leadIntentScores");
      ("callSessions", Many "callSessions");
      ("callAttempts", Many "callAttempts");
      ("pixelEvents", Many "pixelEvents"); ("messageLogs", Many "messageLogs");
      ("vehicleInterests", Many "vehicleInterests");
      ("enrichment", Many "leadEnrichments") ]%string
  else [].

Fixpoint relationNamed (relations : list (string * Relation)) (name : string)
    : option Relation :=
  match relations with
  | [] => None
  | (k, r) :: rest => if String.eqb k name then Some r else relationNamed rest name
  end.

(** The [one] relations of a table that refer to [sourceTable]. *)
Definition reverseRelations (table sourceTable : string) : list Relation :=
  filter (fun r => String.eqb (referenced r) sourceTable)
    (map snd (declaredRelations table)).

Definition doubleQuote : string := String (ascii_of_nat 34) EmptyString.

(** How the query builder resolves one entry of [with] before any row is
    read.  A name that is no declared relation of the table makes it read a
    member of [undefined]; a [one] relation carries its columns; a [many]
    relation takes them from the one relation that the referenced table
    declares back, and is refused when there is none. *)
Definition normalizeRelation (table name : string) : Shared.Result unit :=
  match relationNamed (declaredRelations table) name with
  | None =>
      Shared.throw
        (Shared.TypeError
           "Cannot read properties of undefined (reading 'referencedTable')")
  | Some (One _) => Shared.ret tt
  | Some (Many target) =>
      match reverseRelations target table with
      | [One _] => Shared.ret tt
      | [] | [Many _] =>
          Shared.throw
            (Shared.PlainError
               ("There is not enough information to infer relation "
                ++ doubleQuote ++ table ++ "." ++ name ++ doubleQuote)%string)
      | _ :: _ :: _ =>
          Shared.throw
            (Shared.PlainError
               ("There are multiple relations between " ++ doubleQuote ++ target
                ++ doubleQuote ++ " and " ++ doubleQuote ++ table ++ doubleQuote
                ++ ". Please specify relation name")%string)
      end
  end.

Fixpoint normalizeRelations (table : string) (names : list string)
    : Shared.Result unit :=
  match names with
  | [] => Shared.ret tt
  | name :: rest =>
      Shared.bind (normalizeRelation table name)
        (fun _ => normalizeRelations table rest)
  end.

(** [findFirst({ where, with })]: the relations named under [with] are
    resolved, then the first matching row is read (its relations are not
    part of the rows modelled here). *)
Definition findFirstWith {A : Type} (table : string) (with_ : list string)
    (where_ : A -> bool) (rows : list A) : Shared.Result (Js.jsref A) :=
  Shared.bind (normalizeRelations table with_)
    (fun _ => Shared.ret (findFirst where_ rows)).

End Drizzle.

(* ================================================================== *)
(** * The database server and its driver                               *)
(* ================================================================== *)

Module Postgres.
Import Shared.

(** What the database server and its driver decide and the code of the
    repository does not:
    - [scan]: the order in which a query obtains the rows that satisfy its
      [where] clause, before [ORDER BY] sorts them (rows that tie on the
      sort key stay in that order);
    - [encode]: for a parameter that is bound to a text column and is not a
      string, [null] or [undefined], the text that is sent for it, or the
      condition under which it is refused. *)
Record Executor : Type := mkExecutor {
  scan : forall A : Type, (A -> bool) -> list A -> list A;
  encode : Js.jsval -> string + string
}.

(** A scan yields the rows that satisfy the clause, each of them once. *)
Definition sound (pg : Executor) : Prop :=
  forall (A : Type) (where_ : A -> bool) (rows : list A),
    Permutation (scan pg A where_ rows) (filter where_ rows).

(** [findMany({ where, orderBy })] for a descending order: [geb x y] says
    that [x] may come before [y]. *)
Definition orderedBy {A : Type} (pg : Executor) (geb : A -> A -> bool)
    (where_ : A -> bool) (rows : list A) : list A :=
  Js.sort_desc geb (scan pg A where_ rows).

(** A value bound to a text column: a string is sent as it is, [null] as
    [NULL], [undefined] is refused by the driver before the query is sent,
    and for the rest the executor decides. *)
Definition textParameter (pg : Executor) (v : Js.jsval)
    : Result (option string) :=
  match v with
  | Js.JStr s => ret (Some s)
  | Js.JNull => ret None
  | Js.JUndefined => throw (PostgresError "UNDEFINED_VALUE")
  | other =>
      match encode pg other with
      | inl condition => throw (PostgresError condition)
      | inr text => ret (Some text)
      end
  end.

(** The range of an [integer] column. *)
Definition int4 (z : Z) : bool := (-2147483648 <=? z) && (z <=? 2147483647).

(** A number bound to an [integer] column: the driver sends its decimal
    text, and the server takes an integer of the column's range. *)
Definition integerParameter (n : Js.jsnum) : Result Z :=
  match n with
  | Js.Fin z =>
      if int4 z then ret z
      else if Z.abs z <? 10 ^ 21
      then throw (PostgresError "numeric_value_out_of_range")
      else throw (PostgresError "invalid_text_representation")
  | _ => throw (PostgresError "invalid_text_representation")
  end.

Definition optionalInteger (n : option Js.jsnum) : Result (option Z) :=
  match n with
  | Some v => bind (integerParameter v) (fun z => ret (Some z))
  | None => ret None
  end.

(** Two executors for the examples, which bind strings only: rows come in
    storage order, or in reverse storage order. *)
Definition inStorageOrder : Executor :=
  {| scan := fun A where_ rows => filter where_ rows;
     encode := fun _ => inl "datatype_mismatch"%string |}.

Definition inReverseOrder : Executor :=
  {| scan := fun A where_ rows => rev (filter where_ rows);
     encode := fun _ => inl "datatype_mismatch"%string |}.

End Postgres.

(* ================================================================== *)
(** * LeadService: the compliance gate                                 *)
(* ================================================================== *)

Module LeadService.
Import Schema Shared.

(** The [channel] parameter: ['call' | 'sms' | 'email']. *)
Inductive Channel : Type := call | sms | email.

Definition channel_name (c : Channel) : string :=
  match c with
  | call => "call"
  | sms => "sms"
  | email => "email"
  end.

(** The [where] clause of the opt-out lookup. *)
Definition optOutWhere (dealerId normalizedPhone : string) (channel : Channel)
    (o : OptOut.t) : bool :=
  String.eqb (OptOut.dealerId o) dealerId
  && Drizzle.eq_nullable (OptOut.phone o) normalizedPhone
  && (String.eqb (OptOut.optOutType o) (channel_name channel)
      || String.eqb (OptOut.optOutType o) "all").

(** [LeadService.isOptedOut]: the lookup result is compared with [null]. *)
Definition isOptedOut (db : Database) (dealerId phone : string)
    (channel : Channel) : bool :=
  let normalizedPhone := toE164 phone in
  let optOut :=
    Drizzle.findFirst (optOutWhere dealerId normalizedPhone channel)
      (optOuts db) in
  Js.strict_ne_null optOut.

(** [LeadService.checkOptOut] *)
Definition checkOptOut (db : Database) (dealerId phone : string)
    (channel : Channel) : Result unit :=
  if isOptedOut db dealerId phone channel
  then throw (Thrown (OptOutError dealerId phone))
  else ret tt.

End LeadService.

(* ================================================================== *)
(** * DealerService: profile, calling window, rate limits, retry delay *)
(* ================================================================== *)

Module DealerService.
Import Schema Shared.

(** The IANA time-zone database: the UTC offset, in milliseconds, of a zone
    at an instant. *)
Definition TzDatabase : Type := string -> Z -> Z.

(** [toZonedTime(date, timeZone)]: the wall clock of [timeZone] at [date],
    as milliseconds on the local time line.  The getters below read that
    wall clock back, as date-fns does on a server whose own zone has no
    clock changes. *)
Definition toZonedTime (tz : TzDatabase) (date : Z) (timeZone : string) : Z :=
  date + tz timeZone date.

(** [getDay], [getHours], [getMinutes] of a wall-clock time; day 0 of the
    time line (1970-01-01) is a Thursday. *)
Definition getDay (zonedDate : Z) : Z := (zonedDate / 86400000 + 4) mod 7.
Definition getHours (zonedDate : Z) : Z := (zonedDate / 3600000) mod 24.
Definition getMinutes (zonedDate : Z) : Z := (zonedDate / 60000) mod 60.

(** [DealerService.getDealer] *)
Definition getDealer (db : Database) (dealerId : string) : Result Dealer.t :=
  match Drizzle.findFirst (fun d => String.eqb (Dealer.id d) dealerId)
          (dealers db) with
  | Js.RefObject dealer => ret dealer
  | _ => throw (Thrown (DealerNotFoundError dealerId))
  end.

(** The profile returned when the dealer has no profile row. *)
Definition defaultProfile (dealerId : string) : CallingProfile.t :=
  {| CallingProfile.dealerId := dealerId;
     CallingProfile.callingHoursStart := "08:00:00";
     CallingProfile.callingHoursEnd := "20:00:00";
     CallingProfile.callingDaysOfWeek := [1; 2; 3; 4; 5; 6];
     CallingProfile.maxConcurrentCalls := 3;
     CallingProfile.maxCallsPerHour := 50;
     CallingProfile.maxAttemptsPerLead := 3;
     CallingProfile.retryDelayMinutes := [30; 120; 1440];
     CallingProfile.honorDnc := true;
     CallingProfile.requireConsent := true |}.

(** [DealerService.getCallingProfile] *)
Definition getCallingProfile (db : Database) (dealerId : string)
    : CallingProfile.t :=
  match Drizzle.findFirst
          (fun p => String.eqb (CallingProfile.dealerId p) dealerId)
          (dealerCallingProfiles db) with
  | Js.RefObject profile => profile
  | _ => defaultProfile dealerId
  end.

(** An element of a destructured array of numbers inside an arithmetic
    expression: a missing element is [undefined], which counts as [NaN]. *)
Definition element (l : list Js.jsnum) (i : nat) : Js.jsnum :=
  match nth_error l i with
  | Some n => n
  | None => Js.NaN
  end.

(** [const [h, m] = time.split(':').map(Number); h * 60 + m] *)
Definition timeMinutes (time : string) : Js.jsnum :=
  let parts := map Js.StringToNumber (Js.split time ":"%char) in
  Js.num_add (Js.num_mul (element parts 0) (Js.Fin 60)) (element parts 1).

(** [callingDaysOfWeek.includes(dayOfWeek)] *)
Definition includesDay (days : list Z) (dayOfWeek : Z) : bool :=
  existsb (Z.eqb dayOfWeek) days.

(** [DealerService.isWithinCallingWindow] *)
Definition isWithinCallingWindow (tz : TzDatabase) (db : Database)
    (dealerId : string) (date : Z) : Result bool :=
  dealer <- getDealer db dealerId ;;
  let profile := getCallingProfile db dealerId in
  let zonedDate := toZonedTime tz date (Dealer.timezone dealer) in
  let dayOfWeek := getDay zonedDate in
  if negb (includesDay (CallingProfile.callingDaysOfWeek profile) dayOfWeek)
  then ret false
  else
    let currentHour := getHours zonedDate in
    let currentMinute := getMinutes zonedDate in
    let currentTimeMinutes := Js.Fin (currentHour * 60 + currentMinute) in
    let startTimeMinutes := timeMinutes (CallingProfile.callingHoursStart profile) in
    let endTimeMinutes := timeMinutes (CallingProfile.callingHoursEnd profile) in
    ret (Js.num_ge currentTimeMinutes startTimeMinutes
         && Js.num_le currentTimeMinutes endTimeMinutes).

(** The object [getRateLimitState] returns. *)
Record RateLimitState : Type := mkRateLimitState {
  concurrentCalls : Z;
  stateMaxConcurrentCalls : Z;
  callsThisHour : Z;
  stateMaxCallsPerHour : Z;
  canMakeCall : bool
}.

(** [DealerService.getRateLimitState]: the two usage figures are the
    literals of the source, not read from the call tables. *)
Definition getRateLimitState (db : Database) (dealerId : string)
    : RateLimitState :=
  let profile := getCallingProfile db dealerId in
  {| concurrentCalls := 0;
     stateMaxConcurrentCalls := CallingProfile.maxConcurrentCalls profile;
     callsThisHour := 0;
     stateMaxCallsPerHour := CallingProfile.maxCallsPerHour profile;
     canMakeCall := true |}.

(** [DealerService.checkRateLimits] *)
Definition checkRateLimits (db : Database) (dealerId : string) : Result unit :=
  let state := getRateLimitState db dealerId in
  if stateMaxConcurrentCalls state <=? concurrentCalls state
  then throw (Thrown (RateLimitError dealerId "concurrent calls"))
  else if stateMaxCallsPerHour state <=? callsThisHour state
  then throw (Thrown (RateLimitError dealerId "hourly calls"))
  else ret tt.

(** [DealerService.getRetryDelay]: [retryDelayMinutes[delayIndex] || 1440]. *)
Definition getRetryDelay (db : Database) (dealerId : string)
    (attemptNumber : Z) : Z :=
  let profile := getCallingProfile db dealerId in
  let delays := CallingProfile.retryDelayMinutes profile in
  let delayIndex := Z.min (attemptNumber - 1) (Z.of_nat (List.length delays) - 1) in
  match Js.index_Z delays delayIndex with
  | Some delay => if delay =? 0 then 1440 else delay
  | None => 1440
  end.

End DealerService.

(* ================================================================== *)
(** * RoutingEngine                                                    *)
(* ================================================================== *)

Module RoutingEngine.
Import Schema Shared.

Record RoutingContext : Type := mkContext {
  dealerId : string;
  storeId : option string;
  department : option string;
  vehicleOfInterest : option string;
  source : option string;
  intentScore : option Js.jsnum;
  leadValue : option Js.jsnum;
  metadata : option (list (string * Js.jsval))
}.

(** The [user] object of a resolved target. *)
Record TargetUser : Type := mkTargetUser {
  user_id : string;
  user_firstName : string;
  user_lastName : string;
  user_phone : string;
  user_email : string;
  user_role : string;
  user_department : option string
}.

Record RoutingTarget : Type := mkTarget {
  type : string;
  userId : option string;
  user : option TargetUser
}.

Definition optional_string (o : option string) : Js.jsval :=
  match o with
  | Some s => Js.JStr s
  | None => Js.JUndefined
  end.

Definition optional_number (o : option Js.jsnum) : Js.jsval :=
  match o with
  | Some n => Js.JNum n
  | None => Js.JUndefined
  end.

(** [context[key as keyof RoutingContext]]: a field of the context, else a
    member the context object inherits, else [undefined]. *)
Definition context_get (context : RoutingContext) (key : string) : Js.jsval :=
  if String.eqb key "dealerId" then Js.JStr (dealerId context)
  else if String.eqb key "storeId" then optional_string (storeId context)
  else if String.eqb key "department" then optional_string (department context)
  else if String.eqb key "vehicleOfInterest"
  then optional_string (vehicleOfInterest context)
  else if String.eqb key "source" then optional_string (source context)
  else if String.eqb key "intentScore" then optional_number (intentScore context)
  else if String.eqb key "leadValue" then optional_number (leadValue context)
  else if String.eqb key "metadata"
  then match metadata context with
       | Some m => Js.JObj m
       | None => Js.JUndefined
       end
  else if Js.inherited key then Js.JBuiltin key
  else Js.JUndefined.

(** [RoutingEngine.evaluateCondition] *)
Definition evaluateCondition (key : string) (conditionValue : Js.jsval)
    (context : RoutingContext) : bool :=
  let contextValue := context_get context key in
  match conditionValue with
  | Js.JObj props =>
      if Js.has_prop props "min" || Js.has_prop props "max" then
        let numValue := Js.Number contextValue in
        let min := if Js.has_prop props "min"
                   then Js.Number (Js.get_prop props "min") else Js.NegInf in
        let max := if Js.has_prop props "max"
                   then Js.Number (Js.get_prop props "max") else Js.PosInf in
        Js.num_ge numValue min && Js.num_le numValue max
      else
        match Js.has_prop props "in", Js.get_prop props "in" with
        | true, Js.JArr elems => Js.includes elems contextValue
        | _, _ =>
            if Js.has_prop props "exists" then
              let exists_ :=
                negb (Js.strict_eq contextValue Js.JUndefined)
                && negb (Js.strict_eq contextValue Js.JNull) in
              if Js.truthy (Js.get_prop props "exists")
              then exists_ else negb exists_
            else Js.strict_eq contextValue conditionValue
        end
  | _ => Js.strict_eq contextValue conditionValue
  end.

(** [RoutingEngine.evaluateRuleConditions]: the loop returns [false] at the
    first entry that fails; an object without keys matches. *)
Fixpoint evaluateRuleConditions (conditions : list (string * Js.jsval))
    (context : RoutingContext) : bool :=
  match conditions with
  | [] => true
  | (key, value) :: rest =>
      if negb (evaluateCondition key value context) then false
      else evaluateRuleConditions rest context
  end.

Definition targetOfUser (u : DealerUser.t) : RoutingTarget :=
  {| type := "user";
     userId := Some (DealerUser.id u);
     user := Some
       {| user_id := DealerUser.id u;
          user_firstName := DealerUser.firstName u;
          user_lastName := DealerUser.lastName u;
          user_phone := match DealerUser.phone u with
                        | Some p => p
                        | None => EmptyString
                        end;
          user_email := DealerUser.email u;
          user_role := DealerUser.role u;
          user_department := DealerUser.department u |} |}.

Definition voicemailTarget : RoutingTarget :=
  {| type := "voicemail"; userId := None; user := None |}.

Definition acceptingTransfers (u : DealerUser.t) : bool :=
  String.eqb (DealerUser.status u) "active"
  && Bool.eqb (DealerUser.acceptsTransfers u) true.

(** [RoutingEngine.findAvailableUser] *)
Definition findAvailableUser (db : Database) (userId_ : string)
    : option RoutingTarget :=
  match Drizzle.findFirst
          (fun u => String.eqb (DealerUser.id u) userId_ && acceptingTransfers u)
          (dealerUsers db) with
  | Js.RefObject u => Some (targetOfUser u)
  | _ => None
  end.

(** [ORDER BY transfer_priority DESC]: Postgres puts [NULL] first. *)
Definition transferPriority_geb (a b : DealerUser.t) : bool :=
  match DealerUser.transferPriority a, DealerUser.transferPriority b with
  | None, _ => true
  | Some _, None => false
  | Some x, Some y => y <=? x
  end.

(** The [where] clause of [findAvailableUserByDepartment]; a department
    parameter that is [NULL] is equal to no department. *)
Definition availableIn (dealerId_ : string) (department_ : option string)
    (u : DealerUser.t) : bool :=
  String.eqb (DealerUser.dealerId u) dealerId_
  && match department_ with
     | Some d => Drizzle.eq_nullable (DealerUser.department u) d
     | None => false
     end
  && acceptingTransfers u.

(** [RoutingEngine.findAvailableUserByDepartment]; [department] is the
    value of [conditions.department], which the query binds as a
    parameter. *)
Definition findAvailableUserByDepartment (pg : Postgres.Executor)
    (db : Database) (dealerId_ : string) (department_ : Js.jsval)
    : Result (option RoutingTarget) :=
  parameter <- Postgres.textParameter pg department_ ;;
  let users :=
    Postgres.orderedBy pg transferPriority_geb
      (availableIn dealerId_ parameter) (dealerUsers db) in
  match users with
  | [] => ret None
  | u :: _ => ret (Some (targetOfUser u))
  end.

(** [RoutingEngine.resolveRuleTarget] *)
Definition resolveRuleTarget (pg : Postgres.Executor) (db : Database)
    (rule : RoutingRule.t) : Result (option RoutingTarget) :=
  let routeToType := RoutingRule.routeToType rule in
  if String.eqb routeToType "user" then
    match RoutingRule.routeToId rule with
    | Some routeToId =>
        if String.eqb routeToId EmptyString then ret None
        else ret (findAvailableUser db routeToId)
    | None => ret None
    end
  else if String.eqb routeToType "department" then
    findAvailableUserByDepartment pg db (RoutingRule.dealerId rule)
      (Js.get_prop (RoutingRule.conditions rule) "department")
  else if String.eqb routeToType "team" then ret None
  else if String.eqb routeToType "voicemail" then ret (Some voicemailTarget)
  else ret None.

Definition priority_geb (a b : RoutingRule.t) : bool :=
  RoutingRule.priority b <=? RoutingRule.priority a.

Definition activeFor (dealerId_ : string) (r : RoutingRule.t) : bool :=
  String.eqb (RoutingRule.dealerId r) dealerId_
  && Bool.eqb (RoutingRule.active r) true.

(** [findMany({ where, orderBy: [desc(routingRules.priority)] })] *)
Definition rulesByPriority (pg : Postgres.Executor)
    (where_ : RoutingRule.t -> bool) (db : Database) : list RoutingRule.t :=
  Postgres.orderedBy pg priority_geb where_ (routingRules db).

(** The [where] clause of the store query of [getActiveRules]. *)
Definition activeForStore (dealerId_ sid : string) (r : RoutingRule.t) : bool :=
  activeFor dealerId_ r && Drizzle.eq_nullable (RoutingRule.storeId r) sid.

(** [RoutingEngine.getActiveRules]; [if (storeId)] holds for a non-empty
    store id, and [Array.prototype.sort] is stable. *)
Definition getActiveRules (pg : Postgres.Executor) (db : Database)
    (dealerId_ : string) (storeId_ : option string) : list RoutingRule.t :=
  let conditions := activeFor dealerId_ in
  match storeId_ with
  | Some sid =>
      if String.eqb sid EmptyString then rulesByPriority pg conditions db
      else
        let dealerRules := rulesByPriority pg conditions db in
        let storeRules := rulesByPriority pg (activeForStore dealerId_ sid) db in
        Js.sort_desc priority_geb (storeRules ++ dealerRules)
  | None => rulesByPriority pg conditions db
  end.

(** The fallback branch of [route]: taken when the rule's own target did
    not resolve and [rule.fallbackRuleId] is set; the fallback rule is
    looked up by id alone and resolved once. *)
Definition resolveFallback (pg : Postgres.Executor) (db : Database)
    (rule : RoutingRule.t) : Result (option RoutingTarget) :=
  match RoutingRule.fallbackRuleId rule with
  | Some fallbackRuleId_ =>
      if String.eqb fallbackRuleId_ EmptyString then ret None
      else
        match Drizzle.findFirst
                (fun r => String.eqb (RoutingRule.id r) fallbackRuleId_)
                (routingRules db) with
        | Js.RefObject fallbackRule => resolveRuleTarget pg db fallbackRule
        | _ => ret None
        end
  | None => ret None
  end.

(** What one matched rule yields inside the loop of [route]: its own
    target, else its fallback rule's target, else nothing. *)
Definition resolveMatched (pg : Postgres.Executor) (db : Database)
    (rule : RoutingRule.t) : Result (option RoutingTarget) :=
  target <- resolveRuleTarget pg db rule ;;
  match target with
  | Some t => ret (Some t)
  | None => resolveFallback pg db rule
  end.

(** The [for (const rule of rules)] loop of [route] with the [throw] that
    follows it. *)
Fixpoint routeLoop (pg : Postgres.Executor) (db : Database)
    (context : RoutingContext) (rules : list RoutingRule.t)
    : Result RoutingTarget :=
  match rules with
  | [] => throw (Thrown (NoAvailableRepError (dealerId context)))
  | rule :: rest =>
      if evaluateRuleConditions (RoutingRule.conditions rule) context then
        found <- resolveMatched pg db rule ;;
        match found with
        | Some t => ret t
        | None => routeLoop pg db context rest
        end
      else routeLoop pg db context rest
  end.

(** [RoutingEngine.route] *)
Definition route (pg : Postgres.Executor) (db : Database)
    (context : RoutingContext) : Result RoutingTarget :=
  let rules := getActiveRules pg db (dealerId context) (storeId context) in
  match rules with
  | [] => throw (Thrown (NoRoutingRuleError (dealerId context)))
  | _ :: _ => routeLoop pg db context rules
  end.

(** The loop of [getFallbackChain]: [remaining] counts the iterations that
    [i < 10] still allows. *)
Fixpoint fallbackChainFrom (db : Database) (remaining : nat)
    (currentRuleId : option string) : list RoutingRule.t :=
  match remaining with
  | O => []
  | S remaining' =>
      match currentRuleId with
      | Some ruleId =>
          if String.eqb ruleId EmptyString then []
          else
            match Drizzle.findFirst
                    (fun r => String.eqb (RoutingRule.id r) ruleId)
                    (routingRules db) with
            | Js.RefObject rule =>
                rule :: fallbackChainFrom db remaining'
                          (RoutingRule.fallbackRuleId rule)
            | _ => []
            end
      | None => []
      end
  end.

(** [RoutingEngine.getFallbackChain] *)
Definition getFallbackChain (db : Database) (ruleId : string)
    : list RoutingRule.t :=
  fallbackChainFrom db 10 (Some ruleId).

End RoutingEngine.

(* ================================================================== *)
(** * CallService: sessions, attempts and retries                      *)
(* ================================================================== *)

Module CallService.
Import Schema Shared.

(** [UpdateCallSessionInput]; an absent (or [undefined]) field is [None]
    and is left out of the SQL [SET] list. *)
Record UpdateCallSessionInput : Type := mkUpdate {
  signalwireCallSid : option string;
  status : option string;
  outcome : option string;
  answeredAt : option Z;
  endedAt : option Z;
  durationSeconds : option Js.jsnum;
  transferredToUserId : option string;
  transferCompleted : option bool;
  recordingUrl : option string;
  recordingDuration : option Js.jsnum;
  metadata : option (list (string * Js.jsval))
}.


(** A required column takes the new value when one is given. *)
Definition assign {A : Type} (new : option A) (old : A) : A :=
  match new with
  | Some v => v
  | None => old
  end.

(** A nullable column takes the new value when one is given. *)
Definition assignNullable {A : Type} (new : option A) (old : option A)
    : option A :=
  match new with
  | Some v => Some v
  | None => old
  end.

(** An [integer] column takes the new number when one is given; the server
    has accepted the number as an integer before a row is written. *)
Definition assignInteger (new : option Js.jsnum) (old : option Z) : option Z :=
  match new with
  | Some (Js.Fin z) => Some z
  | _ => old
  end.

(** [.set({ ...input, updatedAt: new Date() })] on one row. *)
Definition applyUpdate (input : UpdateCallSessionInput) (now : Z)
    (s : CallSession.t) : CallSession.t :=
  {| CallSession.id := CallSession.id s;
     CallSession.dealerId := CallSession.dealerId s;
     CallSession.leadId := CallSession.leadId s;
     CallSession.signalwireCallSid :=
       assignNullable (signalwireCallSid input) (CallSession.signalwireCallSid s);
     CallSession.fromNumber := CallSession.fromNumber s;
     CallSession.toNumber := CallSession.toNumber s;
     CallSession.swaigSessionId := CallSession.swaigSessionId s;
     CallSession.swaigAgentId := CallSession.swaigAgentId s;
     CallSession.status := assign (status input) (CallSession.status s);
     CallSession.outcome := assignNullable (outcome input) (CallSession.outcome s);
     CallSession.answeredAt :=
       assignNullable (answeredAt input) (CallSession.answeredAt s);
     CallSession.endedAt := assignNullable (endedAt input) (CallSession.endedAt s);
     CallSession.durationSeconds :=
       assignInteger (durationSeconds input) (CallSession.durationSeconds s);
     CallSession.transferredToUserId :=
       assignNullable (transferredToUserId input)
         (CallSession.transferredToUserId s);
     CallSession.transferCompleted :=
       assignNullable (transferCompleted input) (CallSession.transferCompleted s);
     CallSession.recordingUrl :=
       assignNullable (recordingUrl input) (CallSession.recordingUrl s);
     CallSession.recordingDuration :=
       assignInteger (recordingDuration input) (CallSession.recordingDuration s);
     CallSession.updatedAt := now;
     CallSession.metadata := assign (metadata input) (CallSession.metadata s) |}.

Definition withCallSessions (db : Database) (rows : list CallSession.t)
    : Database :=
  {| dealers := dealers db;
     dealerUsers := dealerUsers db;
     dealerCallingProfiles := dealerCallingProfiles db;
     routingRules := routingRules db;
     optOuts := optOuts db;
     callSessions := rows;
     callAttempts := callAttempts db |}.

Definition withCallAttempts (db : Database) (rows : list CallAttempt.t)
    : Database :=
  {| dealers := dealers db;
     dealerUsers := dealerUsers db;
     dealerCallingProfiles := dealerCallingProfiles db;
     routingRules := routingRules db;
     optOuts := optOuts db;
     callSessions := callSessions db;
     callAttempts := rows |}.

(** [CallService.getCallSession]: the query asks for the relations [lead]
    and [dealer] of the session. *)
Definition getCallSession (db : Database) (callSessionId : string)
    : Result (Js.jsref CallSession.t) :=
  session <- Drizzle.findFirstWith "callSessions" ["lead"; "dealer"]%string
               (fun s => String.eqb (CallSession.id s) callSessionId)
               (callSessions db) ;;
  ret (Js.ref_or_null session).

(** [CallService.getCallSessionBySignalwireSid] *)
Definition getCallSessionBySignalwireSid (db : Database) (sid : string)
    : Js.jsref CallSession.t :=
  Js.ref_or_null
    (Drizzle.findFirst
       (fun s => Drizzle.eq_nullable (CallSession.signalwireCallSid s) sid)
       (callSessions db)).

(** The unique column [signalwire_call_sid]: does a session other than the
    one being updated already carry the SID? *)
Definition sidTaken (db : Database) (callSessionId callSid : string) : bool :=
  existsb
    (fun s => negb (String.eqb (CallSession.id s) callSessionId)
              && Drizzle.eq_nullable (CallSession.signalwireCallSid s) callSid)
    (callSessions db).

(** The foreign key of [transferred_to_user_id]: is the user stored? *)
Definition userStored (db : Database) (userId : string) : bool :=
  existsb (fun u => String.eqb (DealerUser.id u) userId) (dealerUsers db).

(** The constraint of [call_sessions] that a rewritten row would break:
    the unique SID, then the foreign key of the user. *)
Definition violation (db : Database) (callSessionId : string)
    (input : UpdateCallSessionInput) : option Exception :=
  if match signalwireCallSid input with
     | Some sid => sidTaken db callSessionId sid
     | None => false
     end
  then Some (PostgresError "unique_violation")
  else if match transferredToUserId input with
          | Some userId => negb (userStored db userId)
          | None => false
          end
  then Some (PostgresError "foreign_key_violation")
  else None.

(** Is a session with the id stored? *)
Definition sessionStored (db : Database) (callSessionId : string) : bool :=
  existsb (fun s => String.eqb (CallSession.id s) callSessionId)
    (callSessions db).

(** [CallService.updateCallSession]: [UPDATE ... WHERE id = ? RETURNING *].
    The server reads the two numbers as integers, then rewrites the row
    with the given id, whatever its current status, unless the new row
    breaks a constraint; the first rewritten row is returned.  When the
    update is refused nothing is written. *)
Definition updateCallSession (db : Database) (callSessionId : string)
    (input : UpdateCallSessionInput) (now : Z)
    : Result (Js.jsref CallSession.t * Database) :=
  _ <- Postgres.optionalInteger (durationSeconds input) ;;
  _ <- Postgres.optionalInteger (recordingDuration input) ;;
  match (if sessionStored db callSessionId
         then violation db callSessionId input else None) with
  | Some e => throw e
  | None =>
      let rows :=
        map (fun s => if String.eqb (CallSession.id s) callSessionId
                      then applyUpdate input now s else s)
          (callSessions db) in
      ret (Drizzle.findFirst
             (fun s => String.eqb (CallSession.id s) callSessionId) rows,
           withCallSessions db rows)
  end.

(** [CallService.markAsTransferred] *)
Definition markAsTransferred (db : Database) (callSessionId userId : string)
    (completed : bool) (now : Z) : Result (Js.jsref CallSession.t * Database) :=
  updateCallSession db callSessionId
    {| signalwireCallSid := None;
       status := Some (if completed then "transferred" else "in_progress")%string;
       outcome := if completed then Some "transferred"%string else None;
       answeredAt := None;
       endedAt := None;
       durationSeconds := None;
       transferredToUserId := Some userId;
       transferCompleted := Some completed;
       recordingUrl := None;
       recordingDuration := None;
       metadata := None |} now.

Definition attemptNumber_geb (a b : CallAttempt.t) : bool :=
  CallAttempt.attemptNumber b <=? CallAttempt.attemptNumber a.

(** [CallService.getLatestCallAttempt]: [orderBy desc(attemptNumber)],
    [limit 1], then [attempt || null]. *)
Definition getLatestCallAttempt (db : Database) (leadId : string)
    : Js.jsref CallAttempt.t :=
  match Js.sort_desc attemptNumber_geb
          (Drizzle.findMany (fun a => String.eqb (CallAttempt.leadId a) leadId)
             (callAttempts db)) with
  | attempt :: _ => Js.RefObject attempt
  | [] => Js.RefNull
  end.

(** [(latestAttempt?.attemptNumber || 0) + 1] *)
Definition nextAttemptNumber (latestAttempt : Js.jsref CallAttempt.t) : Z :=
  match latestAttempt with
  | Js.RefObject a => CallAttempt.attemptNumber a + 1
  | _ => 0 + 1
  end.

(** The unique index [unique_lead_attempt]: is the pair taken? *)
Definition attemptExists (db : Database) (leadId : string) (attemptNumber : Z)
    : bool :=
  existsb (fun a => String.eqb (CallAttempt.leadId a) leadId
                    && (CallAttempt.attemptNumber a =? attemptNumber))
    (callAttempts db).

(** [insert(callAttempts).values(row).returning()]: the insert is rejected
    when [(leadId, attemptNumber)] is already in the table; otherwise the
    row is stored under a fresh id (the row count stands for it). *)
Definition insertCallAttempt (db : Database) (dealerId leadId : string)
    (attemptNumber : Z) (status_ : string) (scheduledFor : option Z)
    : Result (CallAttempt.t * Database) :=
  if attemptExists db leadId attemptNumber
  then throw (PostgresError "unique_violation")
  else
    let attempt :=
      {| CallAttempt.id := Z.of_nat (List.length (callAttempts db));
         CallAttempt.dealerId := dealerId;
         CallAttempt.leadId := leadId;
         CallAttempt.callSessionId := None;
         CallAttempt.attemptNumber := attemptNumber;
         CallAttempt.status := status_;
         CallAttempt.scheduledFor := scheduledFor;
         CallAttempt.attemptedAt := None;
         CallAttempt.failureReason := None |} in
    ret (attempt, withCallAttempts db (callAttempts db ++ [attempt])).

(** [CallService.createCallAttempt] *)
Definition createCallAttempt (db : Database) (dealerId leadId : string)
    (attemptNumber : Z) (scheduledFor : option Z)
    : Result (CallAttempt.t * Database) :=
  let profile := DealerService.getCallingProfile db dealerId in
  if CallingProfile.maxAttemptsPerLead profile <? attemptNumber
  then throw (Thrown (MaxAttemptsError leadId
                        (CallingProfile.maxAttemptsPerLead profile)))
  else
    insertCallAttempt db dealerId leadId attemptNumber
      (match scheduledFor with
       | Some _ => "scheduled"
       | None => "pending"
       end)%string
      scheduledFor.

(** [CallService.scheduleRetry]; [setMinutes(getMinutes() + delay)] moves
    the instant by [delay] minutes (the server clock keeping its UTC offset
    in between). *)
Definition scheduleRetry (db : Database) (dealerId leadId : string) (now : Z)
    : Result (CallAttempt.t * Database) :=
  let latestAttempt := getLatestCallAttempt db leadId in
  let nextAttempt := nextAttemptNumber latestAttempt in
  let delayMinutes := DealerService.getRetryDelay db dealerId nextAttempt in
  let scheduledFor := now + delayMinutes * 60000 in
  createCallAttempt db dealerId leadId nextAttempt (Some scheduledFor).

End CallService.

(* ================================================================== *)
(** * The SignalWire status webhook                                    *)
(* ================================================================== *)

Module SignalwireWebhook.
Import Schema Shared.

(** The literal [statusMap] of [mapSignalWireStatus]. *)
Definition statusMap : list (string * string) :=
  [ ("queued", "initiated");
    ("initiated", "initiated");
    ("ringing", "ringing");
    ("in-progress", "answered");
    ("completed", "completed");
    ("failed", "failed");
    ("busy", "busy");
    ("no-answer", "no_answer");
    ("canceled", "failed") ]%string.

Fixpoint lookup (table : list (string * string)) (key : string)
    : option string :=
  match table with
  | [] => None
  | (k, v) :: rest => if String.eqb k key then Some v else lookup rest key
  end.

(** [table[key]] on an object literal of texts: the literal's own entry,
    else the member inherited from [Object.prototype], else [undefined]. *)
Definition member (table : list (string * string)) (key : string) : Js.jsval :=
  match lookup table key with
  | Some v => Js.JStr v
  | None => if Js.inherited key then Js.JBuiltin key else Js.JUndefined
  end.

(** The property key that a form or JSON field gives: its text, and
    ['undefined'] when the field is missing. *)
Definition propertyKey (field : option string) : string :=
  match field with
  | Some text => text
  | None => "undefined"
  end.

(** [mapSignalWireStatus]: [statusMap[signalwireStatus] || 'initiated'] *)
Definition mapSignalWireStatus (signalwireStatus : string) : Js.jsval :=
  Js.or_else (member statusMap signalwireStatus) (Js.JStr "initiated").

(** The fields of the form body that the [/status] handler reads; a field
    the body does not carry is [None]. *)
Record StatusBody : Type := mkStatusBody {
  CallSid : option string;
  CallStatus : option string;
  CallDuration : option string
}.

(** [body.CallDuration ? parseInt(body.CallDuration, 10) : undefined] *)
Definition parsedDuration (body : StatusBody) : option Js.jsnum :=
  match CallDuration body with
  | Some text =>
      if String.eqb text EmptyString then None else Some (Js.parseInt text)
  | None => None
  end.

(** The [updates] object the [/status] handler builds; [status] is the text
    sent for [updates.status]. *)
Definition statusUpdates (status callStatus : string)
    (duration : option Js.jsnum) (now : Z)
    : CallService.UpdateCallSessionInput :=
  let ended :=
    String.eqb callStatus "completed"
    && match duration with Some _ => true | None => false end in
  {| CallService.signalwireCallSid := None;
     CallService.status := Some status;
     CallService.outcome := None;
     CallService.answeredAt :=
       if ended then None
       else if String.eqb callStatus "in-progress" then Some now else None;
     CallService.endedAt := if ended then Some now else None;
     CallService.durationSeconds := if ended then duration else None;
     CallService.transferredToUserId := None;
     CallService.transferCompleted := None;
     CallService.recordingUrl := None;
     CallService.recordingDuration := None;
     CallService.metadata := None |}.

(** What a webhook answers: [{ success: true }], or the 500 of its
    [catch] block. *)
Inductive Response : Type :=
| Success
| InternalServerError.

(** A handler whose body threw answers 500 and has written nothing. *)
Definition answer (db : Database) (body : Result Database)
    : Response * Database :=
  match body with
  | inr db' => (Success, db')
  | inl _ => (InternalServerError, db)
  end.

(** The text sent for a value written to the [status] column, which takes
    no [NULL]. *)
Definition statusText (pg : Postgres.Executor) (status : Js.jsval)
    : Result string :=
  text <- Postgres.textParameter pg status ;;
  match text with
  | Some t => ret t
  | None => throw (PostgresError "not_null_violation")
  end.

(** The [try] block of [POST /webhooks/signalwire/status]: the store
    afterwards.  A body without [CallSid] hands [undefined] to the lookup,
    which the driver refuses. *)
Definition statusHandler (pg : Postgres.Executor) (db : Database)
    (body : StatusBody) (now : Z) : Result Database :=
  let callStatus := propertyKey (CallStatus body) in
  let duration := parsedDuration body in
  callSid <- match CallSid body with
             | Some sid => ret sid
             | None => throw (PostgresError "UNDEFINED_VALUE")
             end ;;
  match CallService.getCallSessionBySignalwireSid db callSid with
  | Js.RefObject session =>
      status <- statusText pg (mapSignalWireStatus callStatus) ;;
      updated <- CallService.updateCallSession db (CallSession.id session)
                   (statusUpdates status callStatus duration now) now ;;
      ret (snd updated)
  | _ => ret db
  end.

(** [POST /webhooks/signalwire/status] *)
Definition postStatus (pg : Postgres.Executor) (db : Database)
    (body : StatusBody) (now : Z) : Response * Database :=
  answer db (statusHandler pg db body now).

End SignalwireWebhook.

(* ================================================================== *)
(** * The trigger-call job                                             *)
(* ================================================================== *)

Module TriggerCall.
Import Schema Shared.

(** The two usage readers that step ['check-rate-limits'] calls on its
    [DealerService] instance; a reader the class does not define is
    [None]. *)
Record UsageReaders : Type := mkReaders {
  getCurrentConcurrentCalls : option (Database -> string -> Z);
  getCallsInLastHour : option (Database -> string -> Z)
}.

(** [DealerService] (dealer-service.ts) defines neither of the two. *)
Definition dealerServiceReaders : UsageReaders := mkReaders None None.

Definition decimal (z : Z) : string := NilEmpty.string_of_int (Z.to_int z).

(** The body of step ['check-rate-limits'] over the readers of its
    [DealerService] instance.  Calling a member that is not there throws a
    [TypeError]; a reached ceiling throws a plain [Error]. *)
Definition checkRateLimitsBody (readers : UsageReaders) (db : Database)
    (dealer_id : string) : Result unit :=
  match getCurrentConcurrentCalls readers with
  | None =>
      throw (TypeError "dealerService.getCurrentConcurrentCalls is not a function")
  | Some readConcurrent =>
      let concurrentCalls := readConcurrent db dealer_id in
      match getCallsInLastHour readers with
      | None =>
          throw (TypeError "dealerService.getCallsInLastHour is not a function")
      | Some readHourly =>
          let callsThisHour := readHourly db dealer_id in
          let profile := DealerService.getCallingProfile db dealer_id in
          if CallingProfile.maxConcurrentCalls profile <=? concurrentCalls then
            throw (PlainError
                     ("Max concurrent calls reached: " ++ decimal concurrentCalls
                      ++ "/" ++ decimal (CallingProfile.maxConcurrentCalls profile))%string)
          else if CallingProfile.maxCallsPerHour profile <=? callsThisHour then
            throw (PlainError
                     ("Hourly rate limit reached: " ++ decimal callsThisHour
                      ++ "/" ++ decimal (CallingProfile.maxCallsPerHour profile))%string)
          else ret tt
      end
  end.

(** Step ['check-rate-limits'] as the job runs it. *)
Definition checkRateLimitsStep (db : Database) (dealer_id : string)
    : Result unit :=
  checkRateLimitsBody dealerServiceReaders db dealer_id.

(** Step ['create-call-attempt'] *)
Definition createCallAttemptStep (db : Database) (dealer_id lead_id : string)
    : Result (CallAttempt.t * Database) :=
  let latestAttempt := CallService.getLatestCallAttempt db lead_id in
  let attemptNumber := CallService.nextAttemptNumber latestAttempt in
  CallService.createCallAttempt db dealer_id lead_id attemptNumber None.

End TriggerCall.

(* ================================================================== *)
(** * Vocabulary of the statements                                     *)
(* ================================================================== *)

Module Spec.
Import Schema Shared.


(** [a] may stand in front of [b] in a priority-descending list. *)
Definition priorityDesc (a b : RoutingRule.t) : Prop :=
  RoutingRule.priority b <= RoutingRule.priority a.

(** The active rules of a dealer, and those of them scoped to a store, in
    storage order. *)
Definition dealerMatches (db : Database) (dealerId : string)
    : list RoutingRule.t :=
  filter (RoutingEngine.activeFor dealerId) (routingRules db).

Definition storeMatches (db : Database) (dealerId : string)
    (storeId : option string) : list RoutingRule.t :=
  match storeId with
  | Some sid =>
      if String.eqb sid EmptyString then []
      else filter (RoutingEngine.activeForStore dealerId sid) (routingRules db)
  | None => []
  end.

(** What the two queries of [getActiveRules] return: the active rules of
    the dealer, and those of them scoped to the store, each by priority. *)
Definition dealerRules (pg : Postgres.Executor) (db : Database)
    (dealerId : string) : list RoutingRule.t :=
  RoutingEngine.rulesByPriority pg (RoutingEngine.activeFor dealerId) db.

Definition storeRules (pg : Postgres.Executor) (db : Database)
    (dealerId : string) (storeId : option string) : list RoutingRule.t :=
  match storeId with
  | Some sid =>
      if String.eqb sid EmptyString then []
      else RoutingEngine.rulesByPriority pg
             (RoutingEngine.activeForStore dealerId sid) db
  | None => []
  end.

(** No two active rules of the dealer have the same priority. *)
Definition distinctPriorities (db : Database) (dealerId : string) : Prop :=
  NoDup (map RoutingRule.priority (dealerMatches db dealerId)).

(** A rule matches a context. *)
Definition matches (context : RoutingEngine.RoutingContext)
    (rule : RoutingRule.t) : bool :=
  RoutingEngine.evaluateRuleConditions (RoutingRule.conditions rule) context.

(** The rows of [call_sessions] after an accepted update of the session
    with the given id. *)
Definition rewritten (callSessionId : string)
    (input : CallService.UpdateCallSessionInput) (now : Z)
    (rows : list CallSession.t) : list CallSession.t :=
  map (fun s => if String.eqb (CallSession.id s) callSessionId
                then CallService.applyUpdate input now s else s)
    rows.

(** A number that an [integer] column takes, or no number at all. *)
Definition storable (n : option Js.jsnum) : bool :=
  match n with
  | None => true
  | Some (Js.Fin z) => Postgres.int4 z
  | Some _ => false
  end.

(** The terminal states of a call session. *)
Definition terminalStatus (status : string) : bool :=
  existsb (String.eqb status)
    ["completed"; "failed"; "no_answer"; "busy"; "voicemail"; "transferred"]%string.

(** The key of the unique index on call attempts. *)
Definition attemptKey (a : CallAttempt.t) : string * Z :=
  (CallAttempt.leadId a, CallAttempt.attemptNumber a).

(** The attempts of one lead, in storage order. *)
Definition attemptsOf (db : Database) (leadId : string) : list CallAttempt.t :=
  filter (fun a => String.eqb (CallAttempt.leadId a) leadId) (callAttempts db).

(** The delay in minutes as the specification words it: the entry of the
    delay list at [min(attemptNumber - 1, length - 1)]. *)
Definition specifiedDelay (delays : list Z) (attemptNumber : Z) : option Z :=
  Js.index_Z delays (Z.min (attemptNumber - 1) (Z.of_nat (List.length delays) - 1)).

(** The opt-out records that suppress a phone on a channel for a dealer, as
    the specification words it: same dealer, same normalised phone, scope
    equal to the channel or ['all']. *)
Definition suppressing (db : Database) (dealerId phone : string)
    (channel : LeadService.Channel) : list OptOut.t :=
  filter (LeadService.optOutWhere dealerId (toE164 phone) channel) (optOuts db).

(** Call sessions that are in flight: created and not yet terminal. *)
Definition inFlight (db : Database) (dealerId : string) : list CallSession.t :=
  filter (fun s => String.eqb (CallSession.dealerId s) dealerId
                   && negb (terminalStatus (CallSession.status s)))
    (callSessions db).

End Spec.

(* ================================================================== *)
(** * Concrete stores used by the examples                             *)
(* ================================================================== *)

Module Examples.
Import Schema Shared.

Definition dealer1 : Dealer.t :=
  Dealer.mk "dealer-1" "Bay Motors" "active" "America/New_York".

(** One dealer, nothing else: no profile row, no opt-out, no call. *)
Definition quietDb : Database :=
  mkDatabase [dealer1] [] [] [] [] [] [].

(** A fixed-offset zone table: New York at UTC-5, everything else UTC. *)
Definition fixedOffsets : DealerService.TzDatabase :=
  fun zone _ =>
    if String.eqb zone "America/New_York" then -5 * 3600000 else 0.

Definition sessionWithStatus (id sid status : string) : CallSession.t :=
  {| CallSession.id := id;
     CallSession.dealerId := "dealer-1";
     CallSession.leadId := "lead-1";
     CallSession.signalwireCallSid := Some sid;
     CallSession.fromNumber := "+19195550100";
     CallSession.toNumber := "+19195551234";
     CallSession.swaigSessionId := None;
     CallSession.swaigAgentId := None;
     CallSession.status := status;
     CallSession.outcome := None;
     CallSession.answeredAt := None;
     CallSession.endedAt := None;
     CallSession.durationSeconds := None;
     CallSession.transferredToUserId := None;
     CallSession.transferCompleted := Some false;
     CallSession.recordingUrl := None;
     CallSession.recordingDuration := None;
     CallSession.updatedAt := 0;
     CallSession.metadata := [] |}.

(** Three calls of the dealer are in progress; the default profile allows
    three concurrent calls. *)
Definition busyDb : Database :=
  mkDatabase [dealer1] [] [] [] []
    [ sessionWithStatus "cs-1" "CA1" "in_progress";
      sessionWithStatus "cs-2" "CA2" "in_progress";
      sessionWithStatus "cs-3" "CA3" "in_progress" ]
    [].

(** One session that has completed. *)
Definition completedDb : Database :=
  mkDatabase [dealer1] [] [] [] []
    [ sessionWithStatus "cs-1" "CA1" "completed" ] [].

Definition rep (id department : string) (accepts : bool) : DealerUser.t :=
  {| DealerUser.id := id;
     DealerUser.dealerId := "dealer-1";
     DealerUser.email := (id ++ "@example.com")%string;
     DealerUser.phone := Some "+19195550111"%string;
     DealerUser.firstName := "Sam";
     DealerUser.lastName := "Lee";
     DealerUser.role := "sales_rep";
     DealerUser.department := Some department;
     DealerUser.acceptsTransfers := accepts;
     DealerUser.transferPriority := Some 0;
     DealerUser.status := "active" |}.

Definition rule (id : string) (priority : Z)
    (conditions : list (string * Js.jsval)) (routeToType : string)
    (routeToId fallbackRuleId : option string) : RoutingRule.t :=
  {| RoutingRule.id := id;
     RoutingRule.dealerId := "dealer-1";
     RoutingRule.storeId := None;
     RoutingRule.name := id;
     RoutingRule.priority := priority;
     RoutingRule.conditions := conditions;
     RoutingRule.routeToType := routeToType;
     RoutingRule.routeToId := routeToId;
     RoutingRule.fallbackRuleId := fallbackRuleId;
     RoutingRule.active := true |}.

Definition context (department : option string)
    : RoutingEngine.RoutingContext :=
  {| RoutingEngine.dealerId := "dealer-1";
     RoutingEngine.storeId := None;
     RoutingEngine.department := department;
     RoutingEngine.vehicleOfInterest := None;
     RoutingEngine.source := None;
     RoutingEngine.intentScore := None;
     RoutingEngine.leadValue := None;
     RoutingEngine.metadata := None |}.

Definition rulesDb (users : list DealerUser.t) (rules : list RoutingRule.t)
    : Database :=
  mkDatabase [dealer1] users [] rules [] [] [].

(** Two catch-all rules of the same dealer, scope and priority: [rule-a]
    sends to voicemail, [rule-b] to a rep. *)
Definition ruleA : RoutingRule.t := rule "rule-a" 10 [] "voicemail" None None.
Definition ruleB : RoutingRule.t :=
  rule "rule-b" 10 [] "user" (Some "rep-1"%string) None.

Definition tableBA : Database := rulesDb [rep "rep-1" "new" true] [ruleB; ruleA].

(** One rule, for the department [new], whose rep accepts transfers. *)
Definition newOnlyDb : Database :=
  rulesDb [rep "rep-1" "new" true]
    [ rule "rule-new" 100 [("department", Js.JStr "new")]%string "user"
        (Some "rep-1"%string) None ].

(** The priority and fallback scenario: rule A (priority 100, department
    new) names a rep who does not accept transfers and falls back to rule B
    (the manager); rule C is an unrelated catch-all of lower priority. *)
Definition fallbackDb : Database :=
  rulesDb [ rep "rep-a" "new" false; rep "manager" "new" true;
            rep "rep-c" "used" true ]
    [ rule "A" 100 [("department", Js.JStr "new")]%string "user"
        (Some "rep-a"%string) (Some "B"%string);
      rule "C" 10 [] "user" (Some "rep-c"%string) None;
      rule "B" 0 [("department", Js.JStr "never")]%string "user"
        (Some "manager"%string) None ].

(** A profile that allows calls on every day, from 00:00 to 23:59. *)
Definition alwaysOpenProfile : CallingProfile.t :=
  {| CallingProfile.dealerId := "dealer-1";
     CallingProfile.callingHoursStart := "00:00:00";
     CallingProfile.callingHoursEnd := "23:59:00";
     CallingProfile.callingDaysOfWeek := [0; 1; 2; 3; 4; 5; 6];
     CallingProfile.maxConcurrentCalls := 3;
     CallingProfile.maxCallsPerHour := 50;
     CallingProfile.maxAttemptsPerLead := 3;
     CallingProfile.retryDelayMinutes := [30; 120; 1440];
     CallingProfile.honorDnc := true;
     CallingProfile.requireConsent := true |}.

Definition alwaysOpenDb : Database :=
  mkDatabase [dealer1] [] [alwaysOpenProfile] [] [] [] [].

(** A profile whose first retry delay is zero minutes. *)
Definition zeroDelayProfile : CallingProfile.t :=
  {| CallingProfile.dealerId := "dealer-1";
     CallingProfile.callingHoursStart := "08:00:00";
     CallingProfile.callingHoursEnd := "20:00:00";
     CallingProfile.callingDaysOfWeek := [1; 2; 3; 4; 5; 6];
     CallingProfile.maxConcurrentCalls := 3;
     CallingProfile.maxCallsPerHour := 50;
     CallingProfile.maxAttemptsPerLead := 3;
     CallingProfile.retryDelayMinutes := [0; 120];
     CallingProfile.honorDnc := true;
     CallingProfile.requireConsent := true |}.

Definition zeroDelayDb : Database :=
  mkDatabase [dealer1] [] [zeroDelayProfile] [] [] [] [].

Definition attempt (id number : Z) : CallAttempt.t :=
  {| CallAttempt.id := id;
     CallAttempt.dealerId := "dealer-1";
     CallAttempt.leadId := "lead-1";
     CallAttempt.callSessionId := None;
     CallAttempt.attemptNumber := number;
     CallAttempt.status := "pending";
     CallAttempt.scheduledFor := None;
     CallAttempt.attemptedAt := None;
     CallAttempt.failureReason := None |}.

(** The store after the first attempt for [lead-1] was created. *)
Definition oneAttemptDb : Database :=
  mkDatabase [dealer1] [] [] [] [] [] [attempt 0 1].

(** A dealer-wide rule stored in front of a rule scoped to [store-1], both
    of priority 10. *)
Definition scopedDb : Database :=
  rulesDb []
    [ rule "dealer-wide" 10 [] "voicemail" None None;
      {| RoutingRule.id := "store-scoped";
         RoutingRule.dealerId := "dealer-1";
         RoutingRule.storeId := Some "store-1"%string;
         RoutingRule.name := "store-scoped";
         RoutingRule.priority := 10;
         RoutingRule.conditions := [];
         RoutingRule.routeToType := "voicemail";
         RoutingRule.routeToId := None;
         RoutingRule.fallbackRuleId := None;
         RoutingRule.active := true |} ].

(** A rule that routes to a department and names none in its conditions,
    alone and in front of a catch-all rule of lower priority. *)
Definition byDepartment : RoutingRule.t :=
  rule "by-department" 100 [] "department" None None.

Definition catchAll : RoutingRule.t := rule "catch-all" 10 [] "voicemail" None None.

Definition loneDepartmentDb : Database := rulesDb [] [byDepartment].

Definition noDepartmentDb : Database := rulesDb [] [byDepartment; catchAll].

(** Two rule tables with two rules of distinct priorities, stored in either
    order. *)
Definition rankedDb : Database :=
  rulesDb [rep "rep-1" "new" true]
    [ rule "low" 1 [] "voicemail" None None;
      rule "high" 2 [] "user" (Some "rep-1"%string) None ].

(** One session that is ringing. *)
Definition ringingDb : Database :=
  mkDatabase [dealer1] [] [] [] []
    [ sessionWithStatus "cs-1" "CA1" "ringing" ] [].

(** Two rules that name each other as fallback. *)
Definition cycleDb : Database :=
  rulesDb []
    [ rule "A" 100 [] "user" (Some "rep-a"%string) (Some "B"%string);
      rule "B" 50 [] "user" (Some "rep-b"%string) (Some "A"%string) ].

End Examples.

(* ================================================================== *)
(** * phoneUtils: display format and validation                        *)
(* ================================================================== *)

Module PhoneUtils.

(** [s.slice(from, to)] for [0 <= from <= to]. *)
Definition slice (s : string) (from to : nat) : string :=
  String.substring from (to - from) s.

(** [s.slice(from)] *)
Definition sliceFrom (s : string) (from : nat) : string :=
  String.substring from (String.length s - from) s.

(** [phoneUtils.toDisplay] *)
Definition toDisplay (phone : string) : string :=
  let digits := Js.strip_non_digits phone in
  if (String.length digits =? 11)%nat && Js.startsWith digits "1" then
    let areaCode := slice digits 1 4 in
    let prefix := slice digits 4 7 in
    let line := sliceFrom digits 7 in
    ("(" ++ areaCode ++ ") " ++ prefix ++ "-" ++ line)%string
  else if (String.length digits =? 10)%nat then
    let areaCode := slice digits 0 3 in
    let prefix := slice digits 3 6 in
    let line := sliceFrom digits 6 in
    ("(" ++ areaCode ++ ") " ++ prefix ++ "-" ++ line)%string
  else phone.

(** [phoneUtils.isValid] *)
Definition isValid (phone : string) : bool :=
  let digits := Js.strip_non_digits phone in
  (String.length digits =? 10)%nat
  || ((String.length digits =? 11)%nat && Js.startsWith digits "1").

End PhoneUtils.

(* ================================================================== *)
(** * DealerService: the throwing checks                               *)
(* ================================================================== *)

Module DealerChecks.
Import Schema Shared.

(** [DealerService.getActiveDealer] *)
Definition getActiveDealer (db : Database) (dealerId : string)
    : Result Dealer.t :=
  dealer <- DealerService.getDealer db dealerId ;;
  if negb (String.eqb (Dealer.status dealer) "active")
  then throw (Thrown (DealerInactiveError dealerId))
  else ret dealer.

(** A number of the wall clock as two decimal digits. *)
Definition twoDigits (n : Z) : string :=
  if n <? 10 then ("0" ++ TriggerCall.decimal n)%string
  else TriggerCall.decimal n.

(** [format(zonedDate, 'HH:mm', { timeZone })]: hours and minutes of the
    wall clock. *)
Definition formatHHmm (zonedDate : Z) : string :=
  (twoDigits (DealerService.getHours zonedDate) ++ ":"
   ++ twoDigits (DealerService.getMinutes zonedDate))%string.

(** The [reason] that [checkCallingWindow] builds. *)
Definition windowReason (profile : CallingProfile.t) (zonedDate : Z) : string :=
  let dayOfWeek := DealerService.getDay zonedDate in
  if negb (DealerService.includesDay
             (CallingProfile.callingDaysOfWeek profile) dayOfWeek)
  then ("Day of week not allowed (" ++ TriggerCall.decimal dayOfWeek ++ ")")%string
  else ("Outside calling hours (current: " ++ formatHHmm zonedDate
        ++ ", allowed: " ++ CallingProfile.callingHoursStart profile
        ++ "-" ++ CallingProfile.callingHoursEnd profile ++ ")")%string.

(** [DealerService.checkCallingWindow] *)
Definition checkCallingWindow (tz : DealerService.TzDatabase) (db : Database)
    (dealerId : string) (date : Z) : Result unit :=
  isWithin <- DealerService.isWithinCallingWindow tz db dealerId date ;;
  if negb isWithin then
    dealer <- DealerService.getDealer db dealerId ;;
    let profile := DealerService.getCallingProfile db dealerId in
    let zonedDate := DealerService.toZonedTime tz date (Dealer.timezone dealer) in
    throw (Thrown (CallingWindowError dealerId (windowReason profile zonedDate)))
  else ret tt.

End DealerChecks.

(* ================================================================== *)
(** * RoutingEngine.testRoute                                          *)
(* ================================================================== *)

Module RoutingDebug.
Import Schema Shared.

(** One entry of [allRulesEvaluated]. *)
Record RuleEvaluation : Type := mkEvaluation {
  rule : RoutingRule.t;
  matched : bool;
  hasAvailableTarget : bool
}.

(** What [testRoute] returns. *)
Record TestRouteResult : Type := mkTestRoute {
  matchedRule : option RoutingRule.t;
  target : option RoutingEngine.RoutingTarget;
  allRulesEvaluated : list RuleEvaluation
}.

(** The loop of [testRoute] over the three variables it updates:
    [evaluations], [matchedRule] and [target]. *)
Fixpoint testRouteLoop (pg : Postgres.Executor) (db : Database)
    (context : RoutingEngine.RoutingContext) (rules : list RoutingRule.t)
    (state : TestRouteResult) : Result TestRouteResult :=
  match rules with
  | [] => ret state
  | r :: rest =>
      let matches :=
        RoutingEngine.evaluateRuleConditions (RoutingRule.conditions r) context in
      ruleTarget <- (if matches then RoutingEngine.resolveRuleTarget pg db r
                     else ret None) ;;
      let evaluations :=
        allRulesEvaluated state
        ++ [ {| rule := r;
                matched := matches;
                hasAvailableTarget :=
                  match ruleTarget with Some _ => true | None => false end |} ] in
      match matches, ruleTarget, target state with
      | true, Some t, None =>
          testRouteLoop pg db context rest
            {| matchedRule := Some r; target := Some t;
               allRulesEvaluated := evaluations |}
      | _, _, _ =>
          testRouteLoop pg db context rest
            {| matchedRule := matchedRule state; target := target state;
               allRulesEvaluated := evaluations |}
      end
  end.

(** [RoutingEngine.testRoute] *)
Definition testRoute (pg : Postgres.Executor) (db : Database)
    (context : RoutingEngine.RoutingContext) : Result TestRouteResult :=
  let rules :=
    RoutingEngine.getActiveRules pg db (RoutingEngine.dealerId context)
      (RoutingEngine.storeId context) in
  testRouteLoop pg db context rules
    {| matchedRule := None; target := None; allRulesEvaluated := [] |}.

End RoutingDebug.

(* ================================================================== *)
(** * CallService: the remaining session and attempt operations        *)
(* ================================================================== *)

Module CallStore.
Import Schema Shared.

(** [CreateCallSessionInput] *)
Record CreateCallSessionInput : Type := mkCreate {
  dealerId : string;
  leadId : string;
  fromNumber : string;
  toNumber : string;
  swaigSessionId : option string;
  swaigAgentId : option string;
  metadata : option (list (string * Js.jsval))
}.

(** The row [createCallSession] inserts; [newId] is the id the database
    draws for it and [now] fills the time columns. *)
Definition newSession (input : CreateCallSessionInput) (newId : string)
    (now : Z) : CallSession.t :=
  {| CallSession.id := newId;
     CallSession.dealerId := dealerId input;
     CallSession.leadId := leadId input;
     CallSession.signalwireCallSid := None;
     CallSession.fromNumber := fromNumber input;
     CallSession.toNumber := toNumber input;
     CallSession.swaigSessionId := swaigSessionId input;
     CallSession.swaigAgentId := swaigAgentId input;
     CallSession.status := "initiated";
     CallSession.outcome := None;
     CallSession.answeredAt := None;
     CallSession.endedAt := None;
     CallSession.durationSeconds := None;
     CallSession.transferredToUserId := None;
     CallSession.transferCompleted := Some false;
     CallSession.recordingUrl := None;
     CallSession.recordingDuration := None;
     CallSession.updatedAt := now;
     CallSession.metadata := match metadata input with
                             | Some m => m
                             | None => []
                             end |}.

(** The primary key and the unique column [swaig_session_id] of
    [call_sessions]: does the new row collide with a stored one? *)
Definition sessionCollides (db : Database) (s : CallSession.t) : bool :=
  existsb
    (fun old =>
       String.eqb (CallSession.id old) (CallSession.id s)
       || match CallSession.swaigSessionId s with
          | Some sid => Drizzle.eq_nullable (CallSession.swaigSessionId old) sid
          | None => false
          end)
    (callSessions db).

(** [CallService.createCallSession]: the insert is rejected when the new
    row collides on the primary key or on [swaig_session_id]; otherwise the
    row is stored behind the existing ones.  The foreign keys of [dealerId]
    and [leadId] are not modelled. *)
Definition createCallSession (db : Database) (input : CreateCallSessionInput)
    (newId : string) (now : Z) : Result (CallSession.t * Database) :=
  let session := newSession input newId now in
  if sessionCollides db session
  then throw (PostgresError "unique_violation")
  else ret (session,
            CallService.withCallSessions db (callSessions db ++ [session])).

(** [CallService.getCallSessionBySwaigId] *)
Definition getCallSessionBySwaigId (db : Database) (swaigSessionId_ : string)
    : Js.jsref CallSession.t :=
  Js.ref_or_null
    (Drizzle.findFirst
       (fun s => Drizzle.eq_nullable (CallSession.swaigSessionId s) swaigSessionId_)
       (callSessions db)).

(** [CallService.getCallAttempts] *)
Definition getCallAttempts (db : Database) (leadId_ : string)
    : list CallAttempt.t :=
  Js.sort_desc CallService.attemptNumber_geb
    (Drizzle.findMany (fun a => String.eqb (CallAttempt.leadId a) leadId_)
       (callAttempts db)).

(** The [update] argument of [updateCallAttempt]. *)
Record CallAttemptUpdate : Type := mkAttemptUpdate {
  status : option string;
  callSessionId : option string;
  attemptedAt : option Z;
  failureReason : option string
}.

Definition applyAttemptUpdate (update : CallAttemptUpdate) (a : CallAttempt.t)
    : CallAttempt.t :=
  {| CallAttempt.id := CallAttempt.id a;
     CallAttempt.dealerId := CallAttempt.dealerId a;
     CallAttempt.leadId := CallAttempt.leadId a;
     CallAttempt.callSessionId :=
       CallService.assignNullable (callSessionId update) (CallAttempt.callSessionId a);
     CallAttempt.attemptNumber := CallAttempt.attemptNumber a;
     CallAttempt.status := CallService.assign (status update) (CallAttempt.status a);
     CallAttempt.scheduledFor := CallAttempt.scheduledFor a;
     CallAttempt.attemptedAt :=
       CallService.assignNullable (attemptedAt update) (CallAttempt.attemptedAt a);
     CallAttempt.failureReason :=
       CallService.assignNullable (failureReason update)
         (CallAttempt.failureReason a) |}.

(** No field of the update is set. *)
Definition emptyUpdate (update : CallAttemptUpdate) : bool :=
  match status update, callSessionId update, attemptedAt update,
        failureReason update with
  | None, None, None, None => true
  | _, _, _, _ => false
  end.

(** [CallService.updateCallAttempt]: [.set(update)] refuses an update
    without any value (the query builder throws [Error('No values to
    set')]); otherwise the rows with the given id are rewritten and the
    first of them is returned.  The foreign key of [callSessionId] is not
    modelled. *)
Definition updateCallAttempt (db : Database) (attemptId : Z)
    (update : CallAttemptUpdate)
    : Result (Js.jsref CallAttempt.t * Database) :=
  if emptyUpdate update then throw (PlainError "No values to set")
  else
    let rows :=
      map (fun a => if CallAttempt.id a =? attemptId
                    then applyAttemptUpdate update a else a)
        (callAttempts db) in
    ret (Drizzle.findFirst (fun a => CallAttempt.id a =? attemptId) rows,
         CallService.withCallAttempts db rows).

End CallStore.

(* ================================================================== *)
(** * Webhooks: conference status and the SWAIG agent lifecycle        *)
(* ================================================================== *)

Module Webhooks.
Import Schema Shared.

(** [s.replace(pattern, replacement)] with a string pattern: the first
    occurrence of the pattern is replaced. *)
Fixpoint replace (s pattern replacement : string) : string :=
  if String.prefix pattern s
  then (replacement
        ++ String.substring (String.length pattern)
             (String.length s - String.length pattern) s)%string
  else match s with
       | EmptyString => EmptyString
       | String c rest => String c (replace rest pattern replacement)
       end.

(** Truthiness of a nullable text column. *)
Definition truthyText (column : option string) : bool :=
  match column with
  | Some s => negb (String.eqb s EmptyString)
  | None => false
  end.

(** The update the conference handler writes when the conference ended. *)
Definition conferenceEndUpdate : CallService.UpdateCallSessionInput :=
  {| CallService.signalwireCallSid := None;
     CallService.status := Some "completed"%string;
     CallService.outcome := Some "transferred"%string;
     CallService.answeredAt := None;
     CallService.endedAt := None;
     CallService.durationSeconds := None;
     CallService.transferredToUserId := None;
     CallService.transferCompleted := Some true;
     CallService.recordingUrl := None;
     CallService.recordingDuration := None;
     CallService.metadata := None |}.

(** The [try] block of [POST /webhooks/signalwire/conference-status]: the
    store afterwards.  [friendlyName] is [None] when the body carries no
    [FriendlyName]; a missing [StatusCallbackEvent] is equal to none of the
    three event names. *)
Definition conferenceStatusHandler (db : Database)
    (statusCallbackEvent : string) (friendlyName : option string) (now : Z)
    : Result Database :=
  match friendlyName with
  | Some name =>
      if Js.startsWith name "transfer-" then
        let callSessionId := replace name "transfer-" "" in
        if String.eqb statusCallbackEvent "participant-join" then ret db
        else if String.eqb statusCallbackEvent "participant-leave" then ret db
        else if String.eqb statusCallbackEvent "conference-end" then
          session <- CallService.getCallSession db callSessionId ;;
          match session with
          | Js.RefObject session =>
              if truthyText (CallSession.transferredToUserId session)
              then
                updated <- CallService.updateCallSession db callSessionId
                             conferenceEndUpdate now ;;
                ret (snd updated)
              else ret db
          | _ => ret db
          end
        else ret db
      else ret db
  | None => ret db
  end.

(** [POST /webhooks/signalwire/conference-status] *)
Definition postConferenceStatus (db : Database) (statusCallbackEvent : string)
    (friendlyName : option string) (now : Z)
    : SignalwireWebhook.Response * Database :=
  SignalwireWebhook.answer db
    (conferenceStatusHandler db statusCallbackEvent friendlyName now).

(** The update of the [call-started] handler. *)
Definition callStartedUpdate (callSid : option string)
    : CallService.UpdateCallSessionInput :=
  {| CallService.signalwireCallSid := callSid;
     CallService.status := Some "ringing"%string;
     CallService.outcome := None;
     CallService.answeredAt := None;
     CallService.endedAt := None;
     CallService.durationSeconds := None;
     CallService.transferredToUserId := None;
     CallService.transferCompleted := None;
     CallService.recordingUrl := None;
     CallService.recordingDuration := None;
     CallService.metadata := None |}.

(** The [try] block of [POST /webhooks/swaig/call-started]: the store
    afterwards.  The body carries [session_id] as a text; [callSid] is
    [None] when it carries no [call_sid]. *)
Definition callStartedHandler (db : Database) (swaigSessionId : string)
    (callSid : option string) (now : Z) : Result Database :=
  match CallStore.getCallSessionBySwaigId db swaigSessionId with
  | Js.RefObject session =>
      updated <- CallService.updateCallSession db (CallSession.id session)
                   (callStartedUpdate callSid) now ;;
      ret (snd updated)
  | _ => ret db
  end.

(** [POST /webhooks/swaig/call-started] *)
Definition postCallStarted (db : Database) (swaigSessionId : string)
    (callSid : option string) (now : Z)
    : SignalwireWebhook.Response * Database :=
  SignalwireWebhook.answer db (callStartedHandler db swaigSessionId callSid now).

(** The literal [outcomeMap] of [mapSwaigOutcome]. *)
Definition outcomeMap : list (string * string) :=
  [ ("completed", "qualified");
    ("transferred", "transferred");
    ("appointment_set", "appointment_set");
    ("no_answer", "no_answer");
    ("busy", "no_answer");
    ("failed", "no_answer");
    ("opted_out", "not_interested") ]%string.

(** [mapSwaigOutcome]: [outcomeMap[swaigOutcome] || 'qualified']; an
    absent outcome reads the key ['undefined']. *)
Definition mapSwaigOutcome (swaigOutcome : option string) : Js.jsval :=
  Js.or_else
    (SignalwireWebhook.member outcomeMap
       (SignalwireWebhook.propertyKey swaigOutcome))
    (Js.JStr "qualified").

(** The update of the [call-ended] handler; [outcome] is what is sent for
    the mapped outcome. *)
Definition callEndedUpdate (duration : option Js.jsnum)
    (outcome : option string) (now : Z) : CallService.UpdateCallSessionInput :=
  {| CallService.signalwireCallSid := None;
     CallService.status := Some "completed"%string;
     CallService.outcome := outcome;
     CallService.answeredAt := None;
     CallService.endedAt := Some now;
     CallService.durationSeconds := duration;
     CallService.transferredToUserId := None;
     CallService.transferCompleted := None;
     CallService.recordingUrl := None;
     CallService.recordingDuration := None;
     CallService.metadata := None |}.

(** The event the [call-ended] handler sends to the job queue. *)
Record TranscriptReady : Type := mkTranscriptReady {
  call_session_id : string;
  dealer_id : string;
  lead_id : string
}.

(** The [try] block of [POST /webhooks/swaig/call-ended] up to the update
    of the session: the call sessions afterwards and the event that is sent
    once the transcript is saved.  The body carries [session_id] as a text
    and [duration_seconds] as a number; [duration] and [outcome] are [None]
    when it carries none, and [transcript] says whether it carries a
    transcript.  The transcript table is not part of the store modelled
    here. *)
Definition callEndedHandler (pg : Postgres.Executor) (db : Database)
    (swaigSessionId : string) (duration : option Js.jsnum)
    (outcome : option string) (transcript : bool) (now : Z)
    : Result (Database * list TranscriptReady) :=
  match CallStore.getCallSessionBySwaigId db swaigSessionId with
  | Js.RefObject session =>
      sent <- Postgres.textParameter pg (mapSwaigOutcome outcome) ;;
      updated <- CallService.updateCallSession db (CallSession.id session)
                   (callEndedUpdate duration sent now) now ;;
      ret (snd updated,
           if transcript
           then [ {| call_session_id := CallSession.id session;
                     dealer_id := CallSession.dealerId session;
                     lead_id := CallSession.leadId session |} ]
           else [])
  | _ => ret (db, [])
  end.

(** [POST /webhooks/swaig/call-ended] *)
Definition postCallEnded (pg : Postgres.Executor) (db : Database)
    (swaigSessionId : string) (duration : option Js.jsnum)
    (outcome : option string) (transcript : bool) (now : Z)
    : SignalwireWebhook.Response * Database * list TranscriptReady :=
  match callEndedHandler pg db swaigSessionId duration outcome transcript now with
  | inr (db', events) => (SignalwireWebhook.Success, db', events)
  | inl _ => (SignalwireWebhook.InternalServerError, db, [])
  end.

End Webhooks.

(* ================================================================== *)
(** * The pixel webhook: intent score and call trigger                 *)
(* ================================================================== *)

Module PixelWebhook.
Import Schema Shared.

(** [a > b] on numbers; any comparison with [NaN] is false. *)
Definition num_gt (a b : Js.jsnum) : bool :=
  match a, b with
  | Js.NaN, _ | _, Js.NaN => false
  | _, _ => negb (Js.num_le a b)
  end.

(** The literal [scores] of [calculateIntentScore]. *)
Definition scores : list (string * Z) :=
  [ ("page_view", 10);
    ("vehicle_view", 30);
    ("form_started", 50);
    ("form_submitted", 80);
    ("payment_calculator", 60);
    ("trade_in_tool", 70);
    ("finance_preapproval", 90);
    ("test_drive_request", 95) ]%string.

Fixpoint lookupScore (table : list (string * Z)) (key : string) : option Z :=
  match table with
  | [] => None
  | (k, v) :: rest => if String.eqb k key then Some v else lookupScore rest key
  end.

(** [eventData.time_on_page && eventData.time_on_page > 120] *)
Definition longVisit (eventData : list (string * Js.jsval)) : bool :=
  Js.truthy (Js.get_prop eventData "time_on_page")
  && num_gt (Js.Number (Js.get_prop eventData "time_on_page")) (Js.Fin 120).

(** [eventData.return_visit] *)
Definition returnVisit (eventData : list (string * Js.jsval)) : bool :=
  Js.truthy (Js.get_prop eventData "return_visit").

(** [eventData.vehicle_saves && eventData.vehicle_saves > 0] *)
Definition savedVehicle (eventData : list (string * Js.jsval)) : bool :=
  Js.truthy (Js.get_prop eventData "vehicle_saves")
  && num_gt (Js.Number (Js.get_prop eventData "vehicle_saves")) (Js.Fin 0).

(** [calculateIntentScore] *)
Definition calculateIntentScore (eventType : string)
    (eventData : list (string * Js.jsval)) : Z :=
  let baseScore :=
    match lookupScore scores eventType with
    | Some v => if v =? 0 then 0 else v
    | None => 0
    end in
  let baseScore := if longVisit eventData then baseScore + 10 else baseScore in
  let baseScore := if returnVisit eventData then baseScore + 15 else baseScore in
  let baseScore := if savedVehicle eventData then baseScore + 20 else baseScore in
  Z.min baseScore 100.

Definition triggerEvents : list string :=
  ["form_submitted"; "finance_preapproval"; "test_drive_request";
   "trade_in_tool"]%string.

(** [shouldTriggerCall] *)
Definition shouldTriggerCall (eventType : string) (intentScore : Z) : bool :=
  existsb (String.eqb eventType) triggerEvents || (70 <=? intentScore).

(** Whether the handler resolves a lead: [event.phone || event.email]. *)
Definition resolvesLead (phone email : option string) : bool :=
  Webhooks.truthyText phone || Webhooks.truthyText email.

(** The guard of the [scoreIntent] call of the handler:
    [lead && intentScore >= 50]. *)
Definition storesIntentScore (phone email : option string) (eventType : string)
    (eventData : list (string * Js.jsval)) : bool :=
  resolvesLead phone email
  && (50 <=? calculateIntentScore eventType eventData).

(** The guard under which the handler sends ['pixel-event/high-intent'],
    as a truth value: [lead && event.phone && shouldTriggerCall(...)]. *)
Definition triggersCall (phone email : option string) (eventType : string)
    (eventData : list (string * Js.jsval)) : bool :=
  resolvesLead phone email
  && Webhooks.truthyText phone
  && shouldTriggerCall eventType (calculateIntentScore eventType eventData).

End PixelWebhook.

(* ================================================================== *)
(** * LeadService: leads, identities and intent scores                 *)
(* ================================================================== *)

Module Leads.
Import Schema Shared.

(** [leads] *)
Module Lead.
Record t : Type := mk {
  id : string;
  dealerId : string;
  storeId : option string;
  phone : option string;
  email : option string;
  firstName : option string;
  lastName : option string;
  department : option string;
  vehicleOfInterest : option string;
  source : option string;
  sourceDetail : option string;
  status : string;
  ownedBy : string;
  assignedToUserId : option string;
  transferredAt : option Z;
  lastActivityAt : Z;
  updatedAt : Z;
  metadata : list (string * Js.jsval)
}.
End Lead.

(** [lead_identities]; the table carries the unique index
    [unique_lead_identity] on [(lead_id, identity_type, identity_value)]. *)
Module LeadIdentity.
Record t : Type := mk {
  leadId : string;
  identityType : string;
  identityValue : string;
  confidence : Z
}.
End LeadIdentity.

(** [lead_intent_scores] *)
Module IntentScore.
Record t : Type := mk {
  leadId : string;
  score : Z;
  factors : list (string * Js.jsval);
  scoredAt : Z
}.
End IntentScore.

(** The tables of the lead service, each in storage order. *)
Record Tables : Type := mkTables {
  leads : list Lead.t;
  leadIdentities : list LeadIdentity.t;
  leadIntentScores : list IntentScore.t
}.

(** What the lead service throws: its two own error classes, or anything
    else. *)
Inductive LeadException : Type :=
| LeadNotFoundError (leadId : string)
| LeadOwnershipError (leadId message : string)
| Raised (e : Exception).

Definition Outcome (A : Type) : Type := (LeadException + A)%type.

Definition withLeads (tables : Tables) (rows : list Lead.t) : Tables :=
  {| leads := rows;
     leadIdentities := leadIdentities tables;
     leadIntentScores := leadIntentScores tables |}.

(** [LeadService.getLead]: the query asks for the relations [identities],
    [intentScores], [vehicleInterests] and [enrichment] of the lead. *)
Definition getLead (tables : Tables) (leadId : string) : Outcome Lead.t :=
  match Drizzle.findFirstWith "leads"
          ["identities"; "intentScores"; "vehicleInterests"; "enrichment"]%string
          (fun l => String.eqb (Lead.id l) leadId) (leads tables) with
  | inl e => inl (Raised e)
  | inr (Js.RefObject lead) => inr lead
  | inr _ => inl (LeadNotFoundError leadId)
  end.

(** [LeadService.findLeadByPhone] *)
Definition findLeadByPhone (tables : Tables) (dealerId phone : string)
    : Js.jsref Lead.t :=
  let normalizedPhone := toE164 phone in
  Js.ref_or_null
    (Drizzle.findFirst
       (fun l => String.eqb (Lead.dealerId l) dealerId
                 && Drizzle.eq_nullable (Lead.phone l) normalizedPhone)
       (leads tables)).

(** [value ? f(value) : undefined] *)
Definition whenTruthy (f : string -> string) (value : option string)
    : option string :=
  match value with
  | Some s => if String.eqb s EmptyString then None else Some (f s)
  | None => None
  end.

(** The record [addIdentities] pushes for one identity, when it is set. *)
Definition identityRecord (leadId identityType : string)
    (identityValue : option string) (confidence : Z) : list LeadIdentity.t :=
  match identityValue with
  | Some v =>
      if String.eqb v EmptyString then []
      else [LeadIdentity.mk leadId identityType v confidence]
  | None => []
  end.

Definition sameIdentity (a b : LeadIdentity.t) : bool :=
  String.eqb (LeadIdentity.leadId a) (LeadIdentity.leadId b)
  && String.eqb (LeadIdentity.identityType a) (LeadIdentity.identityType b)
  && String.eqb (LeadIdentity.identityValue a) (LeadIdentity.identityValue b).

(** One row of [insert(...).onConflictDoNothing()]. *)
Definition insertIdentity (rows : list LeadIdentity.t) (r : LeadIdentity.t)
    : list LeadIdentity.t :=
  if existsb (sameIdentity r) rows then rows else rows ++ [r].

(** [LeadService.addIdentities] *)
Definition addIdentities (tables : Tables) (leadId : string)
    (phone email cookieId ipAddress deviceId : option string) : Tables :=
  let identityRecords :=
    identityRecord leadId "phone" phone 100
    ++ identityRecord leadId "email" email 100
    ++ identityRecord leadId "cookie" cookieId 80
    ++ identityRecord leadId "ip" ipAddress 50
    ++ identityRecord leadId "device_id" deviceId 90 in
  {| leads := leads tables;
     leadIdentities := fold_left insertIdentity identityRecords
                         (leadIdentities tables);
     leadIntentScores := leadIntentScores tables |}.

(** [IdentityResolutionInput & CreateLeadInput] *)
Record ResolveInput : Type := mkResolve {
  dealerId : string;
  phone : option string;
  email : option string;
  cookieId : option string;
  ipAddress : option string;
  deviceId : option string;
  storeId : option string;
  firstName : option string;
  lastName : option string;
  department : option string;
  vehicleOfInterest : option string;
  source : string;
  sourceDetail : option string;
  metadata : option (list (string * Js.jsval))
}.

(** [UpdateLeadInput]; an absent field is [None]. *)
Record UpdateLeadInput : Type := mkUpdateLead {
  newFirstName : option string;
  newLastName : option string;
  newDepartment : option string;
  newVehicleOfInterest : option string;
  newStatus : option string;
  newAssignedToUserId : option string;
  newMetadata : option (list (string * Js.jsval))
}.

(** [.set({ ...input, updatedAt: new Date() })] on one lead. *)
Definition applyLeadUpdate (input : UpdateLeadInput) (now : Z) (l : Lead.t)
    : Lead.t :=
  {| Lead.id := Lead.id l;
     Lead.dealerId := Lead.dealerId l;
     Lead.storeId := Lead.storeId l;
     Lead.phone := Lead.phone l;
     Lead.email := Lead.email l;
     Lead.firstName :=
       CallService.assignNullable (newFirstName input) (Lead.firstName l);
     Lead.lastName :=
       CallService.assignNullable (newLastName input) (Lead.lastName l);
     Lead.department :=
       CallService.assignNullable (newDepartment input) (Lead.department l);
     Lead.vehicleOfInterest :=
       CallService.assignNullable (newVehicleOfInterest input)
         (Lead.vehicleOfInterest l);
     Lead.source := Lead.source l;
     Lead.sourceDetail := Lead.sourceDetail l;
     Lead.status := CallService.assign (newStatus input) (Lead.status l);
     Lead.ownedBy := Lead.ownedBy l;
     Lead.assignedToUserId :=
       CallService.assignNullable (newAssignedToUserId input)
         (Lead.assignedToUserId l);
     Lead.transferredAt := Lead.transferredAt l;
     Lead.lastActivityAt := Lead.lastActivityAt l;
     Lead.updatedAt := now;
     Lead.metadata := CallService.assign (newMetadata input) (Lead.metadata l) |}.

(** [UPDATE leads SET ... WHERE id = ?]: the rows after the update. *)
Definition updateWhereId (leadId : string) (change : Lead.t -> Lead.t)
    (rows : list Lead.t) : list Lead.t :=
  map (fun l => if String.eqb (Lead.id l) leadId then change l else l) rows.

(** [LeadService.updateLead]; the foreign key of [assignedToUserId] is not
    modelled. *)
Definition updateLead (tables : Tables) (leadId : string)
    (input : UpdateLeadInput) (now : Z) : Outcome (Js.jsref Lead.t * Tables) :=
  match getLead tables leadId with
  | inl e => inl e
  | inr _ =>
      let rows := updateWhereId leadId (applyLeadUpdate input now)
                    (leads tables) in
      inr (Drizzle.findFirst (fun l => String.eqb (Lead.id l) leadId) rows,
           withLeads tables rows)
  end.

Definition validStatuses : list string :=
  ["new"; "contacted"; "qualified"; "appointment_set"; "transferred"; "sold";
   "lost"; "nurture"]%string.

(** [LeadService.updateStatus] *)
Definition updateStatus (tables : Tables) (leadId status : string) (now : Z)
    : Outcome (Js.jsref Lead.t * Tables) :=
  if negb (existsb (String.eqb status) validStatuses)
  then inl (Raised (Thrown (ValidationError
                              ("Invalid lead status: " ++ status)%string)))
  else updateLead tables leadId
         (mkUpdateLead None None None None (Some status) None None) now.

(** The row [transferToHuman] writes over a lead. *)
Definition handOver (userId : string) (now : Z) (l : Lead.t) : Lead.t :=
  {| Lead.id := Lead.id l;
     Lead.dealerId := Lead.dealerId l;
     Lead.storeId := Lead.storeId l;
     Lead.phone := Lead.phone l;
     Lead.email := Lead.email l;
     Lead.firstName := Lead.firstName l;
     Lead.lastName := Lead.lastName l;
     Lead.department := Lead.department l;
     Lead.vehicleOfInterest := Lead.vehicleOfInterest l;
     Lead.source := Lead.source l;
     Lead.sourceDetail := Lead.sourceDetail l;
     Lead.status := "transferred";
     Lead.ownedBy := "human";
     Lead.assignedToUserId := Some userId;
     Lead.transferredAt := Some now;
     Lead.lastActivityAt := Lead.lastActivityAt l;
     Lead.updatedAt := now;
     Lead.metadata := Lead.metadata l |}.

(** [LeadService.transferToHuman]; the foreign key of [assignedToUserId]
    is not modelled. *)
Definition transferToHuman (tables : Tables) (leadId userId : string) (now : Z)
    : Outcome (Js.jsref Lead.t * Tables) :=
  match getLead tables leadId with
  | inl e => inl e
  | inr lead =>
      if String.eqb (Lead.ownedBy lead) "human"
      then inl (LeadOwnershipError leadId "Lead is already owned by human")
      else
        let rows := updateWhereId leadId (handOver userId now) (leads tables) in
        inr (Drizzle.findFirst (fun l => String.eqb (Lead.id l) leadId) rows,
             withLeads tables rows)
  end.

(** [.set({ lastActivityAt: new Date() })] on one lead. *)
Definition touch (now : Z) (l : Lead.t) : Lead.t :=
  {| Lead.id := Lead.id l;
     Lead.dealerId := Lead.dealerId l;
     Lead.storeId := Lead.storeId l;
     Lead.phone := Lead.phone l;
     Lead.email := Lead.email l;
     Lead.firstName := Lead.firstName l;
     Lead.lastName := Lead.lastName l;
     Lead.department := Lead.department l;
     Lead.vehicleOfInterest := Lead.vehicleOfInterest l;
     Lead.source := Lead.source l;
     Lead.sourceDetail := Lead.sourceDetail l;
     Lead.status := Lead.status l;
     Lead.ownedBy := Lead.ownedBy l;
     Lead.assignedToUserId := Lead.assignedToUserId l;
     Lead.transferredAt := Lead.transferredAt l;
     Lead.lastActivityAt := now;
     Lead.updatedAt := Lead.updatedAt l;
     Lead.metadata := Lead.metadata l |}.

(** The row [resolveOrCreateLead] inserts for a new lead; [newId] is the id
    the database draws for it and [now] fills the time columns. *)
Definition newLead (input : ResolveInput)
    (normalizedPhone normalizedEmail : option string) (newId : string) (now : Z)
    : Lead.t :=
  {| Lead.id := newId;
     Lead.dealerId := dealerId input;
     Lead.storeId := storeId input;
     Lead.phone := normalizedPhone;
     Lead.email := normalizedEmail;
     Lead.firstName := firstName input;
     Lead.lastName := lastName input;
     Lead.department := department input;
     Lead.vehicleOfInterest := vehicleOfInterest input;
     Lead.source := Some (source input);
     Lead.sourceDetail := sourceDetail input;
     Lead.status := "new";
     Lead.ownedBy := "ai";
     Lead.assignedToUserId := None;
     Lead.transferredAt := None;
     Lead.lastActivityAt := now;
     Lead.updatedAt := now;
     Lead.metadata := match metadata input with
                      | Some m => m
                      | None => []
                      end |}.

Section Email.

(** [emailUtils.normalize]: [email.trim().toLowerCase()]. *)
Variable normalize : string -> string.

(** [LeadService.findLeadByEmail] *)
Definition findLeadByEmail (tables : Tables) (dealerId email : string)
    : Js.jsref Lead.t :=
  let normalizedEmail := normalize email in
  Js.ref_or_null
    (Drizzle.findFirst
       (fun l => String.eqb (Lead.dealerId l) dealerId
                 && Drizzle.eq_nullable (Lead.email l) normalizedEmail)
       (leads tables)).

(** The lead that [resolveOrCreateLead] finds for the normalised
    identifiers, by phone first and by e-mail when the phone finds none. *)
Definition findExisting (tables : Tables) (dealerId : string)
    (normalizedPhone normalizedEmail : option string) : Js.jsref Lead.t :=
  let existingLead :=
    if Webhooks.truthyText normalizedPhone
    then match normalizedPhone with
         | Some p => findLeadByPhone tables dealerId p
         | None => Js.RefNull
         end
    else Js.RefNull in
  match existingLead with
  | Js.RefObject lead => Js.RefObject lead
  | _ =>
      if Webhooks.truthyText normalizedEmail
      then match normalizedEmail with
           | Some e => findLeadByEmail tables dealerId e
           | None => existingLead
           end
      else existingLead
  end.

(** [LeadService.resolveOrCreateLead]: the returned lead and the tables
    afterwards.  An insert under an id that is taken is rejected by the
    primary key; the foreign keys of [dealerId] and [storeId] are not
    modelled. *)
Definition resolveOrCreateLead (tables : Tables) (input : ResolveInput)
    (newId : string) (now : Z) : Outcome (Lead.t * Tables) :=
  let normalizedPhone := whenTruthy toE164 (phone input) in
  let normalizedEmail := whenTruthy normalize (email input) in
  match findExisting tables (dealerId input) normalizedPhone normalizedEmail with
  | Js.RefObject existingLead =>
      let tables :=
        addIdentities tables (Lead.id existingLead) normalizedPhone
          normalizedEmail (cookieId input) (ipAddress input) (deviceId input) in
      let tables :=
        withLeads tables
          (updateWhereId (Lead.id existingLead) (touch now) (leads tables)) in
      inr (existingLead, tables)
  | _ =>
      if existsb (fun l => String.eqb (Lead.id l) newId) (leads tables)
      then inl (Raised (PostgresError "unique_violation"))
      else
        let lead := newLead input normalizedPhone normalizedEmail newId now in
        let tables := withLeads tables (leads tables ++ [lead]) in
        let tables :=
          addIdentities tables (Lead.id lead) normalizedPhone normalizedEmail
            (cookieId input) (ipAddress input) (deviceId input) in
        inr (lead, tables)
  end.

(** [LeadService.addOptOut]: the store after the record was added; [newId]
    is the id the database draws for it. *)
Definition addOptOut (db : Database) (dealerId : string)
    (phone email : option string) (type : string) (reason : option string)
    (newId : string) : Result Database :=
  if negb (Webhooks.truthyText phone) && negb (Webhooks.truthyText email)
  then throw (Thrown (ValidationError "Must provide phone or email for opt-out"))
  else
    let normalizedPhone := whenTruthy toE164 phone in
    let normalizedEmail := whenTruthy normalize email in
    ret {| dealers := dealers db;
           dealerUsers := dealerUsers db;
           dealerCallingProfiles := dealerCallingProfiles db;
           routingRules := routingRules db;
           optOuts := optOuts db
                      ++ [ {| OptOut.id := newId;
                              OptOut.dealerId := dealerId;
                              OptOut.phone := normalizedPhone;
                              OptOut.email := normalizedEmail;
                              OptOut.optOutType := type;
                              OptOut.reason := reason |} ];
           callSessions := callSessions db;
           callAttempts := callAttempts db |}.

End Email.

(** [value || 0] *)
Definition orZero (v : Js.jsval) : Js.jsval :=
  if Js.truthy v then v else Js.JNum (Js.Fin 0).

(** [Math.min(a, b)] *)
Definition num_min (a b : Js.jsnum) : Js.jsnum :=
  match a, b with
  | Js.NaN, _ | _, Js.NaN => Js.NaN
  | _, _ => if Js.num_le a b then a else b
  end.

(** [Math.floor(n / 30)] *)
Definition floorDiv30 (n : Js.jsnum) : Js.jsnum :=
  match n with
  | Js.Fin z => Js.Fin (z / 30)
  | Js.Frac n d => Js.Fin (n / (30 * Zpos d))
  | other => other
  end.

(** The score [scoreIntent] computes from the factors. *)
Definition intentScoreOf (factors : list (string * Js.jsval)) : Js.jsnum :=
  let score := Js.Fin 0 in
  let pageViews := orZero (Js.get_prop factors "page_views") in
  let score :=
    Js.num_add score
      (num_min (Js.num_mul (Js.Number pageViews) (Js.Fin 4)) (Js.Fin 20)) in
  let timeOnSite := orZero (Js.get_prop factors "time_on_site") in
  let score :=
    Js.num_add score
      (num_min (floorDiv30 (Js.Number timeOnSite)) (Js.Fin 20)) in
  let vehicleViews := orZero (Js.get_prop factors "vehicle_views") in
  let score :=
    Js.num_add score
      (num_min (Js.num_mul (Js.Number vehicleViews) (Js.Fin 10)) (Js.Fin 30)) in
  let score :=
    if Js.truthy (Js.get_prop factors "form_submit")
    then Js.num_add score (Js.Fin 30)
    else if Js.truthy (Js.get_prop factors "form_started")
    then Js.num_add score (Js.Fin 15)
    else score in
  num_min score (Js.Fin 100).

(** [LeadService.scoreIntent]: the returned score and the tables afterwards.
    The [integer] column takes no [NaN] or infinite score and none below
    its range, and the lead of the row has to exist. *)
Definition scoreIntent (tables : Tables) (leadId : string)
    (factors : list (string * Js.jsval)) (now : Z) : Outcome (Z * Tables) :=
  match intentScoreOf factors with
  | Js.Fin score =>
      if score <? -2147483648
      then inl (Raised (PostgresError "numeric_value_out_of_range"))
      else if existsb (fun l => String.eqb (Lead.id l) leadId) (leads tables)
      then inr (score,
                {| leads := leads tables;
                   leadIdentities := leadIdentities tables;
                   leadIntentScores :=
                     leadIntentScores tables
                     ++ [IntentScore.mk leadId score factors now] |})
      else inl (Raised (PostgresError "foreign_key_violation"))
  | _ => inl (Raised (PostgresError "invalid_text_representation"))
  end.

Definition scoredAt_geb (a b : IntentScore.t) : bool :=
  IntentScore.scoredAt b <=? IntentScore.scoredAt a.

(** [LeadService.getLatestIntentScore] *)
Definition getLatestIntentScore (tables : Tables) (leadId : string)
    : Js.jsref IntentScore.t :=
  match Js.sort_desc scoredAt_geb
          (Drizzle.findMany (fun s => String.eqb (IntentScore.leadId s) leadId)
             (leadIntentScores tables)) with
  | score :: _ => Js.RefObject score
  | [] => Js.RefNull
  end.

(** The factors the pixel handler passes to [scoreIntent]:
    [{ event_type, page_url, ...event_data }]; an entry of the event data
    takes the place of an earlier entry with the same key. *)
Definition pixelFactors (eventType : string) (pageUrl : option string)
    (eventData : list (string * Js.jsval)) : list (string * Js.jsval) :=
  eventData
  ++ [ ("event_type", Js.JStr eventType);
       ("page_url", match pageUrl with
                    | Some url => Js.JStr url
                    | None => Js.JUndefined
                    end) ]%string.

End Leads.

(* ================================================================== *)
(** * Dealer numbers                                                   *)
(* ================================================================== *)

Module DealerNumbers.
Import Schema Shared.

(** [dealer_numbers] *)
Module DealerNumber.
Record t : Type := mk {
  id : string;
  dealerId : string;
  phoneNumber : string;
  purpose : string;
  status : string
}.
End DealerNumber.

(** [DealerService.getActiveNumbers] over the rows of [dealer_numbers] *)
Definition getActiveNumbers (numbers : list DealerNumber.t) (dealerId : string)
    : list DealerNumber.t :=
  Drizzle.findMany
    (fun n => String.eqb (DealerNumber.dealerId n) dealerId
              && String.eqb (DealerNumber.status n) "active")
    numbers.

(** [DealerService.getPrimaryOutboundNumber] *)
Definition getPrimaryOutboundNumber (numbers : list DealerNumber.t)
    (dealerId : string) : Result DealerNumber.t :=
  let active := getActiveNumbers numbers dealerId in
  match find (fun n => String.eqb (DealerNumber.purpose n) "outbound"
                       || String.eqb (DealerNumber.purpose n) "both")
          active with
  | Some outboundNumber => ret outboundNumber
  | None =>
      throw (PlainError
               ("No outbound phone number found for dealer " ++ dealerId)%string)
  end.

(** Step ['get-dealer-number'] of the trigger-call job *)
Definition getDealerNumberStep (numbers : list DealerNumber.t)
    (dealer_id : string) : Result DealerNumber.t :=
  match Drizzle.findMany
          (fun n => String.eqb (DealerNumber.dealerId n) dealer_id
                    && String.eqb (DealerNumber.status n) "active")
          numbers with
  | number :: _ => ret number
  | [] => throw (PlainError "No active dealer phone number found")
  end.

End DealerNumbers.

(* ================================================================== *)
(** * The trigger-call job up to its rate-limit step                   *)
(* ================================================================== *)

Module TriggerCallJob.
Import Schema Shared.

(** How a run of the job ends: it returns early, a step throws, or the
    steps modelled here hand over to the remaining ones. *)
Inductive Run (A : Type) : Type :=
| Skipped (reason : string) (will_retry : bool)
| Failed (e : Leads.LeadException)
| Continued (a : A).

Arguments Skipped {A} reason will_retry.
Arguments Failed {A} e.
Arguments Continued {A} a.

(** Step ['get-lead-and-check-optout'] *)
Definition getLeadAndCheckOptout (db : Database) (tables : Leads.Tables)
    (dealer_id lead_id : string) : Leads.Outcome Leads.Lead.t :=
  match Leads.getLead tables lead_id with
  | inl e => inl e
  | inr leadData =>
      match Leads.Lead.phone leadData with
      | Some phone =>
          if String.eqb phone EmptyString
          then inl (Leads.Raised (PlainError "Lead has no phone number"))
          else
            match LeadService.checkOptOut db dealer_id phone LeadService.call with
            | inl e => inl (Leads.Raised e)
            | inr _ => inr leadData
            end
      | None => inl (Leads.Raised (PlainError "Lead has no phone number"))
      end
  end.

(** The job up to and including step ['check-rate-limits']; [rest] stands
    for the steps after it, which get the lead of the second step. *)
Definition triggerCall {A : Type} (tz : DealerService.TzDatabase)
    (db : Database) (tables : Leads.Tables) (dealer_id lead_id : string)
    (date : Z) (rest : Leads.Lead.t -> Run A) : Run A :=
  match DealerService.isWithinCallingWindow tz db dealer_id date with
  | inl e => Failed (Leads.Raised e)
  | inr canCall =>
      if negb canCall
      then Skipped "outside_calling_hours" false
      else
        match getLeadAndCheckOptout db tables dealer_id lead_id with
        | inl e => Failed e
        | inr lead =>
            match TriggerCall.checkRateLimitsStep db dealer_id with
            | inl e => Failed (Leads.Raised e)
            | inr _ => rest lead
            end
        end
  end.

End TriggerCallJob.

(* ================================================================== *)
(** * The agent's tools: initiate-transfer and lookup-lead             *)
(* ================================================================== *)

Module Tools.
Import Schema Shared.

(** What [initiateTransfer] answers: a 404 with its error text, the
    transfer action with the conference and the rep's name (the briefing
    text is left out), or the 500 of the [catch] block. *)
Inductive TransferResponse : Type :=
| TransferNotFound (error : string)
| TransferStarted (conference_name rep_name : string)
| TransferFailed.

(** The update [initiateTransfer] writes on the session. *)
Definition transferringUpdate (user_id : string)
    : CallService.UpdateCallSessionInput :=
  {| CallService.signalwireCallSid := None;
     CallService.status := Some "transferring"%string;
     CallService.outcome := None;
     CallService.answeredAt := None;
     CallService.endedAt := None;
     CallService.durationSeconds := None;
     CallService.transferredToUserId := Some user_id;
     CallService.transferCompleted := None;
     CallService.recordingUrl := None;
     CallService.recordingDuration := None;
     CallService.metadata := None |}.

(** [initiateTransfer] on a validated body: the answer and the store
    afterwards.  [dialed] says whether connecting to the provider and
    dialling the rep went through; when it did not, the call throws and the
    [catch] block answers. *)
Definition initiateTransfer (db : Database)
    (numbers : list DealerNumbers.DealerNumber.t)
    (call_session_id dealer_id user_id : string) (dialed : bool) (now : Z)
    : TransferResponse * Database :=
  match CallService.getCallSession db call_session_id with
  | inl _ => (TransferFailed, db)
  | inr (Js.RefObject callSession) =>
      match Drizzle.findFirst
              (fun u => String.eqb (DealerUser.id u) user_id
                        && String.eqb (DealerUser.dealerId u) dealer_id)
              (dealerUsers db) with
      | Js.RefObject rep =>
          match Drizzle.findMany
                  (fun n =>
                     String.eqb (DealerNumbers.DealerNumber.dealerId n) dealer_id
                     && String.eqb (DealerNumbers.DealerNumber.status n) "active")
                  numbers with
          | dealerNumber :: _ =>
              if dialed then
                let conferenceName := ("transfer-" ++ call_session_id)%string in
                match CallService.updateCallSession db call_session_id
                        (transferringUpdate user_id) now with
                | inr (_, db') =>
                    (TransferStarted conferenceName
                       (DealerUser.firstName rep ++ " " ++ DealerUser.lastName rep),
                     db')
                | inl _ => (TransferFailed, db)
                end
              else (TransferFailed, db)
          | [] => (TransferNotFound "No active dealer phone number found", db)
          end
      | _ => (TransferNotFound "Sales representative not found", db)
      end
  | inr _ => (TransferNotFound "Call session not found", db)
  end.

(** What [lookupLead] answers: the two [found: false] bodies, the lead
    context, or the 500 of the [catch] block. *)
Inductive LookupResponse : Type :=
| DealerNotFoundMessage
| NoLeadRecord (dealer_name : string)
| LeadFound (lead : Leads.Lead.t) (intent_score : Z)
    (dealer_name timezone : string)
| LookupFailed.

(** [intentScore?.score || 0] *)
Definition scoreOrZero (intentScore : Js.jsref Leads.IntentScore.t) : Z :=
  match intentScore with
  | Js.RefObject s =>
      if Leads.IntentScore.score s =? 0 then 0 else Leads.IntentScore.score s
  | _ => 0
  end.

(** [lookupLead] on a validated body.  What [getDealer] hands back is a
    dealer row, which the handler then tests with [!dealer]. *)
Definition lookupLead (db : Database) (tables : Leads.Tables)
    (dealer_id phone : string) : LookupResponse :=
  match DealerService.getDealer db dealer_id with
  | inl _ => LookupFailed
  | inr row =>
      match Js.RefObject row with
      | Js.RefObject dealer =>
          match Leads.findLeadByPhone tables dealer_id phone with
          | Js.RefObject lead =>
              let intentScore :=
                Leads.getLatestIntentScore tables (Leads.Lead.id lead) in
              LeadFound lead (scoreOrZero intentScore) (Dealer.name dealer)
                (Dealer.timezone dealer)
          | _ => NoLeadRecord (Dealer.name dealer)
          end
      | _ => DealerNotFoundMessage
      end
  end.

End Tools.

(* ================================================================== *)
(** * log-qualification and the update-lead step                       *)
(* ================================================================== *)

Module Qualification.
Import Schema Shared.

(** [{ ...obj, [key]: value }]: the property takes the place of an existing
    one with the key, or is added behind the others. *)
Fixpoint set_prop (props : list (string * Js.jsval)) (key : string)
    (value : Js.jsval) : list (string * Js.jsval) :=
  match props with
  | [] => [(key, value)]
  | (k, v) :: rest =>
      if String.eqb k key then (k, value) :: rest
      else (k, v) :: set_prop rest key value
  end.

(** What [logQualification] answers: success, the 404 for an unknown
    session, or the 500 of the [catch] block. *)
Inductive Response : Type :=
| Logged
| SessionNotFound
| LogFailed.

(** A zod-validated optional string, read for its truthiness. *)
Definition truthyString (v : Js.jsval) : option string :=
  match v with
  | Js.JStr s => if String.eqb s EmptyString then None else Some s
  | _ => None
  end.

(** The input [{ vehicleOfInterest }] of [updateLead]. *)
Definition vehicleUpdate (vehicle : string) : Leads.UpdateLeadInput :=
  Leads.mkUpdateLead None None None (Some vehicle) None None None.

(** The input [{ metadata }] of [updateCallSession]. *)
Definition metadataUpdate (metadata : list (string * Js.jsval))
    : CallService.UpdateCallSessionInput :=
  {| CallService.signalwireCallSid := None;
     CallService.status := None;
     CallService.outcome := None;
     CallService.answeredAt := None;
     CallService.endedAt := None;
     CallService.durationSeconds := None;
     CallService.transferredToUserId := None;
     CallService.transferCompleted := None;
     CallService.recordingUrl := None;
     CallService.recordingDuration := None;
     CallService.metadata := Some metadata |}.

(** [logQualification] on a validated body: the answer and the two stores
    afterwards.  [qualification] is the validated object, [qualified_at]
    the ISO text of the current time. *)
Definition logQualification (db : Database) (tables : Leads.Tables)
    (call_session_id lead_id : string)
    (qualification : list (string * Js.jsval)) (qualified_at : string)
    (now : Z) : Response * Database * Leads.Tables :=
  match CallService.getCallSession db call_session_id with
  | inl _ => (LogFailed, db, tables)
  | inr (Js.RefObject callSession) =>
      let updatedLead :=
        match truthyString (Js.get_prop qualification "vehicle_interest") with
        | Some vehicle =>
            match Leads.updateLead tables lead_id (vehicleUpdate vehicle) now with
            | inl e => inl e
            | inr (_, tables') => inr tables'
            end
        | None => inr tables
        end in
      match updatedLead with
      | inl _ => (LogFailed, db, tables)
      | inr tables' =>
          let metadata :=
            set_prop
              (set_prop (CallSession.metadata callSession) "qualification"
                 (Js.JObj qualification))
              "qualified_at" (Js.JStr qualified_at) in
          match CallService.updateCallSession db call_session_id
                  (metadataUpdate metadata) now with
          | inr (_, db') => (Logged, db', tables')
          | inl _ => (LogFailed, db, tables')
          end
      end
  | inr _ => (SessionNotFound, db, tables)
  end.

(** Step ['update-lead'] of the process-transcript job: the lead tables
    afterwards.  [vehicle_interest] is the vehicle of the summary when it is
    a non-empty text, [sentiment] the sentiment of the summary; [now1] and
    [now2] are the times of the two updates. *)
Definition updateLeadStep (db : Database) (tables : Leads.Tables)
    (call_session_id lead_id : string) (vehicle_interest : option string)
    (sentiment : string) (now1 now2 : Z) : Leads.Outcome Leads.Tables :=
  let afterVehicle :=
    match vehicle_interest with
    | Some vehicle =>
        if String.eqb vehicle EmptyString then inr tables
        else
          match Leads.updateLead tables lead_id (vehicleUpdate vehicle) now1 with
          | inl e => inl e
          | inr (_, tables') => inr tables'
          end
    | None => inr tables
    end in
  match afterVehicle with
  | inl e => inl e
  | inr tables' =>
      match CallService.getCallSession db call_session_id with
      | inl e => inl (Leads.Raised e)
      | inr session =>
          let outcome :=
            match session with
            | Js.RefObject s => CallSession.outcome s
            | _ => None
            end in
          let status :=
            if Drizzle.eq_nullable outcome "transferred"
            then Some "transferred"%string
            else if Drizzle.eq_nullable outcome "appointment_set"
            then Some "appointment_set"%string
            else if String.eqb sentiment "positive" then Some "qualified"%string
            else None in
          match status with
          | Some s =>
              match Leads.updateStatus tables' lead_id s now2 with
              | inl e => inl e
              | inr (_, tables'') => inr tables''
              end
          | None => inr tables'
          end
      end
  end.

End Qualification.

(* ================================================================== *)
(** * retry                                                            *)
(* ================================================================== *)

Module Retry.
Import Shared.

Section Attempts.
Context {T : Type}.

(** The outcome of each call of [fn], by the number of calls before it;
    what [fn] throws is an [Error]. *)
Variable fn : nat -> Result T.
Variables maxDelay backoffFactor : Z.

(** The loop of [retry] with [left] attempts to go, after [calls] calls of
    [fn]: the result and the sleeps asked for so far, in milliseconds. *)
Fixpoint attempts (left calls : nat) (delay : Z) (slept : list Z)
    : Result T * list Z :=
  match left with
  | O => (throw (PlainError "Retry failed with no error"), slept)
  | S left' =>
      match fn calls with
      | inr value => (ret value, slept)
      | inl lastError =>
          match left' with
          | O => (throw lastError, slept)
          | S _ =>
              attempts left' (S calls) (delay * backoffFactor)
                (slept ++ [Z.min delay maxDelay])
          end
      end
  end.

End Attempts.

(** [retry(fn, { maxAttempts, initialDelay, maxDelay, backoffFactor })] for
    integer options; the defaults are 3, 1000, 10000 and 2. *)
Definition retry {T : Type} (fn : nat -> Result T)
    (maxAttempts initialDelay maxDelay backoffFactor : Z)
    : Result T * list Z :=
  attempts fn maxDelay backoffFactor (Z.to_nat maxAttempts) 0 initialDelay [].

End Retry.

(* ================================================================== *)
(** * Further stores used by the examples                              *)
(* ================================================================== *)

Module Scenarios.
Import Schema Shared.

(** A session the job created for a SWAIG agent session, before the
    provider reported anything. *)
Definition swaigSession : CallSession.t :=
  CallStore.newSession
    (CallStore.mkCreate "dealer-1" "lead-1" "+19195550100" "+19195550123"
       (Some "swaig-1") (Some "agent-1") None)%string "cs-1" 0.

Definition swaigDb : Database :=
  mkDatabase [Examples.dealer1] [] [] [] [] [swaigSession] [].

(** A lead of the dealer that the assistant still owns. *)
Definition aiLead : Leads.Lead.t :=
  {| Leads.Lead.id := "lead-1";
     Leads.Lead.dealerId := "dealer-1";
     Leads.Lead.storeId := None;
     Leads.Lead.phone := Some "+19195551234"%string;
     Leads.Lead.email := None;
     Leads.Lead.firstName := Some "Ada"%string;
     Leads.Lead.lastName := None;
     Leads.Lead.department := None;
     Leads.Lead.vehicleOfInterest := None;
     Leads.Lead.source := Some "website"%string;
     Leads.Lead.sourceDetail := None;
     Leads.Lead.status := "new";
     Leads.Lead.ownedBy := "ai";
     Leads.Lead.assignedToUserId := None;
     Leads.Lead.transferredAt := None;
     Leads.Lead.lastActivityAt := 0;
     Leads.Lead.updatedAt := 0;
     Leads.Lead.metadata := [] |}.

Definition oneLead : Leads.Tables := Leads.mkTables [aiLead] [] [].



End Scenarios.

(* ================================================================== *)
(** * Further vocabulary of the statements                             *)
(* ================================================================== *)

Module Terms.
Import Schema Shared.

(** The first rule of a list whose conditions match and whose own target
    resolves, the matching rules in front of it resolving to nothing. *)
Definition firstOwnTarget (pg : Postgres.Executor) (db : Database)
    (context : RoutingEngine.RoutingContext) (rules : list RoutingRule.t)
    (r : RoutingRule.t) (t : RoutingEngine.RoutingTarget) : Prop :=
  exists before after,
    rules = before ++ r :: after
    /\ (forall r', In r' before -> Spec.matches context r' = true ->
                   RoutingEngine.resolveRuleTarget pg db r' = inr None)
    /\ Spec.matches context r = true
    /\ RoutingEngine.resolveRuleTarget pg db r = inr (Some t).

(** The stored session with the given id: the row that
    [UPDATE ... WHERE id = ?] rewrites. *)
Definition sessionById (db : Database) (callSessionId : string)
    : Js.jsref CallSession.t :=
  Drizzle.findFirst (fun s => String.eqb (CallSession.id s) callSessionId)
    (callSessions db).

(** What the query builder throws for a name under [with] that is no
    declared relation of the table. *)
Definition undeclaredRelation : Exception :=
  TypeError "Cannot read properties of undefined (reading 'referencedTable')".

(** What the query builder throws for the relation [identities] of a
    lead: [leadsRelations] declares it with [many], and no relations are
    declared for [lead_identities] that could tell its columns. *)
Definition inverseMissing : Exception :=
  PlainError
    ("There is not enough information to infer relation "
     ++ Drizzle.doubleQuote ++ "leads.identities" ++ Drizzle.doubleQuote).

(** What an entry of [allRulesEvaluated] records of its rule: whether the
    conditions match, and whether a matching rule's own target resolved. *)
Definition recordsRule (pg : Postgres.Executor) (db : Database)
    (context : RoutingEngine.RoutingContext)
    (e : RoutingDebug.RuleEvaluation) : Prop :=
  RoutingDebug.matched e = Spec.matches context (RoutingDebug.rule e)
  /\ (RoutingDebug.hasAvailableTarget e = true
      <-> Spec.matches context (RoutingDebug.rule e) = true
          /\ exists t, RoutingEngine.resolveRuleTarget pg db (RoutingDebug.rule e)
                       = inr (Some t)).

(** The rule at which the scan of a list stops with the outcome [found]:
    it matches and resolves to [found], and every matching rule in front of
    it resolved to nothing. *)
Definition stopsAt (pg : Postgres.Executor) (db : Database)
    (context : RoutingEngine.RoutingContext) (rules : list RoutingRule.t)
    (found : Result (option RoutingEngine.RoutingTarget)) : Prop :=
  exists before rule after,
    rules = before ++ rule :: after
    /\ (forall r, In r before -> Spec.matches context r = true ->
                  RoutingEngine.resolveMatched pg db r = inr None)
    /\ Spec.matches context rule = true
    /\ RoutingEngine.resolveMatched pg db rule = found.

(** The text of a [time] column for the hour and minute of a wall clock:
    ['HH:MM:'] followed by the seconds. *)
Definition timeText (hours minutes : Z) (seconds : string) : string :=
  (DealerChecks.twoDigits hours ++ ":" ++ DealerChecks.twoDigits minutes
   ++ ":" ++ seconds)%string.

(** The factor [key] counts [n]: the factors carry the non-negative integer
    [n] under the key, or nothing and [n] is 0. *)
Definition factorCount (factors : list (string * Js.jsval)) (key : string)
    (n : Z) : Prop :=
  (Js.get_prop factors key = Js.JUndefined /\ n = 0)
  \/ (0 <= n /\ Js.get_prop factors key = Js.JNum (Js.Fin n)).

(** The points [scoreIntent] gives for the form interaction. *)
Definition formPoints (factors : list (string * Js.jsval)) : Z :=
  if Js.truthy (Js.get_prop factors "form_submit") then 30
  else if Js.truthy (Js.get_prop factors "form_started") then 15
  else 0.

(** A lead row as the lead service writes it: a status of the list that
    [updateStatus] accepts, an owner that is the assistant or a human, and
    an assigned user when the owner is a human. *)
Definition leadWellFormed (l : Leads.Lead.t) : Prop :=
  In (Leads.Lead.status l) Leads.validStatuses
  /\ In (Leads.Lead.ownedBy l) ["ai"; "human"]%string
  /\ (Leads.Lead.ownedBy l = "human"%string ->
      Leads.Lead.assignedToUserId l <> None).

Definition leadsWellFormed (tables : Leads.Tables) : Prop :=
  Forall leadWellFormed (Leads.leads tables).


End Terms.

(* ================================================================== *)
(** * Properties                                                       *)
(* ================================================================== *)

Import Schema Shared.

(** ** The stable sort *)

Section SortPermutation.
Context {A : Type} (geb : A -> A -> bool).

Lemma insert_desc_perm (x : A) (l : list A) :
  Permutation (Js.insert_desc geb x l) (x :: l).
Proof.
  induction l as [|y rest IH]; simpl.
  - apply Permutation_refl.
  - destruct (geb x y).
    + apply Permutation_refl.
    + eapply perm_trans; [apply perm_skip, IH | apply perm_swap].
Qed.

Lemma sort_desc_perm (l : list A) : Permutation (Js.sort_desc geb l) l.
Proof.
  induction l as [|x rest IH]; simpl.
  - apply perm_nil.
  - eapply perm_trans; [apply insert_desc_perm | apply perm_skip, IH].
Qed.

Lemma sort_desc_nil (l : list A) : Js.sort_desc geb l = [] -> l = [].
Proof.
  intros E. pose proof (sort_desc_perm l) as P. rewrite E in P.
  apply Permutation_nil in P. exact P.
Qed.

End SortPermutation.

Section SortFacts.
Context {A : Type} (key : A -> Z).

Let geb (a b : A) : bool := key b <=? key a.
Let desc (a b : A) : Prop := key b <= key a.

Lemma insert_desc_sorted (x : A) (l : list A) :
  StronglySorted desc l -> StronglySorted desc (Js.insert_desc geb x l).
Proof.
  induction 1 as [|y rest Hs IH Hall]; simpl.
  - repeat constructor.
  - destruct (geb x y) eqn:E; unfold geb in E.
    + apply Z.leb_le in E.
      constructor; [constructor; assumption|].
      constructor; [exact E|].
      eapply Forall_impl; [|exact Hall].
      intros b Hb; unfold desc in *; lia.
    + apply Z.leb_gt in E.
      constructor; [exact IH|].
      apply (Permutation_Forall (Permutation_sym (insert_desc_perm geb x rest))).
      constructor; [unfold desc; lia | exact Hall].
Qed.

Lemma sort_desc_sorted (l : list A) : StronglySorted desc (Js.sort_desc geb l).
Proof.
  induction l as [|x rest IH]; simpl.
  - constructor.
  - apply insert_desc_sorted, IH.
Qed.

(** Stability: within one key the input order survives. *)
Lemma insert_desc_tier (p : Z) (x : A) (l : list A) :
  filter (fun a => key a =? p) (Js.insert_desc geb x l)
  = filter (fun a => key a =? p) (x :: l).
Proof.
  induction l as [|y rest IH]; simpl.
  - reflexivity.
  - destruct (geb x y) eqn:E; unfold geb in E; simpl.
    + reflexivity.
    + apply Z.leb_gt in E. rewrite IH. simpl.
      destruct (key y =? p) eqn:Ey, (key x =? p) eqn:Ex; try reflexivity.
      apply Z.eqb_eq in Ey, Ex. lia.
Qed.

Lemma sort_desc_tier (p : Z) (l : list A) :
  filter (fun a => key a =? p) (Js.sort_desc geb l)
  = filter (fun a => key a =? p) l.
Proof.
  induction l as [|x rest IH]; simpl.
  - reflexivity.
  - rewrite insert_desc_tier. simpl. rewrite IH. reflexivity.
Qed.

(** The head of the sorted list is a row of largest key. *)
Lemma sort_desc_head (l : list A) (a : A) (rest : list A) :
  Js.sort_desc geb l = a :: rest ->
  In a l /\ forall b, In b l -> key b <= key a.
Proof.
  intros E.
  pose proof (sort_desc_perm geb l) as P.
  pose proof (sort_desc_sorted l) as S.
  rewrite E in P, S.
  split.
  - eapply Permutation_in; [exact P | left; reflexivity].
  - intros b Hb.
    apply (Permutation_in _ (Permutation_sym P)) in Hb.
    destruct Hb as [<-|Hb]; [lia|].
    inversion S as [|? ? _ Hall]; subst.
    rewrite Forall_forall in Hall. apply Hall, Hb.
Qed.

(** A descending list is determined by its tiers. *)
Lemma sorted_tiers_unique (l1 l2 : list A) :
  StronglySorted desc l1 -> StronglySorted desc l2 ->
  (forall p, filter (fun a => key a =? p) l1 = filter (fun a => key a =? p) l2) ->
  l1 = l2.
Proof.
  intros S1. revert l2.
  induction S1 as [|x l1 S1 IH H1]; intros l2 S2 T.
  - destruct l2 as [|y l2]; [reflexivity|].
    specialize (T (key y)). simpl in T. rewrite Z.eqb_refl in T. discriminate T.
  - destruct S2 as [|y l2 S2 H2].
    { specialize (T (key x)). simpl in T. rewrite Z.eqb_refl in T. discriminate T. }
    rewrite Forall_forall in H1, H2. unfold desc in H1, H2.
    assert (key x = key y) as Exy.
    { destruct (Z.lt_trichotomy (key x) (key y)) as [Hlt|[E|Hgt]]; [|exact E|].
      - pose proof (T (key y)) as Ty. simpl in Ty. rewrite Z.eqb_refl in Ty.
        destruct (Z.eqb_spec (key x) (key y)) as [E|_]; [exact E|].
        assert (In y (filter (fun a => key a =? key y) l1)) as Hin
            by (rewrite Ty; left; reflexivity).
        apply filter_In in Hin. destruct Hin as [Hin Hk].
        apply Z.eqb_eq in Hk. specialize (H1 _ Hin). lia.
      - pose proof (T (key x)) as Tx. simpl in Tx. rewrite Z.eqb_refl in Tx.
        destruct (Z.eqb_spec (key y) (key x)) as [E|_]; [symmetry; exact E|].
        assert (In x (filter (fun a => key a =? key x) l2)) as Hin
            by (rewrite <- Tx; left; reflexivity).
        apply filter_In in Hin. destruct Hin as [Hin Hk].
        apply Z.eqb_eq in Hk. specialize (H2 _ Hin). lia. }
    assert (x = y) as ->.
    { specialize (T (key x)). simpl in T.
      rewrite Z.eqb_refl in T. rewrite <- Exy, Z.eqb_refl in T.
      injection T as E _. exact E. }
    f_equal. apply IH; [exact S2|].
    intros p. specialize (T p). simpl in T.
    destruct (key y =? p); [injection T as E; exact E | exact T].
Qed.

End SortFacts.

(** ** Lists *)

Lemma NoDup_keys_of_filter {A B : Type} (key : A -> B) (keep : A -> bool)
    (rows : list A) :
  NoDup (map key rows) -> NoDup (map key (filter keep rows)).
Proof.
  intros H. induction rows as [|x rest IH]; simpl in *.
  - constructor.
  - inversion H as [|? ? Hx Hrest]; subst.
    destruct (keep x); simpl; [|apply IH, Hrest].
    constructor; [|apply IH, Hrest].
    intros Hin. apply Hx. apply in_map_iff in Hin.
    destruct Hin as (y & Ey & Hy). apply filter_In in Hy.
    apply in_map_iff. exists y. tauto.
Qed.

(** ** Compliance gate *)

(** Whatever the opt-out table holds, [isOptedOut] answers [true]: the
    lookup yields a row or [undefined], and neither is [null]. *)
Lemma isOptedOut_constant (db : Database) (dealerId phone : string)
    (channel : LeadService.Channel) :
  LeadService.isOptedOut db dealerId phone channel = true.
Proof.
  unfold LeadService.isOptedOut, Drizzle.findFirst.
  destruct (filter _ _); reflexivity.
Qed.

(** C1 (the code departs from the specification).  The compliance check is
    specified to report blocked exactly when a suppressing opt-out record
    exists and allowed when none exists.  On a store without any opt-out
    record [isOptedOut] answers [true] and [checkOptOut] throws
    [OptOutError]. *)
Theorem C1_checkOptOut_blocks_without_record :
  Spec.suppressing Examples.quietDb "dealer-1" "(919) 555-1234" LeadService.call = []
  /\ LeadService.isOptedOut Examples.quietDb "dealer-1" "(919) 555-1234"
       LeadService.call = true
  /\ LeadService.checkOptOut Examples.quietDb "dealer-1" "(919) 555-1234"
       LeadService.call
     = inl (Thrown (OptOutError "dealer-1" "(919) 555-1234")).
Proof. repeat split. Qed.

(** ** Rate limits *)

(** The usage figures of [getRateLimitState] do not depend on the calls in
    the store. *)
Lemma getRateLimitState_usage (db : Database) (dealerId : string) :
  DealerService.concurrentCalls (DealerService.getRateLimitState db dealerId) = 0
  /\ DealerService.callsThisHour (DealerService.getRateLimitState db dealerId) = 0.
Proof. split; reflexivity. Qed.

(** With positive ceilings [checkRateLimits] passes on every store. *)
Lemma checkRateLimits_passes (db : Database) (dealerId : string) :
  0 < CallingProfile.maxConcurrentCalls (DealerService.getCallingProfile db dealerId) ->
  0 < CallingProfile.maxCallsPerHour (DealerService.getCallingProfile db dealerId) ->
  DealerService.checkRateLimits db dealerId = inr tt.
Proof.
  intros Hc Hh. unfold DealerService.checkRateLimits. simpl.
  destruct (Z.leb_spec (CallingProfile.maxConcurrentCalls
                          (DealerService.getCallingProfile db dealerId)) 0); [lia|].
  destruct (Z.leb_spec (CallingProfile.maxCallsPerHour
                          (DealerService.getCallingProfile db dealerId)) 0); [lia|].
  reflexivity.
Qed.

(** C2 (the code departs from the specification).  The rate-limit check is
    specified to compare the dealer's actual concurrent and trailing-hour
    call counts with the profile's ceilings and to raise a rate-limit error
    naming the cause.  With three calls in flight and a ceiling of three,
    [checkRateLimits] reads a usage of zero and passes; the job step throws
    a [TypeError] instead of a rate-limit error. *)
Theorem C2_checkRateLimits_ignores_calls_in_flight :
  List.length (Spec.inFlight Examples.busyDb "dealer-1") = 3%nat
  /\ CallingProfile.maxConcurrentCalls
       (DealerService.getCallingProfile Examples.busyDb "dealer-1") = 3
  /\ DealerService.concurrentCalls
       (DealerService.getRateLimitState Examples.busyDb "dealer-1") = 0
  /\ DealerService.checkRateLimits Examples.busyDb "dealer-1" = inr tt
  /\ TriggerCall.checkRateLimitsStep Examples.busyDb "dealer-1"
     = inl (TypeError "dealerService.getCurrentConcurrentCalls is not a function").
Proof. repeat split. Qed.

(** Had the two readers existed, a reached ceiling would surface as a plain
    [Error] carrying the two figures. *)
Example checkRateLimitsBody_with_readers :
  TriggerCall.checkRateLimitsBody
    (TriggerCall.mkReaders (Some (fun _ _ => 3)) (Some (fun _ _ => 0)))
    Examples.busyDb "dealer-1"
  = inl (PlainError "Max concurrent calls reached: 3/3")
  /\ TriggerCall.checkRateLimitsBody
       (TriggerCall.mkReaders (Some (fun _ _ => 0)) (Some (fun _ _ => 50)))
       Examples.busyDb "dealer-1"
     = inl (PlainError "Hourly rate limit reached: 50/50")
  /\ TriggerCall.checkRateLimitsBody
       (TriggerCall.mkReaders (Some (fun _ _ => 2)) (Some (fun _ _ => 49)))
       Examples.busyDb "dealer-1"
     = inr tt.
Proof. repeat split. Qed.

(** ** Routing: the order of evaluation *)

Lemma inStorageOrder_sound : Postgres.sound Postgres.inStorageOrder.
Proof. intros A where_ rows. apply Permutation_refl. Qed.


Lemma orderedBy_perm {A : Type} (pg : Postgres.Executor) (geb : A -> A -> bool)
    (where_ : A -> bool) (rows : list A) :
  Postgres.sound pg ->
  Permutation (Postgres.orderedBy pg geb where_ rows) (filter where_ rows).
Proof.
  intros Hpg. unfold Postgres.orderedBy.
  eapply perm_trans; [apply sort_desc_perm | apply Hpg].
Qed.

Section UniqueOrder.
Context {A : Type} (key : A -> Z).

Let geb (a b : A) : bool := key b <=? key a.

Lemma tier_without_key (p : Z) (l : list A) :
  ~ In p (map key l) -> filter (fun a => key a =? p) l = [].
Proof.
  induction l as [|x rest IH]; simpl; intros Hnot; [reflexivity|].
  destruct (Z.eqb_spec (key x) p) as [E|_].
  - exfalso. apply Hnot. left. exact E.
  - apply IH. intros Hin. apply Hnot. right. exact Hin.
Qed.

Lemma tier_of_distinct (p : Z) (l : list A) :
  NoDup (map key l) ->
  (List.length (filter (fun a => (key a =? p)%Z) l) <= 1)%nat.
Proof.
  induction l as [|x rest IH]; simpl; intros Hnd; [lia|].
  inversion Hnd as [|? ? Hx Hrest]; subst.
  destruct (Z.eqb_spec (key x) p) as [E|_]; [|apply IH, Hrest].
  simpl. rewrite tier_without_key by (rewrite <- E; exact Hx). simpl. lia.
Qed.

Lemma filter_perm (keep : A -> bool) (l1 l2 : list A) :
  Permutation l1 l2 -> Permutation (filter keep l1) (filter keep l2).
Proof.
  induction 1 as [|x l1 l2 _ IH|x y l|l1 l2 l3 _ IH1 _ IH2]; simpl.
  - apply perm_nil.
  - destruct (keep x); [apply perm_skip|]; exact IH.
  - destruct (keep x), (keep y); try apply Permutation_refl. apply perm_swap.
  - eapply perm_trans; eassumption.
Qed.

(** With pairwise distinct keys the descending order of the rows does not
    depend on the order in which they are obtained. *)
Lemma sort_desc_unique (l1 l2 : list A) :
  Permutation l1 l2 -> NoDup (map key l1) ->
  Js.sort_desc geb l1 = Js.sort_desc geb l2.
Proof.
  intros P Hnd.
  apply (sorted_tiers_unique key); try apply (sort_desc_sorted key).
  intros p. rewrite !(sort_desc_tier key).
  pose proof (filter_perm (fun a => key a =? p) l1 l2 P) as Pf.
  pose proof (tier_of_distinct p l1 Hnd) as Hlen.
  destruct (filter (fun a => key a =? p) l1) as [|x [|y rest]].
  - apply Permutation_nil in Pf. symmetry. exact Pf.
  - apply Permutation_length_1_inv in Pf. symmetry. exact Pf.
  - simpl in Hlen. lia.
Qed.

Lemma orderedBy_unique (pg pg' : Postgres.Executor) (where_ : A -> bool)
    (rows : list A) :
  Postgres.sound pg -> Postgres.sound pg' ->
  NoDup (map key (filter where_ rows)) ->
  Postgres.orderedBy pg geb where_ rows = Postgres.orderedBy pg' geb where_ rows.
Proof.
  intros H H' Hnd. unfold Postgres.orderedBy.
  apply sort_desc_unique.
  - eapply perm_trans; [apply H | apply Permutation_sym, H'].
  - eapply Permutation_NoDup; [|exact Hnd].
    apply Permutation_map, Permutation_sym, H.
Qed.

End UniqueOrder.

Lemma rulesByPriority_sorted (pg : Postgres.Executor)
    (where_ : RoutingRule.t -> bool) (db : Database) :
  StronglySorted Spec.priorityDesc (RoutingEngine.rulesByPriority pg where_ db).
Proof. apply (sort_desc_sorted RoutingRule.priority). Qed.

Lemma rulesByPriority_perm (pg : Postgres.Executor)
    (where_ : RoutingRule.t -> bool) (db : Database) :
  Postgres.sound pg ->
  Permutation (RoutingEngine.rulesByPriority pg where_ db)
    (filter where_ (routingRules db)).
Proof. apply orderedBy_perm. Qed.

Lemma getActiveRules_sorted (pg : Postgres.Executor) (db : Database)
    (dealerId : string) (storeId : option string) :
  StronglySorted Spec.priorityDesc
    (RoutingEngine.getActiveRules pg db dealerId storeId).
Proof.
  unfold RoutingEngine.getActiveRules.
  destruct storeId as [sid|]; [destruct (String.eqb sid EmptyString)|];
    try apply rulesByPriority_sorted.
  apply (sort_desc_sorted RoutingRule.priority).
Qed.


Lemma filter_activeForStore (dealerId sid : string) (rows : list RoutingRule.t) :
  filter (RoutingEngine.activeForStore dealerId sid) rows
  = filter (fun r => Drizzle.eq_nullable (RoutingRule.storeId r) sid)
      (filter (RoutingEngine.activeFor dealerId) rows).
Proof.
  induction rows as [|r rest IH]; simpl; [reflexivity|].
  unfold RoutingEngine.activeForStore at 1.
  destruct (RoutingEngine.activeFor dealerId r); simpl.
  - destruct (Drizzle.eq_nullable (RoutingRule.storeId r) sid);
      rewrite IH; reflexivity.
  - exact IH.
Qed.

(** Without ties the list of rules is the same for every executor. *)
Lemma getActiveRules_unique (pg pg' : Postgres.Executor) (db : Database)
    (dealerId : string) (storeId : option string) :
  Postgres.sound pg -> Postgres.sound pg' ->
  Spec.distinctPriorities db dealerId ->
  RoutingEngine.getActiveRules pg db dealerId storeId
  = RoutingEngine.getActiveRules pg' db dealerId storeId.
Proof.
  intros H H' Hnd.
  assert (RoutingEngine.rulesByPriority pg (RoutingEngine.activeFor dealerId) db
          = RoutingEngine.rulesByPriority pg' (RoutingEngine.activeFor dealerId) db)
    as Ed by (apply (orderedBy_unique RoutingRule.priority); assumption).
  unfold RoutingEngine.getActiveRules.
  destruct storeId as [sid|]; [destruct (String.eqb sid EmptyString)|];
    try exact Ed.
  rewrite Ed. do 2 f_equal.
  apply (orderedBy_unique RoutingRule.priority); try assumption.
  rewrite filter_activeForStore. apply NoDup_keys_of_filter. exact Hnd.
Qed.



(** The order of the two rules of [scopedDb] under the two executors of the
    examples. *)
Example getActiveRules_store_first :
  map RoutingRule.id
    (RoutingEngine.getActiveRules Postgres.inStorageOrder Examples.scopedDb
       "dealer-1" (Some "store-1"%string))
  = ["store-scoped"; "dealer-wide"; "store-scoped"]%string
  /\ map RoutingRule.id
       (RoutingEngine.getActiveRules Postgres.inReverseOrder Examples.scopedDb
          "dealer-1" (Some "store-1"%string))
     = ["store-scoped"; "store-scoped"; "dealer-wide"]%string
  /\ map RoutingRule.id
       (RoutingEngine.getActiveRules Postgres.inStorageOrder Examples.scopedDb
          "dealer-1" None)
     = ["dealer-wide"; "store-scoped"]%string.
Proof. repeat split. Qed.


(** With distinct priorities the order in which the rows are stored or
    returned does not matter. *)
Example ranked_rules_in_one_order :
  map RoutingRule.id
    (RoutingEngine.getActiveRules Postgres.inStorageOrder Examples.rankedDb
       "dealer-1" None)
  = ["high"; "low"]%string
  /\ map RoutingRule.id
       (RoutingEngine.getActiveRules Postgres.inReverseOrder Examples.rankedDb
          "dealer-1" None)
     = ["high"; "low"]%string.
Proof. split; reflexivity. Qed.

(** ** Routing: first match with an available target *)

Lemma evaluateRuleConditions_forallb (conditions : list (string * Js.jsval))
    (context : RoutingEngine.RoutingContext) :
  RoutingEngine.evaluateRuleConditions conditions context
  = forallb (fun kv => RoutingEngine.evaluateCondition (fst kv) (snd kv) context)
      conditions.
Proof.
  induction conditions as [|[k v] rest IH]; simpl; [reflexivity|].
  destruct (RoutingEngine.evaluateCondition k v context); simpl;
    [exact IH | reflexivity].
Qed.

Lemma resolveMatched_some (pg : Postgres.Executor) (db : Database)
    (rule : RoutingRule.t) (t : RoutingEngine.RoutingTarget) :
  RoutingEngine.resolveMatched pg db rule = inr (Some t)
  <-> RoutingEngine.resolveRuleTarget pg db rule = inr (Some t)
      \/ (RoutingEngine.resolveRuleTarget pg db rule = inr None
          /\ RoutingEngine.resolveFallback pg db rule = inr (Some t)).
Proof.
  unfold RoutingEngine.resolveMatched, bind.
  destruct (RoutingEngine.resolveRuleTarget pg db rule) as [e|[t0|]]; simpl.
  - split; [discriminate | intros [H|[H _]]; discriminate H].
  - split; [intros H; left; exact H | intros [H|[H _]]; [exact H | discriminate H]].
  - split; [intros H; right; split; [reflexivity | exact H]
           | intros [H|[_ H]]; [discriminate H | exact H]].
Qed.

(** Case analysis on the rules in front of the selected one. *)
Ltac front before E :=
  destruct before as [|? before]; simpl in E; injection E as <- E.

Lemma stopsAt_nil (pg : Postgres.Executor) (db : Database)
    (context : RoutingEngine.RoutingContext)
    (found : Result (option RoutingEngine.RoutingTarget)) :
  ~ Terms.stopsAt pg db context [] found.
Proof. intros (before & rule & after & E & _). destruct before; discriminate E. Qed.

Lemma stopsAt_here (pg : Postgres.Executor) (db : Database)
    (context : RoutingEngine.RoutingContext) (r : RoutingRule.t)
    (rest : list RoutingRule.t)
    (found : Result (option RoutingEngine.RoutingTarget)) :
  Spec.matches context r = true ->
  RoutingEngine.resolveMatched pg db r <> inr None ->
  (Terms.stopsAt pg db context (r :: rest) found
   <-> RoutingEngine.resolveMatched pg db r = found).
Proof.
  intros M R. split.
  - intros (before & rule & after & E & Hb & Hm & Hr).
    front before E; [exact Hr|].
    contradiction R. apply Hb; [left; reflexivity | exact M].
  - intros Hr. exists [], r, rest. repeat split; try assumption. intros ? [].
Qed.

Lemma stopsAt_later (pg : Postgres.Executor) (db : Database)
    (context : RoutingEngine.RoutingContext) (r : RoutingRule.t)
    (rest : list RoutingRule.t)
    (found : Result (option RoutingEngine.RoutingTarget)) :
  found <> inr None ->
  (Spec.matches context r = true ->
   RoutingEngine.resolveMatched pg db r = inr None) ->
  (Terms.stopsAt pg db context (r :: rest) found <-> Terms.stopsAt pg db context rest found).
Proof.
  intros Hf Hskip. split.
  - intros (before & rule & after & E & Hb & Hm & Hr).
    front before E.
    + rewrite (Hskip Hm) in Hr. contradiction Hf. symmetry. exact Hr.
    + exists before, rule, after. repeat split; try assumption.
      intros r' Hin. apply Hb. right. exact Hin.
  - intros (before & rule & after & E & Hb & Hm & Hr).
    exists (r :: before), rule, after. subst rest.
    repeat split; try assumption.
    intros r' [<-|Hin] Hm'; [apply Hskip, Hm' | apply Hb; assumption].
Qed.

(** The loop returns [t] exactly when the scan stops at a rule that yields
    [t]. *)
Lemma routeLoop_ok (pg : Postgres.Executor) (db : Database)
    (context : RoutingEngine.RoutingContext)
    (t : RoutingEngine.RoutingTarget) (rules : list RoutingRule.t) :
  RoutingEngine.routeLoop pg db context rules = inr t
  <-> Terms.stopsAt pg db context rules (inr (Some t)).
Proof.
  induction rules as [|r rest IH]; simpl.
  - split; [discriminate | intros H; contradiction (stopsAt_nil _ _ _ _ H)].
  - fold (Spec.matches context r).
    destruct (Spec.matches context r) eqn:M.
    + unfold bind.
      destruct (RoutingEngine.resolveMatched pg db r) as [e|[t0|]] eqn:R.
      * rewrite stopsAt_here by (try exact M; rewrite R; discriminate).
        rewrite R. split; discriminate.
      * rewrite stopsAt_here by (try exact M; rewrite R; discriminate).
        rewrite R. split; intros H; injection H as <-; reflexivity.
      * rewrite stopsAt_later by (try discriminate; intros _; exact R).
        exact IH.
    + rewrite stopsAt_later
        by (try discriminate; intros M'; rewrite M in M'; discriminate M').
      exact IH.
Qed.

(** The loop ends with the error of a query exactly when the scan stops at
    a rule whose resolution raised it. *)
Lemma routeLoop_query_error (pg : Postgres.Executor) (db : Database)
    (context : RoutingEngine.RoutingContext) (condition : string)
    (rules : list RoutingRule.t) :
  RoutingEngine.routeLoop pg db context rules = inl (PostgresError condition)
  <-> Terms.stopsAt pg db context rules (inl (PostgresError condition)).
Proof.
  induction rules as [|r rest IH]; simpl.
  - split; [discriminate | intros H; contradiction (stopsAt_nil _ _ _ _ H)].
  - fold (Spec.matches context r).
    destruct (Spec.matches context r) eqn:M.
    + unfold bind.
      destruct (RoutingEngine.resolveMatched pg db r) as [e|[t0|]] eqn:R.
      * rewrite stopsAt_here by (try exact M; rewrite R; discriminate).
        rewrite R. split; intros H; injection H as ->; reflexivity.
      * rewrite stopsAt_here by (try exact M; rewrite R; discriminate).
        rewrite R. split; discriminate.
      * rewrite stopsAt_later by (try discriminate; intros _; exact R).
        exact IH.
    + rewrite stopsAt_later
        by (try discriminate; intros M'; rewrite M in M'; discriminate M').
      exact IH.
Qed.

Lemma textParameter_error (pg : Postgres.Executor) (v : Js.jsval)
    (e : Exception) :
  Postgres.textParameter pg v = inl e -> exists condition, e = PostgresError condition.
Proof.
  unfold Postgres.textParameter, ret, throw.
  destruct v; try discriminate;
    try (intros H; injection H as <-; eexists; reflexivity);
    destruct (Postgres.encode pg _); try discriminate;
    intros H; injection H as <-; eexists; reflexivity.
Qed.

(** What resolving a rule raises is an error of its query. *)
Lemma resolveRuleTarget_error (pg : Postgres.Executor) (db : Database)
    (rule : RoutingRule.t) (e : Exception) :
  RoutingEngine.resolveRuleTarget pg db rule = inl e ->
  exists condition, e = PostgresError condition.
Proof.
  unfold RoutingEngine.resolveRuleTarget, ret, throw.
  destruct (String.eqb (RoutingRule.routeToType rule) "user").
  { destruct (RoutingRule.routeToId rule) as [i|];
      [destruct (String.eqb i EmptyString)|]; discriminate. }
  destruct (String.eqb (RoutingRule.routeToType rule) "department").
  { unfold RoutingEngine.findAvailableUserByDepartment, bind.
    destruct (Postgres.textParameter pg _) as [e0|parameter] eqn:P.
    - intros H. injection H as <-. eapply textParameter_error, P.
    - destruct (Postgres.orderedBy _ _ _ _); discriminate. }
  destruct (String.eqb (RoutingRule.routeToType rule) "team"); [discriminate|].
  destruct (String.eqb (RoutingRule.routeToType rule) "voicemail"); discriminate.
Qed.

Lemma resolveMatched_error (pg : Postgres.Executor) (db : Database)
    (rule : RoutingRule.t) (e : Exception) :
  RoutingEngine.resolveMatched pg db rule = inl e ->
  exists condition, e = PostgresError condition.
Proof.
  unfold RoutingEngine.resolveMatched, bind.
  destruct (RoutingEngine.resolveRuleTarget pg db rule) as [e0|[t|]] eqn:R.
  - intros H. injection H as <-. eapply resolveRuleTarget_error, R.
  - discriminate.
  - unfold RoutingEngine.resolveFallback, ret.
    destruct (RoutingRule.fallbackRuleId rule) as [f|]; [|discriminate].
    destruct (String.eqb f EmptyString); [discriminate|].
    destruct (Drizzle.findFirst _ _) as [| |fb]; try discriminate.
    apply resolveRuleTarget_error.
Qed.

(** C4 (as amended).  [route] scans the active rules in the order in which
    [getActiveRules] lists them, priority descending, and returns the
    target of the first rule whose conditions all match and which yields a
    target, its own or, failing that, its fallback rule's, the matching
    rules in front of it having resolved to nothing; an empty condition set
    matches every context.  A query error raised while a matching rule is
    resolved ends [route] with that error, whatever the rules behind it
    would yield. *)
Theorem C4_route_first_available :
  forall (pg : Postgres.Executor) (db : Database)
         (context : RoutingEngine.RoutingContext)
         (t : RoutingEngine.RoutingTarget),
    let rules :=
      RoutingEngine.getActiveRules pg db (RoutingEngine.dealerId context)
        (RoutingEngine.storeId context) in
    StronglySorted Spec.priorityDesc rules
    /\ (RoutingEngine.route pg db context = inr t
        <-> exists before rule after,
              rules = before ++ rule :: after
              /\ (forall r, In r before -> Spec.matches context r = true ->
                            RoutingEngine.resolveMatched pg db r = inr None)
              /\ Spec.matches context rule = true
              /\ RoutingEngine.resolveMatched pg db rule = inr (Some t))
    /\ (forall condition : string,
          RoutingEngine.route pg db context = inl (PostgresError condition)
          <-> exists before rule after,
                rules = before ++ rule :: after
                /\ (forall r, In r before -> Spec.matches context r = true ->
                              RoutingEngine.resolveMatched pg db r = inr None)
                /\ Spec.matches context rule = true
                /\ RoutingEngine.resolveMatched pg db rule
                   = inl (PostgresError condition))
    /\ (forall rule : RoutingRule.t,
          RoutingEngine.resolveMatched pg db rule = inr (Some t)
          <-> RoutingEngine.resolveRuleTarget pg db rule = inr (Some t)
              \/ (RoutingEngine.resolveRuleTarget pg db rule = inr None
                  /\ RoutingEngine.resolveFallback pg db rule = inr (Some t)))
    /\ (forall rule : RoutingRule.t,
          Spec.matches context rule
          = forallb
              (fun kv => RoutingEngine.evaluateCondition (fst kv) (snd kv) context)
              (RoutingRule.conditions rule))
    /\ RoutingEngine.evaluateRuleConditions [] context = true.
Proof.
  intros pg db context t rules.
  split; [apply getActiveRules_sorted|].
  split; [|split].
  - unfold RoutingEngine.route. fold rules.
    destruct rules as [|r rest] eqn:E.
    + split; [discriminate|].
      intros (before & rule & after & E' & _). destruct before; discriminate E'.
    + apply routeLoop_ok.
  - intros condition. unfold RoutingEngine.route. fold rules.
    destruct rules as [|r rest] eqn:E.
    + split; [discriminate|].
      intros (before & rule & after & E' & _). destruct before; discriminate E'.
    + apply routeLoop_query_error.
  - split; [intros rule; apply resolveMatched_some|].
    split; [intros rule; apply evaluateRuleConditions_forallb | reflexivity].
Qed.

(** C4 on the priority and fallback scenario: rule A is the first rule, it
    matches, its own rep is unavailable and its fallback rule B yields the
    manager. *)
Lemma C4_fallback_scenario :
  RoutingEngine.route Postgres.inStorageOrder Examples.fallbackDb
    (Examples.context (Some "new"%string))
  = inr (RoutingEngine.targetOfUser (Examples.rep "manager" "new" true)).
Proof.
  apply (proj1 (proj2
           (C4_route_first_available Postgres.inStorageOrder Examples.fallbackDb
              (Examples.context (Some "new"%string))
              (RoutingEngine.targetOfUser (Examples.rep "manager" "new" true))))).
  exists [].
  exists (Examples.rule "A" 100 [("department", Js.JStr "new")]%string "user"
            (Some "rep-a"%string) (Some "B"%string)).
  exists [ Examples.rule "C" 10 [] "user" (Some "rep-c"%string) None;
           Examples.rule "B" 0 [("department", Js.JStr "never")]%string "user"
             (Some "manager"%string) None ].
  split; [reflexivity|].
  split; [intros r []|].
  split; reflexivity.
Defined.

(** C4 (counterexample to the claim as stated).  The rule of priority 100
    routes to a department and its conditions name none, so its query binds
    [undefined] and the driver refuses it; the catch-all rule of priority
    10 matches the context and yields the voicemail target.  The first rule
    with an available target is the catch-all rule, and [route] does not
    return its target: it ends with the driver's error, whatever order the
    database returns rows in. *)
Lemma C4_query_error_ends_the_scan :
  map RoutingRule.id
    (RoutingEngine.getActiveRules Postgres.inStorageOrder Examples.noDepartmentDb
       "dealer-1" None)
  = ["by-department"; "catch-all"]%string
  /\ Spec.matches (Examples.context None) Examples.byDepartment = true
  /\ Spec.matches (Examples.context None) Examples.catchAll = true
  /\ (forall pg : Postgres.Executor,
        RoutingEngine.resolveMatched pg Examples.noDepartmentDb
          Examples.byDepartment
        = inl (PostgresError "UNDEFINED_VALUE")
        /\ RoutingEngine.resolveMatched pg Examples.noDepartmentDb
             Examples.catchAll
           = inr (Some RoutingEngine.voicemailTarget))
  /\ RoutingEngine.route Postgres.inStorageOrder Examples.noDepartmentDb
       (Examples.context None)
     = inl (PostgresError "UNDEFINED_VALUE")
  /\ (forall pg : Postgres.Executor,
        Postgres.sound pg ->
        RoutingEngine.route pg Examples.noDepartmentDb (Examples.context None)
        = inl (PostgresError "UNDEFINED_VALUE")).
Proof.
  repeat (split; [reflexivity|]).
  split; [intros pg; split; reflexivity|].
  split; [reflexivity|].
  intros pg Hpg. unfold RoutingEngine.route.
  rewrite (getActiveRules_unique pg Postgres.inStorageOrder)
    by (try assumption; try exact inStorageOrder_sound;
        repeat constructor; simpl; intuition discriminate).
  reflexivity.
Qed.

(** Without a fallback the scan falls through to the catch-all rule. *)
Example route_falls_through :
  RoutingEngine.route Postgres.inStorageOrder
    (Examples.rulesDb
       [Examples.rep "rep-a" "new" false; Examples.rep "rep-b" "used" true]
       [ Examples.rule "A" 100 [("department", Js.JStr "new")]%string "user"
           (Some "rep-a"%string) None;
         Examples.rule "catch-all" 10 [] "user" (Some "rep-b"%string) None ])
    (Examples.context (Some "new"%string))
  = inr (RoutingEngine.targetOfUser (Examples.rep "rep-b" "used" true)).
Proof. reflexivity. Qed.

(** ** Routing: the two error signals *)

(** The loop ends in [NoAvailableRepError] exactly when every matching rule
    of the list yields nothing. *)
Lemma routeLoop_no_rep (pg : Postgres.Executor) (db : Database)
    (context : RoutingEngine.RoutingContext) (rules : list RoutingRule.t)
    (d : string) :
  RoutingEngine.routeLoop pg db context rules = inl (Thrown (NoAvailableRepError d))
  <-> d = RoutingEngine.dealerId context
      /\ forall r, In r rules -> Spec.matches context r = true ->
                   RoutingEngine.resolveMatched pg db r = inr None.
Proof.
  induction rules as [|r rest IH]; simpl.
  - split.
    + intros H. injection H as <-. split; [reflexivity | intros ? []].
    + intros [-> _]. reflexivity.
  - fold (Spec.matches context r).
    destruct (Spec.matches context r) eqn:M.
    + unfold bind.
      destruct (RoutingEngine.resolveMatched pg db r) as [e|[t0|]] eqn:R.
      * split.
        -- intros H. injection H as ->.
           apply resolveMatched_error in R. destruct R as [c R]. discriminate R.
        -- intros [_ H]. rewrite (H r (or_introl eq_refl) M) in R. discriminate R.
      * split; [discriminate|].
        intros [_ H]. rewrite (H r (or_introl eq_refl) M) in R. discriminate R.
      * rewrite IH. split.
        -- intros [Hd H]. split; [exact Hd|].
           intros r' [<-|Hin] Hm; [exact R | apply H; assumption].
        -- intros [Hd H]. split; [exact Hd|].
           intros r' Hin. apply H. right. exact Hin.
    + rewrite IH. split.
      * intros [Hd H]. split; [exact Hd|].
        intros r' [<-|Hin] Hm; [rewrite M in Hm; discriminate Hm
                               | apply H; assumption].
      * intros [Hd H]. split; [exact Hd|].
        intros r' Hin. apply H. right. exact Hin.
Qed.

(** What the loop raises is [NoAvailableRepError] or the error of a query. *)
Lemma routeLoop_errors (pg : Postgres.Executor) (db : Database)
    (context : RoutingEngine.RoutingContext) (rules : list RoutingRule.t)
    (e : Exception) :
  RoutingEngine.routeLoop pg db context rules = inl e ->
  e = Thrown (NoAvailableRepError (RoutingEngine.dealerId context))
  \/ exists condition, e = PostgresError condition.
Proof.
  induction rules as [|r rest IH]; simpl.
  - intros H. injection H as <-. left. reflexivity.
  - destruct (RoutingEngine.evaluateRuleConditions _ _); [|exact IH].
    unfold bind.
    destruct (RoutingEngine.resolveMatched pg db r) as [e0|[t0|]] eqn:R.
    + intros H. injection H as <-. right. eapply resolveMatched_error, R.
    + discriminate.
    + exact IH.
Qed.

(** C5 (as amended).  [route] signals [NoRoutingRuleError] exactly when the
    dealer has no active rule at all.  It signals [NoAvailableRepError]
    exactly when there are active rules and every one of them either does
    not match the context or matches and resolves, without error, to no
    target; this includes the case that no rule matches.  The only other
    error of [route] is the error of a query, raised while a matching rule
    was resolved, and it is passed on as it is. *)
Theorem C5_route_error_signals :
  forall (pg : Postgres.Executor) (db : Database)
         (context : RoutingEngine.RoutingContext),
    let rules :=
      RoutingEngine.getActiveRules pg db (RoutingEngine.dealerId context)
        (RoutingEngine.storeId context) in
    (forall d : string,
        RoutingEngine.route pg db context = inl (Thrown (NoRoutingRuleError d))
        <-> d = RoutingEngine.dealerId context /\ rules = [])
    /\ (forall d : string,
          RoutingEngine.route pg db context = inl (Thrown (NoAvailableRepError d))
          <-> d = RoutingEngine.dealerId context
              /\ rules <> []
              /\ forall r, In r rules -> Spec.matches context r = true ->
                           RoutingEngine.resolveMatched pg db r = inr None)
    /\ (rules <> [] ->
        (forall r, In r rules -> Spec.matches context r = false) ->
        RoutingEngine.route pg db context
        = inl (Thrown (NoAvailableRepError (RoutingEngine.dealerId context))))
    /\ (forall e : Exception,
          RoutingEngine.route pg db context = inl e ->
          e = Thrown (NoRoutingRuleError (RoutingEngine.dealerId context))
          \/ e = Thrown (NoAvailableRepError (RoutingEngine.dealerId context))
          \/ exists condition before rule after,
               e = PostgresError condition
               /\ rules = before ++ rule :: after
               /\ (forall r, In r before -> Spec.matches context r = true ->
                             RoutingEngine.resolveMatched pg db r = inr None)
               /\ Spec.matches context rule = true
               /\ RoutingEngine.resolveMatched pg db rule = inl e).
Proof.
  intros pg db context rules.
  assert (forall d,
             RoutingEngine.route pg db context
             = inl (Thrown (NoAvailableRepError d))
             <-> d = RoutingEngine.dealerId context
                 /\ rules <> []
                 /\ forall r, In r rules -> Spec.matches context r = true ->
                              RoutingEngine.resolveMatched pg db r = inr None)
    as Hrep.
  { intros d. unfold RoutingEngine.route. fold rules.
    destruct rules as [|r rest] eqn:E.
    - split; [discriminate | intros (_ & H & _); contradiction H; reflexivity].
    - rewrite routeLoop_no_rep. split.
      + intros [Hd H]. repeat split; [exact Hd | discriminate | exact H].
      + intros (Hd & _ & H). split; assumption. }
  split; [|split; [exact Hrep|split]].
  - intros d. unfold RoutingEngine.route. fold rules.
    destruct rules as [|r rest] eqn:E.
    + split; [intros H; injection H as <-; split; reflexivity
             | intros [-> _]; reflexivity].
    + split; [|intros [_ H]; discriminate H].
      intros H. apply routeLoop_errors in H.
      destruct H as [H|[c H]]; discriminate H.
  - intros Hne Hnone. apply Hrep. repeat split; [exact Hne|].
    intros r Hin Hm. rewrite (Hnone r Hin) in Hm. discriminate Hm.
  - intros e. unfold RoutingEngine.route. fold rules.
    destruct rules as [|r rest] eqn:E.
    + intros H. injection H as <-. left. reflexivity.
    + intros H. pose proof (routeLoop_errors _ _ _ _ _ H) as [->|[c ->]].
      * right. left. reflexivity.
      * right. right. apply routeLoop_query_error in H.
        destruct H as (before & rule & after & E' & Hb & Hm & Hr).
        exists c, before, rule, after. repeat split; assumption.
Qed.

(** C5 on a store whose only rule matches the context while its rep does
    not accept transfers. *)
Lemma C5_matched_but_unavailable :
  RoutingEngine.route Postgres.inStorageOrder
    (Examples.rulesDb [Examples.rep "rep-1" "new" false]
       [ Examples.rule "rule-new" 100 [("department", Js.JStr "new")]%string
           "user" (Some "rep-1"%string) None ])
    (Examples.context (Some "new"%string))
  = inl (Thrown (NoAvailableRepError "dealer-1")).
Proof.
  apply (proj2 (proj1 (proj2
           (C5_route_error_signals Postgres.inStorageOrder
              (Examples.rulesDb [Examples.rep "rep-1" "new" false]
                 [ Examples.rule "rule-new" 100
                     [("department", Js.JStr "new")]%string
                     "user" (Some "rep-1"%string) None ])
              (Examples.context (Some "new"%string)))) "dealer-1"%string)).
  split; [reflexivity|]. split; [discriminate|].
  intros r [<-|[]] _. reflexivity.
Defined.

(** C5 (counterexample to the claim as stated).  The only active rule asks
    for the department [new]; the context names [used], so no rule's
    conditions match, and [route] signals [NoAvailableRepError], not
    [NoRoutingRuleError]. *)
Lemma C5_no_match_signals_no_available_rep :
  forallb
    (fun r => negb (Spec.matches (Examples.context (Some "used"%string)) r))
    (RoutingEngine.getActiveRules Postgres.inStorageOrder Examples.newOnlyDb
       "dealer-1" None) = true
  /\ RoutingEngine.route Postgres.inStorageOrder Examples.newOnlyDb
       (Examples.context (Some "used"%string))
     = inl (Thrown (NoAvailableRepError "dealer-1"))
  /\ RoutingEngine.route Postgres.inStorageOrder Examples.newOnlyDb
       (Examples.context (Some "used"%string))
     <> inl (Thrown (NoRoutingRuleError "dealer-1"))
  /\ (forall pg : Postgres.Executor,
        Postgres.sound pg ->
        RoutingEngine.route pg Examples.newOnlyDb
          (Examples.context (Some "used"%string))
        = inl (Thrown (NoAvailableRepError "dealer-1"))).
Proof.
  repeat (split; [reflexivity|]).
  split; [discriminate|].
  intros pg Hpg. unfold RoutingEngine.route.
  rewrite (getActiveRules_unique pg Postgres.inStorageOrder)
    by (try assumption; try exact inStorageOrder_sound;
        repeat constructor; simpl; intuition discriminate).
  reflexivity.
Qed.

(** A rule that routes to a department without naming one ends [route] with
    the driver's error, which is neither of the two signals. *)
Example route_on_lone_department_rule :
  RoutingEngine.route Postgres.inStorageOrder Examples.loneDepartmentDb
    (Examples.context None)
  = inl (PostgresError "UNDEFINED_VALUE").
Proof. reflexivity. Qed.

(** ** Retry scheduling *)

(** [getLatestCallAttempt] picks an attempt of the lead with the largest
    number, so the next number exceeds every existing one. *)
Lemma nextAttemptNumber_spec (db : Database) (leadId : string) :
  let n := CallService.nextAttemptNumber
             (CallService.getLatestCallAttempt db leadId) in
  (forall a, In a (Spec.attemptsOf db leadId) -> CallAttempt.attemptNumber a < n)
  /\ ((Spec.attemptsOf db leadId = [] /\ n = 1)
      \/ exists a, In a (Spec.attemptsOf db leadId)
                   /\ n = CallAttempt.attemptNumber a + 1).
Proof.
  unfold CallService.getLatestCallAttempt, Drizzle.findMany.
  fold (Spec.attemptsOf db leadId).
  destruct (Js.sort_desc CallService.attemptNumber_geb (Spec.attemptsOf db leadId))
    as [|a rest] eqn:E; simpl.
  - apply sort_desc_nil in E. rewrite E.
    split; [intros ? [] | left; split; reflexivity].
  - apply (sort_desc_head CallAttempt.attemptNumber) in E.
    destruct E as [Hin Hmax]. split.
    + intros b Hb. specialize (Hmax b Hb). lia.
    + right. exists a. split; [exact Hin | reflexivity].
Qed.

Lemma attemptExists_false (db : Database) (leadId : string) (n : Z) :
  (forall a, In a (Spec.attemptsOf db leadId) -> CallAttempt.attemptNumber a < n) ->
  CallService.attemptExists db leadId n = false.
Proof.
  intros H. unfold CallService.attemptExists.
  destruct (existsb _ _) eqn:E; [|reflexivity].
  apply existsb_exists in E. destruct E as (a & Hin & Ha).
  apply andb_prop in Ha. destruct Ha as [Hl Hn].
  apply Z.eqb_eq in Hn.
  assert (In a (Spec.attemptsOf db leadId)) as Hof
      by (apply filter_In; split; assumption).
  specialize (H a Hof). lia.
Qed.

(** C6 (as amended).  The next attempt number is one greater than the
    highest existing number of the lead, or 1; beyond the ceiling
    [scheduleRetry] raises [MaxAttemptsError] (with ceiling 3, attempts 4
    and 5 are both fatal); otherwise one attempt is stored, scheduled at
    now plus the delay, where the delay is the entry of the delay list at
    [min(attemptNumber - 1, length - 1)] when that entry is not zero, and
    the default of 1440 minutes when the list has no such entry (with
    delays [30, 120, 1440], attempt 3 yields 1440). *)
Theorem C6_scheduleRetry_spec :
  forall (db : Database) (dealerId leadId : string) (now : Z),
    let profile := DealerService.getCallingProfile db dealerId in
    let ceiling := CallingProfile.maxAttemptsPerLead profile in
    let delays := CallingProfile.retryDelayMinutes profile in
    let n := CallService.nextAttemptNumber
               (CallService.getLatestCallAttempt db leadId) in
    ((forall a, In a (Spec.attemptsOf db leadId) -> CallAttempt.attemptNumber a < n)
     /\ ((Spec.attemptsOf db leadId = [] /\ n = 1)
         \/ exists a, In a (Spec.attemptsOf db leadId)
                      /\ n = CallAttempt.attemptNumber a + 1))
    /\ (ceiling < n
        <-> CallService.scheduleRetry db dealerId leadId now
            = inl (Thrown (MaxAttemptsError leadId ceiling)))
    /\ (n <= ceiling
        <-> exists attempt delay,
              CallService.scheduleRetry db dealerId leadId now
              = inr (attempt,
                     CallService.withCallAttempts db (callAttempts db ++ [attempt]))
              /\ CallAttempt.leadId attempt = leadId
              /\ CallAttempt.attemptNumber attempt = n
              /\ CallAttempt.status attempt = "scheduled"%string
              /\ CallAttempt.scheduledFor attempt = Some (now + delay * 60000)
              /\ (forall d, Spec.specifiedDelay delays n = Some d -> d <> 0 ->
                             delay = d)
              /\ (Spec.specifiedDelay delays n = None -> delay = 1440))
    /\ (forall (requested : Z) (scheduledFor : option Z),
          ceiling < requested ->
          CallService.createCallAttempt db dealerId leadId requested scheduledFor
          = inl (Thrown (MaxAttemptsError leadId ceiling)))
    /\ DealerService.getRetryDelay Examples.quietDb "dealer-1" 3 = 1440
    /\ CallService.createCallAttempt Examples.quietDb "dealer-1" "lead-1" 4 None
       = inl (Thrown (MaxAttemptsError "lead-1" 3))
    /\ CallService.createCallAttempt Examples.quietDb "dealer-1" "lead-1" 5 None
       = inl (Thrown (MaxAttemptsError "lead-1" 3)).
Proof.
  intros db dealerId leadId now profile ceiling delays n.
  pose proof (nextAttemptNumber_spec db leadId) as Hn. cbv zeta in Hn.
  fold n in Hn. destruct Hn as [Hlt Hnext].
  split; [split; assumption|].
  assert (CallService.scheduleRetry db dealerId leadId now
          = CallService.createCallAttempt db dealerId leadId n
              (Some (now + DealerService.getRetryDelay db dealerId n * 60000)))
    as Es by reflexivity.
  rewrite Es. unfold CallService.createCallAttempt.
  fold profile. fold ceiling.
  split; [|split; [|split]].
  - destruct (Z.ltb_spec ceiling n) as [H|H].
    + split; [reflexivity | intros _; exact H].
    + split; [lia|]. unfold CallService.insertCallAttempt.
      rewrite (attemptExists_false db leadId n Hlt). discriminate.
  - destruct (Z.ltb_spec ceiling n) as [H|H].
    + split; [lia | intros (a & d & E & _); discriminate E].
    + split; [intros _ | intros _; exact H].
      unfold CallService.insertCallAttempt.
      rewrite (attemptExists_false db leadId n Hlt).
      eexists. exists (DealerService.getRetryDelay db dealerId n).
      repeat split.
      * intros d Ed Hd. unfold DealerService.getRetryDelay.
        fold profile. fold delays. unfold Spec.specifiedDelay in Ed.
        rewrite Ed. destruct (Z.eqb_spec d 0); [contradiction | reflexivity].
      * intros Ed. unfold DealerService.getRetryDelay.
        fold profile. fold delays. unfold Spec.specifiedDelay in Ed.
        rewrite Ed. reflexivity.
  - intros requested scheduledFor H.
    destruct (Z.ltb_spec ceiling requested) as [_|H']; [reflexivity | lia].
  - repeat split.
Qed.

(** C6 (counterexample to the claim as stated).  The delay list is
    [0; 120], so the entry for attempt 1 is 0 minutes; [scheduleRetry]
    schedules attempt 1 at now plus 1440 minutes, not at now plus 0. *)
Lemma C6_zero_delay_is_replaced :
  Spec.specifiedDelay
    (CallingProfile.retryDelayMinutes
       (DealerService.getCallingProfile Examples.zeroDelayDb "dealer-1")) 1
  = Some 0
  /\ (exists attempt db',
        CallService.scheduleRetry Examples.zeroDelayDb "dealer-1" "lead-1" 1000
        = inr (attempt, db')
        /\ CallAttempt.attemptNumber attempt = 1
        /\ CallAttempt.scheduledFor attempt = Some (1000 + 1440 * 60000)
        /\ CallAttempt.scheduledFor attempt <> Some (1000 + 0 * 60000)).
Proof.
  split; [reflexivity|].
  eexists. eexists. split; [reflexivity|].
  repeat split. discriminate.
Qed.

(** ** Calling window *)

(** The default window, in minutes since midnight. *)
Example default_window_minutes :
  DealerService.timeMinutes "08:00:00" = Js.Fin 480
  /\ DealerService.timeMinutes "20:00:00" = Js.Fin 1200.
Proof. split; reflexivity. Qed.

(** Hours and minutes of the wall clock add up to its minutes since
    midnight. *)
Lemma minutes_since_midnight (zonedDate : Z) :
  DealerService.getHours zonedDate * 60 + DealerService.getMinutes zonedDate
  = (zonedDate / 60000) mod 1440.
Proof.
  unfold DealerService.getHours, DealerService.getMinutes.
  replace 3600000 with (60000 * 60) by reflexivity.
  rewrite <- Z.div_div by lia.
  replace 1440 with (60 * 24) by reflexivity.
  rewrite Z.rem_mul_r by lia. lia.
Qed.

Lemma getDay_range (zonedDate : Z) : 0 <= DealerService.getDay zonedDate <= 6.
Proof.
  unfold DealerService.getDay.
  pose proof (Z.mod_pos_bound (zonedDate / 86400000 + 4) 7). lia.
Qed.

Lemma includesDay_In (days : list Z) (day : Z) :
  DealerService.includesDay days day = true <-> In day days.
Proof.
  unfold DealerService.includesDay. rewrite existsb_exists. split.
  - intros (d & Hin & E). apply Z.eqb_eq in E. subst d. exact Hin.
  - intros Hin. exists day. split; [exact Hin | apply Z.eqb_refl].
Qed.

(** [Js.num_le] on two integers is the order of the integers. *)
Lemma num_le_Fin (a b : Z) : Js.num_le (Js.Fin a) (Js.Fin b) = true <-> a <= b.
Proof. simpl. apply Z.leb_le. Qed.

(** The check as one boolean expression over the wall clock. *)
Lemma isWithinCallingWindow_unfold (tz : DealerService.TzDatabase)
    (db : Database) (dealerId : string) (date : Z) (dealer : Dealer.t) :
  DealerService.getDealer db dealerId = inr dealer ->
  DealerService.isWithinCallingWindow tz db dealerId date
  = inr (DealerService.includesDay
           (CallingProfile.callingDaysOfWeek
              (DealerService.getCallingProfile db dealerId))
           (DealerService.getDay
              (DealerService.toZonedTime tz date (Dealer.timezone dealer)))
         && (Js.num_le
               (DealerService.timeMinutes
                  (CallingProfile.callingHoursStart
                     (DealerService.getCallingProfile db dealerId)))
               (Js.Fin ((DealerService.toZonedTime tz date (Dealer.timezone dealer)
                         / 60000) mod 1440))
             && Js.num_le
                  (Js.Fin ((DealerService.toZonedTime tz date (Dealer.timezone dealer)
                            / 60000) mod 1440))
                  (DealerService.timeMinutes
                     (CallingProfile.callingHoursEnd
                        (DealerService.getCallingProfile db dealerId))))).
Proof.
  intros Hd. unfold DealerService.isWithinCallingWindow. rewrite Hd. simpl.
  rewrite minutes_since_midnight.
  destruct (DealerService.includesDay _ _); reflexivity.
Qed.

(** The texts of a [time] column read as minutes since midnight. *)

Lemma append_snoc (cur front : string) (c : ascii) :
  ((cur ++ String c EmptyString) ++ front)%string = (cur ++ String c front)%string.
Proof.
  induction cur as [|x cur IH]; simpl; [reflexivity | f_equal; exact IH].
Qed.

Lemma split_on_front (sep : ascii) (front cur rest : string) :
  (forall c, In c (list_ascii_of_string front) -> c <> sep) ->
  Js.split_on sep cur (front ++ String sep rest)
  = (cur ++ front)%string :: Js.split_on sep EmptyString rest.
Proof.
  revert cur. induction front as [|c front IH]; intros cur Hfree; simpl.
  - rewrite Ascii.eqb_refl. f_equal.
    induction cur as [|x cur IHc]; simpl; [reflexivity | f_equal; exact IHc].
  - destruct (Ascii.eqb_spec c sep) as [E|_].
    + exfalso. apply (Hfree c); [left; reflexivity | exact E].
    + rewrite IH by (intros x Hx; apply Hfree; right; exact Hx).
      f_equal. apply append_snoc.
Qed.

Lemma split_on_nonempty (sep : ascii) (cur s : string) :
  Js.split_on sep cur s <> [].
Proof.
  revert cur. induction s as [|c s IH]; intros cur; simpl; [discriminate|].
  destruct (Ascii.eqb c sep); [discriminate | apply IH].
Qed.

(** Two decimal digits carry no colon and read as their number. *)
Lemma twoDigits_read (n : Z) :
  0 <= n < 100 ->
  Js.StringToNumber (DealerChecks.twoDigits n) = Js.Fin n
  /\ forall c, In c (list_ascii_of_string (DealerChecks.twoDigits n)) ->
               c <> ":"%char.
Proof.
  intros Hn.
  assert (forallb
            (fun k =>
               match Js.StringToNumber (DealerChecks.twoDigits (Z.of_nat k)) with
               | Js.Fin v => v =? Z.of_nat k
               | _ => false
               end
               && forallb (fun c => negb (Ascii.eqb c ":"))
                    (list_ascii_of_string (DealerChecks.twoDigits (Z.of_nat k))))
            (seq 0 100) = true) as Hall by (vm_compute; reflexivity).
  rewrite forallb_forall in Hall.
  specialize (Hall (Z.to_nat n)).
  rewrite Z2Nat.id in Hall by lia.
  assert (In (Z.to_nat n) (seq 0 100)) as Hin by (apply in_seq; lia).
  apply Hall in Hin. apply andb_true_iff in Hin. destruct Hin as [Hv Hc].
  split.
  - destruct (Js.StringToNumber (DealerChecks.twoDigits n)); try discriminate Hv.
    apply Z.eqb_eq in Hv. subst. reflexivity.
  - intros c Hcin E. rewrite forallb_forall in Hc. specialize (Hc c Hcin).
    subst c. discriminate Hc.
Qed.

Lemma timeMinutes_timeText (hours minutes : Z) (seconds : string) :
  0 <= hours < 100 -> 0 <= minutes < 100 ->
  DealerService.timeMinutes (Terms.timeText hours minutes seconds)
  = Js.Fin (hours * 60 + minutes).
Proof.
  intros Hh Hm.
  destruct (twoDigits_read hours Hh) as [Nh Fh].
  destruct (twoDigits_read minutes Hm) as [Nm Fm].
  unfold DealerService.timeMinutes, Terms.timeText, Js.split.
  change (DealerChecks.twoDigits hours ++ ":" ++ DealerChecks.twoDigits minutes
          ++ ":" ++ seconds)%string
    with (DealerChecks.twoDigits hours
          ++ String ":" (DealerChecks.twoDigits minutes ++ String ":" seconds))%string.
  rewrite split_on_front by exact Fh.
  rewrite split_on_front by exact Fm.
  cbn [map DealerService.element nth_error String.append].
  rewrite Nh, Nm. reflexivity.
Qed.

(** C7 (as amended).  For a dealer of the store whose profile holds the
    start and end of the window as ['HH:MM:SS'] texts, the calling-window
    check answers [true] exactly when the weekday of the instant in the
    dealer's time zone is one of the profile's allowed days and its local
    minutes since midnight lie between the start and end minutes, both ends
    included and the seconds of the two texts left aside.  At a local time
    of day one minute past the end it answers [false], and so it does one
    minute after an instant at the end time when the end lies before 23:59
    and the zone's offset stays put; the minute after 23:59 belongs to the
    next day and is judged on that day. *)
Theorem C7_isWithinCallingWindow_spec :
  forall (tz : DealerService.TzDatabase) (db : Database) (dealerId : string)
         (date : Z) (dealer : Dealer.t) (sh sm eh em : Z)
         (startSeconds endSeconds : string),
    DealerService.getDealer db dealerId = inr dealer ->
    let profile := DealerService.getCallingProfile db dealerId in
    CallingProfile.callingHoursStart profile = Terms.timeText sh sm startSeconds ->
    CallingProfile.callingHoursEnd profile = Terms.timeText eh em endSeconds ->
    0 <= sh <= 24 -> 0 <= sm < 60 -> 0 <= eh <= 24 -> 0 <= em < 60 ->
    let zonedDate := DealerService.toZonedTime tz date (Dealer.timezone dealer) in
    let dayOfWeek := DealerService.getDay zonedDate in
    let minutes := (zonedDate / 60000) mod 1440 in
    let startMinutes := sh * 60 + sm in
    let endMinutes := eh * 60 + em in
    (DealerService.isWithinCallingWindow tz db dealerId date = inr true
     <-> In dayOfWeek (CallingProfile.callingDaysOfWeek profile)
         /\ startMinutes <= minutes <= endMinutes)
    /\ (DealerService.isWithinCallingWindow tz db dealerId date = inr false
        <-> ~ (In dayOfWeek (CallingProfile.callingDaysOfWeek profile)
               /\ startMinutes <= minutes <= endMinutes))
    /\ (minutes = endMinutes + 1 ->
        DealerService.isWithinCallingWindow tz db dealerId date = inr false)
    /\ (minutes = endMinutes -> endMinutes < 1439 ->
        tz (Dealer.timezone dealer) (date + 60000)
        = tz (Dealer.timezone dealer) date ->
        DealerService.isWithinCallingWindow tz db dealerId (date + 60000)
        = inr false)
    /\ 0 <= minutes < 1440.
Proof.
  intros tz db dealerId date dealer sh sm eh em startSeconds endSeconds Hd
         profile Hstart Hend Hsh Hsm Heh Hem zonedDate dayOfWeek minutes
         startMinutes endMinutes.
  pose proof (isWithinCallingWindow_unfold tz db dealerId date dealer Hd) as E.
  pose proof (isWithinCallingWindow_unfold tz db dealerId (date + 60000) dealer Hd)
    as E'.
  fold profile in E, E'. rewrite Hstart, Hend in E, E'.
  rewrite !timeMinutes_timeText in E, E' by lia.
  fold zonedDate in E. fold dayOfWeek in E. fold minutes in E.
  fold startMinutes in E, E'. fold endMinutes in E, E'.
  assert (DealerService.includesDay (CallingProfile.callingDaysOfWeek profile)
            dayOfWeek
          && (Js.num_le (Js.Fin startMinutes) (Js.Fin minutes)
              && Js.num_le (Js.Fin minutes) (Js.Fin endMinutes)) = true
          <-> In dayOfWeek (CallingProfile.callingDaysOfWeek profile)
              /\ startMinutes <= minutes <= endMinutes) as B.
  { rewrite !andb_true_iff, includesDay_In, !num_le_Fin. reflexivity. }
  assert (0 <= minutes < 1440) as Hrange
      by (apply Z.mod_pos_bound; lia).
  assert (minutes = endMinutes -> endMinutes < 1439 ->
          tz (Dealer.timezone dealer) (date + 60000)
          = tz (Dealer.timezone dealer) date ->
          (DealerService.toZonedTime tz (date + 60000)
             (Dealer.timezone dealer) / 60000) mod 1440 = endMinutes + 1)
    as Hshift.
  { intros Hm He Htz. unfold DealerService.toZonedTime. rewrite Htz.
    replace (date + 60000 + tz (Dealer.timezone dealer) date)
      with (zonedDate + 1 * 60000)
      by (unfold zonedDate, DealerService.toZonedTime; lia).
    rewrite Z.div_add by lia.
    rewrite Z.add_mod by lia. fold minutes.
    rewrite Hm. rewrite (Z.mod_small 1) by lia.
    apply Z.mod_small. lia. }
  assert (minutes = endMinutes -> endMinutes < 1439 ->
          tz (Dealer.timezone dealer) (date + 60000)
          = tz (Dealer.timezone dealer) date ->
          DealerService.isWithinCallingWindow tz db dealerId (date + 60000)
          = inr false) as Hnext.
  { intros Hm He Htz. rewrite E', (Hshift Hm He Htz). f_equal.
    apply andb_false_intro2, andb_false_intro2.
    apply not_true_is_false. rewrite num_le_Fin. lia. }
  rewrite E. clear E E' Hd Hshift.
  split; [|split; [|split; [|split; [exact Hnext | exact Hrange]]]].
  - rewrite <- B. split; [intros H; injection H as H; exact H | intros ->; reflexivity].
  - rewrite <- B.
    destruct (DealerService.includesDay _ _ && _); split.
    + discriminate.
    + intros H. exfalso. apply H. reflexivity.
    + intros _ H. discriminate H.
    + reflexivity.
  - intros Hm. f_equal.
    apply andb_false_intro2, andb_false_intro2.
    apply not_true_is_false. rewrite num_le_Fin. lia.
Qed.

(** C7 at Monday 1970-01-05, 20:01 in New York (UTC-5), the minute after
    the default window closes. *)
Lemma C7_one_minute_past_end :
  DealerService.isWithinCallingWindow Examples.fixedOffsets Examples.quietDb
    "dealer-1" 435660000 = inr false.
Proof.
  refine (proj1 (proj2 (proj2
            (C7_isWithinCallingWindow_spec Examples.fixedOffsets Examples.quietDb
               "dealer-1" 435660000 Examples.dealer1 8 0 20 0 "00" "00"
               eq_refl eq_refl eq_refl _ _ _ _))) eq_refl); lia.
Defined.

(** C7 (counterexample to the claim as stated).  The profile allows calls
    on every day from 00:00 to 23:59.  Thursday 1970-01-01, 23:59 in New
    York is the end time of the window; the instant exactly one minute
    later is Friday, 00:00, and the check answers [true] for it. *)
Lemma C7_minute_after_2359_is_inside :
  DealerService.timeMinutes
    (CallingProfile.callingHoursEnd
       (DealerService.getCallingProfile Examples.alwaysOpenDb "dealer-1"))
  = Js.Fin 1439
  /\ (DealerService.toZonedTime Examples.fixedOffsets 104340000
        "America/New_York" / 60000) mod 1440 = 1439
  /\ DealerService.isWithinCallingWindow Examples.fixedOffsets
       Examples.alwaysOpenDb "dealer-1" 104340000 = inr true
  /\ DealerService.isWithinCallingWindow Examples.fixedOffsets
       Examples.alwaysOpenDb "dealer-1" (104340000 + 60000) = inr true
  /\ DealerService.isWithinCallingWindow Examples.fixedOffsets
       Examples.alwaysOpenDb "dealer-1" (104340000 + 60000) <> inr false.
Proof. repeat split. discriminate. Qed.

(** The window is closed on a Sunday afternoon and open on Monday at the
    last minute of the window. *)
Example window_scenarios :
  DealerService.isWithinCallingWindow Examples.fixedOffsets Examples.quietDb
    "dealer-1" (3 * 86400000 + 19 * 3600000) = inr false
  /\ DealerService.isWithinCallingWindow Examples.fixedOffsets Examples.quietDb
       "dealer-1" 435600000 = inr true
  /\ DealerService.isWithinCallingWindow Examples.fixedOffsets Examples.quietDb
       "nobody" 0 = inl (Thrown (DealerNotFoundError "nobody")).
Proof. repeat split. Qed.

(** ** Call sessions *)

Lemma optionalInteger_storable (n : option Js.jsnum) :
  Spec.storable n = true <-> exists z, Postgres.optionalInteger n = inr z.
Proof.
  unfold Spec.storable, Postgres.optionalInteger, Postgres.integerParameter,
    bind, ret, throw.
  destruct n as [[| |z| |m d]|];
    try (split; [discriminate | intros [z0 H]; discriminate H]).
  - destruct (Postgres.int4 z).
    + split; [eexists; reflexivity | reflexivity].
    + split; [discriminate|]. intros [z0 H].
      destruct (Z.abs z <? 10 ^ 21); discriminate H.
  - split; [eexists; reflexivity | reflexivity].
Qed.

Lemma optionalInteger_refused (n : option Js.jsnum) :
  Spec.storable n = false <-> exists e, Postgres.optionalInteger n = inl e.
Proof.
  destruct (Spec.storable n) eqn:E.
  - apply optionalInteger_storable in E. destruct E as [z E]. rewrite E.
    split; [discriminate | intros [e H]; discriminate H].
  - split; [|reflexivity]. intros _.
    destruct (Postgres.optionalInteger n) as [e|z] eqn:O; [exists e; reflexivity|].
    assert (Spec.storable n = true) as T
        by (apply optionalInteger_storable; exists z; exact O).
    rewrite T in E. discriminate E.
Qed.

(** An accepted update rewrites the rows with the id and nothing else. *)
Lemma updateCallSession_inr (db : Database) (callSessionId : string)
    (input : CallService.UpdateCallSessionInput) (now : Z)
    (updated : Js.jsref CallSession.t) (db' : Database) :
  CallService.updateCallSession db callSessionId input now = inr (updated, db') ->
  db' = CallService.withCallSessions db
          (Spec.rewritten callSessionId input now (callSessions db))
  /\ updated
     = Drizzle.findFirst (fun s => String.eqb (CallSession.id s) callSessionId)
         (Spec.rewritten callSessionId input now (callSessions db))
  /\ Spec.storable (CallService.durationSeconds input) = true
  /\ Spec.storable (CallService.recordingDuration input) = true
  /\ (CallService.sessionStored db callSessionId = true ->
      CallService.violation db callSessionId input = None).
Proof.
  unfold CallService.updateCallSession, bind.
  destruct (Postgres.optionalInteger (CallService.durationSeconds input))
    as [e|z1] eqn:O1; [discriminate|].
  destruct (Postgres.optionalInteger (CallService.recordingDuration input))
    as [e|z2] eqn:O2; [discriminate|].
  destruct (CallService.sessionStored db callSessionId);
    [destruct (CallService.violation db callSessionId input) eqn:V;
     [discriminate|]|];
    intros H; injection H as <- <-;
    (split; [reflexivity|]); (split; [reflexivity|]);
    (split; [apply optionalInteger_storable; eexists; exact O1|]);
    (split; [apply optionalInteger_storable; eexists; exact O2|]);
    intros T; (reflexivity || discriminate T).
Qed.

Lemma updateCallSession_accepted (db : Database) (callSessionId : string)
    (input : CallService.UpdateCallSessionInput) (now : Z) :
  Spec.storable (CallService.durationSeconds input) = true ->
  Spec.storable (CallService.recordingDuration input) = true ->
  (CallService.sessionStored db callSessionId = true ->
   CallService.violation db callSessionId input = None) ->
  CallService.updateCallSession db callSessionId input now
  = inr (Drizzle.findFirst
           (fun s => String.eqb (CallSession.id s) callSessionId)
           (Spec.rewritten callSessionId input now (callSessions db)),
         CallService.withCallSessions db
           (Spec.rewritten callSessionId input now (callSessions db))).
Proof.
  intros H1 H2 Hv. unfold CallService.updateCallSession, bind.
  apply optionalInteger_storable in H1, H2.
  destruct H1 as [z1 ->], H2 as [z2 ->].
  destruct (CallService.sessionStored db callSessionId);
    [rewrite Hv by reflexivity|]; reflexivity.
Qed.


Lemma sessionStored_In (db : Database) (session : CallSession.t) :
  In session (callSessions db) ->
  CallService.sessionStored db (CallSession.id session) = true.
Proof.
  intros Hin. unfold CallService.sessionStored. apply existsb_exists.
  exists session. split; [exact Hin | apply String.eqb_refl].
Qed.

Lemma rewritten_status (callSessionId : string)
    (input : CallService.UpdateCallSessionInput) (now : Z)
    (rows : list CallSession.t) (newStatus : string) (s' : CallSession.t) :
  CallService.status input = Some newStatus ->
  In s' (Spec.rewritten callSessionId input now rows) ->
  CallSession.id s' = callSessionId ->
  CallSession.status s' = newStatus.
Proof.
  intros Hst Hs' Hid'. unfold Spec.rewritten in Hs'.
  apply in_map_iff in Hs'. destruct Hs' as (s & Es & _).
  destruct (String.eqb_spec (CallSession.id s) callSessionId) as [E|NE].
  - subst s'. simpl. rewrite Hst. reflexivity.
  - subst s'. contradiction.
Qed.

(** A status callback for a stored session whose status maps to a text:
    the handler hands the mapped status to [updateCallSession]. *)
Lemma statusHandler_found (pg : Postgres.Executor) (db : Database)
    (body : SignalwireWebhook.StatusBody) (now : Z) (sid v : string)
    (session : CallSession.t) :
  SignalwireWebhook.CallSid body = Some sid ->
  CallService.getCallSessionBySignalwireSid db sid = Js.RefObject session ->
  SignalwireWebhook.mapSignalWireStatus
    (SignalwireWebhook.propertyKey (SignalwireWebhook.CallStatus body))
  = Js.JStr v ->
  SignalwireWebhook.statusHandler pg db body now
  = bind (CallService.updateCallSession db (CallSession.id session)
            (SignalwireWebhook.statusUpdates v
               (SignalwireWebhook.propertyKey (SignalwireWebhook.CallStatus body))
               (SignalwireWebhook.parsedDuration body) now) now)
      (fun updated => ret (snd updated)).
Proof.
  intros Hsid Hfound Hmap. unfold SignalwireWebhook.statusHandler.
  rewrite Hsid. simpl. rewrite Hfound, Hmap. reflexivity.
Qed.

(** The status of the session after a status callback that was answered
    with success. *)
Lemma postStatus_success (pg : Postgres.Executor) (db db' : Database)
    (body : SignalwireWebhook.StatusBody) (now : Z) (sid v : string)
    (session : CallSession.t) :
  SignalwireWebhook.CallSid body = Some sid ->
  CallService.getCallSessionBySignalwireSid db sid = Js.RefObject session ->
  SignalwireWebhook.mapSignalWireStatus
    (SignalwireWebhook.propertyKey (SignalwireWebhook.CallStatus body))
  = Js.JStr v ->
  SignalwireWebhook.postStatus pg db body now = (SignalwireWebhook.Success, db') ->
  callSessions db'
  = Spec.rewritten (CallSession.id session)
      (SignalwireWebhook.statusUpdates v
         (SignalwireWebhook.propertyKey (SignalwireWebhook.CallStatus body))
         (SignalwireWebhook.parsedDuration body) now) now (callSessions db)
  /\ forall s', In s' (callSessions db') ->
                CallSession.id s' = CallSession.id session ->
                CallSession.status s' = v.
Proof.
  intros Hsid Hfound Hmap. unfold SignalwireWebhook.postStatus.
  rewrite (statusHandler_found pg db body now sid v session Hsid Hfound Hmap).
  unfold bind, SignalwireWebhook.answer.
  destruct (CallService.updateCallSession _ _ _ _) as [e|[updated db1]] eqn:U;
    [discriminate|].
  intros H. injection H as <-.
  apply updateCallSession_inr in U. destruct U as (-> & _). simpl.
  split; [reflexivity|].
  intros s' Hs'.
  refine (rewritten_status _
            (SignalwireWebhook.statusUpdates v
               (SignalwireWebhook.propertyKey (SignalwireWebhook.CallStatus body))
               (SignalwireWebhook.parsedDuration body) now)
            _ _ v s' eq_refl Hs').
Qed.

(** A status callback that carries no duration, or a duration the column
    takes, is accepted. *)
Lemma postStatus_accepted (pg : Postgres.Executor) (db : Database)
    (body : SignalwireWebhook.StatusBody) (now : Z) (sid v : string)
    (session : CallSession.t) :
  SignalwireWebhook.CallSid body = Some sid ->
  CallService.getCallSessionBySignalwireSid db sid = Js.RefObject session ->
  SignalwireWebhook.mapSignalWireStatus
    (SignalwireWebhook.propertyKey (SignalwireWebhook.CallStatus body))
  = Js.JStr v ->
  Spec.storable (SignalwireWebhook.parsedDuration body) = true ->
  exists db',
    SignalwireWebhook.postStatus pg db body now = (SignalwireWebhook.Success, db').
Proof.
  intros Hsid Hfound Hmap Hd. unfold SignalwireWebhook.postStatus.
  rewrite (statusHandler_found pg db body now sid v session Hsid Hfound Hmap).
  rewrite updateCallSession_accepted.
  - eexists. reflexivity.
  - simpl. destruct (_ && _); [exact Hd | reflexivity].
  - reflexivity.
  - intros _. reflexivity.
Qed.

(** A webhook that answers 500 has written nothing. *)
Lemma answer_error (db db' : Database) (body : Result Database) :
  SignalwireWebhook.answer db body = (SignalwireWebhook.InternalServerError, db') ->
  db' = db.
Proof.
  unfold SignalwireWebhook.answer. destruct body; [|discriminate].
  intros H. injection H as <-. reflexivity.
Qed.




(** A session that another session's SID is written to stays as it was. *)
Example updateCallSession_taken_sid :
  CallService.updateCallSession Examples.busyDb "cs-1"
    (CallService.mkUpdate (Some "CA2"%string) None None None None None None None
       None None None) 5
  = inl (PostgresError "unique_violation").
Proof. reflexivity. Qed.

(** ** Provider status translation *)

Lemma lookup_missing (table : list (string * string)) (key : string) :
  ~ In key (map fst table) -> SignalwireWebhook.lookup table key = None.
Proof.
  induction table as [|[k v] rest IH]; simpl; intros Hnot; [reflexivity|].
  destruct (String.eqb_spec k key) as [->|_].
  - exfalso. apply Hnot. left. reflexivity.
  - apply IH. intros Hin. apply Hnot. right. exact Hin.
Qed.

(** C10 (the code departs from the specification).  The status handler is
    specified to write the image of the provider status under the fixed
    table and ['initiated'] for every status outside it.  The nine rows of
    the table hold, and a status outside the table that is no key of
    [Object.prototype] maps to ['initiated']; for a stored session the
    handler then writes the mapped text whenever it answers with success,
    and it answers with success when the duration is one the column takes.
    For the key of an inherited member, such as [constructor], the map
    yields the member instead of ['initiated']: on the store with one
    ringing session the handler writes whatever text the driver sends for
    that function, or answers 500 and writes nothing. *)
Theorem C10_status_callback_writes_mapped_status :
  SignalwireWebhook.mapSignalWireStatus "queued" = Js.JStr "initiated"
  /\ SignalwireWebhook.mapSignalWireStatus "initiated" = Js.JStr "initiated"
  /\ SignalwireWebhook.mapSignalWireStatus "ringing" = Js.JStr "ringing"
  /\ SignalwireWebhook.mapSignalWireStatus "in-progress" = Js.JStr "answered"
  /\ SignalwireWebhook.mapSignalWireStatus "completed" = Js.JStr "completed"
  /\ SignalwireWebhook.mapSignalWireStatus "failed" = Js.JStr "failed"
  /\ SignalwireWebhook.mapSignalWireStatus "busy" = Js.JStr "busy"
  /\ SignalwireWebhook.mapSignalWireStatus "no-answer" = Js.JStr "no_answer"
  /\ SignalwireWebhook.mapSignalWireStatus "canceled" = Js.JStr "failed"
  /\ (forall providerStatus : string,
        ~ In providerStatus (map fst SignalwireWebhook.statusMap) ->
        Js.inherited providerStatus = false ->
        SignalwireWebhook.mapSignalWireStatus providerStatus
        = Js.JStr "initiated")
  /\ (forall (pg : Postgres.Executor) (db : Database)
             (body : SignalwireWebhook.StatusBody) (now : Z) (sid v : string)
             (session : CallSession.t),
        SignalwireWebhook.CallSid body = Some sid ->
        CallService.getCallSessionBySignalwireSid db sid = Js.RefObject session ->
        SignalwireWebhook.mapSignalWireStatus
          (SignalwireWebhook.propertyKey (SignalwireWebhook.CallStatus body))
        = Js.JStr v ->
        (forall db',
            SignalwireWebhook.postStatus pg db body now
            = (SignalwireWebhook.Success, db') ->
            forall s', In s' (callSessions db') ->
                       CallSession.id s' = CallSession.id session ->
                       CallSession.status s' = v)
        /\ (Spec.storable (SignalwireWebhook.parsedDuration body) = true ->
            exists db',
              SignalwireWebhook.postStatus pg db body now
              = (SignalwireWebhook.Success, db'))
        /\ (forall db',
              SignalwireWebhook.postStatus pg db body now
              = (SignalwireWebhook.InternalServerError, db') ->
              db' = db))
  /\ (forall providerStatus : string,
        Js.inherited providerStatus = true ->
        SignalwireWebhook.mapSignalWireStatus providerStatus
        = Js.JBuiltin providerStatus)
  /\ ~ In "constructor"%string (map fst SignalwireWebhook.statusMap)
  /\ SignalwireWebhook.mapSignalWireStatus "constructor" <> Js.JStr "initiated"
  /\ (forall (pg : Postgres.Executor) (now : Z),
        SignalwireWebhook.postStatus pg Examples.ringingDb
          (SignalwireWebhook.mkStatusBody (Some "CA1") (Some "constructor") None)%string
          now
        = match Postgres.encode pg (Js.JBuiltin "constructor") with
          | inr text =>
              (SignalwireWebhook.Success,
               mkDatabase [Examples.dealer1] [] [] [] []
                 [ CallService.applyUpdate
                     (SignalwireWebhook.statusUpdates text "constructor" None now)
                     now (Examples.sessionWithStatus "cs-1" "CA1" "ringing") ]
                 [])
          | inl _ => (SignalwireWebhook.InternalServerError, Examples.ringingDb)
          end).
Proof.
  repeat (split; [reflexivity|]).
  split; [|split; [|split; [|split; [|split]]]].
  - intros s Hs Hi. unfold SignalwireWebhook.mapSignalWireStatus,
      SignalwireWebhook.member.
    rewrite (lookup_missing _ _ Hs), Hi. reflexivity.
  - intros pg db body now sid v session Hsid Hfound Hmap.
    split; [|split].
    + intros db' P.
      apply (postStatus_success pg db db' body now sid v session Hsid Hfound Hmap P).
    + apply (postStatus_accepted pg db body now sid v session Hsid Hfound Hmap).
    + intros db'. apply answer_error.
  - intros s Hi. unfold SignalwireWebhook.mapSignalWireStatus,
      SignalwireWebhook.member.
    assert (SignalwireWebhook.lookup SignalwireWebhook.statusMap s = None) as ->.
    { apply lookup_missing. intros Hin. simpl in Hin.
      repeat (destruct Hin as [<-|Hin]; [discriminate Hi|]). destruct Hin. }
    rewrite Hi. reflexivity.
  - simpl. intuition discriminate.
  - discriminate.
  - intros pg now. unfold SignalwireWebhook.postStatus,
      SignalwireWebhook.statusHandler. simpl.
    unfold SignalwireWebhook.statusText, Postgres.textParameter, bind. simpl.
    change (SignalwireWebhook.mapSignalWireStatus "constructor")
      with (Js.JBuiltin "constructor").
    destruct (Postgres.encode pg (Js.JBuiltin "constructor")); reflexivity.
Qed.

(** The status [paused], which the provider does not define and no object
    inherits, is written as ['initiated']. *)
Example paused_maps_to_initiated :
  SignalwireWebhook.mapSignalWireStatus "paused" = Js.JStr "initiated"
  /\ map CallSession.status
       (callSessions
          (snd (SignalwireWebhook.postStatus Postgres.inStorageOrder
                  Examples.ringingDb
                  (SignalwireWebhook.mkStatusBody (Some "CA1") (Some "paused")
                     None)%string 5)))
     = ["initiated"%string].
Proof. split; reflexivity. Qed.

(** A duration that is no number, or a body without call SID, makes the
    handler answer 500. *)
Example postStatus_refused :
  SignalwireWebhook.postStatus Postgres.inStorageOrder Examples.ringingDb
    (SignalwireWebhook.mkStatusBody (Some "CA1") (Some "completed")
       (Some "soon"))%string 5
  = (SignalwireWebhook.InternalServerError, Examples.ringingDb)
  /\ SignalwireWebhook.postStatus Postgres.inStorageOrder Examples.ringingDb
       (SignalwireWebhook.mkStatusBody None (Some "completed") None)%string 5
     = (SignalwireWebhook.InternalServerError, Examples.ringingDb).
Proof. split; reflexivity. Qed.

(** ** Call attempts *)

Lemma attemptExists_In (db : Database) (leadId : string) (n : Z) :
  CallService.attemptExists db leadId n = true
  <-> In (leadId, n) (map Spec.attemptKey (callAttempts db)).
Proof.
  unfold CallService.attemptExists. rewrite existsb_exists, in_map_iff.
  split.
  - intros (a & Hin & Ha). apply andb_prop in Ha. destruct Ha as [Hl Hn].
    apply String.eqb_eq in Hl. apply Z.eqb_eq in Hn.
    exists a. split; [|exact Hin]. unfold Spec.attemptKey. congruence.
  - intros (a & Ea & Hin). unfold Spec.attemptKey in Ea. injection Ea as El En.
    exists a. split; [exact Hin|].
    rewrite El, En, String.eqb_refl, Z.eqb_refl. reflexivity.
Qed.

Lemma NoDup_snoc {A : Type} (l : list A) (x : A) :
  NoDup l -> ~ In x l -> NoDup (l ++ [x]).
Proof.
  intros Hl Hx.
  apply (Permutation_NoDup (l := x :: l)).
  - change (x :: l) with ([x] ++ l). apply Permutation_app_comm.
  - constructor; assumption.
Qed.

(** After an attempt with a number above all existing ones of the lead is
    appended, the next number is one more than that attempt's. *)
Lemma next_after_append (db : Database) (leadId : string) (a : CallAttempt.t) :
  CallAttempt.leadId a = leadId ->
  (forall b, In b (Spec.attemptsOf db leadId) ->
             CallAttempt.attemptNumber b < CallAttempt.attemptNumber a) ->
  CallService.nextAttemptNumber
    (CallService.getLatestCallAttempt
       (CallService.withCallAttempts db (callAttempts db ++ [a])) leadId)
  = CallAttempt.attemptNumber a + 1.
Proof.
  intros Hl Hlt.
  pose proof (nextAttemptNumber_spec
                (CallService.withCallAttempts db (callAttempts db ++ [a])) leadId)
    as H.
  cbv zeta in H.
  remember (CallService.nextAttemptNumber
              (CallService.getLatestCallAttempt
                 (CallService.withCallAttempts db (callAttempts db ++ [a])) leadId))
    as m' eqn:Em'.
  clear Em'. destruct H as [Hlt' Hnext'].
  assert (Spec.attemptsOf
            (CallService.withCallAttempts db (callAttempts db ++ [a])) leadId
          = Spec.attemptsOf db leadId ++ [a]) as Eof.
  { unfold Spec.attemptsOf. simpl. rewrite filter_app. simpl.
    rewrite Hl, String.eqb_refl. reflexivity. }
  rewrite Eof in Hlt', Hnext'.
  assert (CallAttempt.attemptNumber a < m') as Hm
      by (apply Hlt', in_or_app; right; left; reflexivity).
  destruct Hnext' as [[Hnil _]|(b & Hb & Eb)].
  - destruct (Spec.attemptsOf db leadId); discriminate Hnil.
  - apply in_app_or in Hb. destruct Hb as [Hb|[<-|[]]].
    + specialize (Hlt b Hb). lia.
    + exact Eb.
Qed.

(** C9 (as amended).  [createCallAttempt] inserts without looking for an
    existing attempt.  When the pair (lead, attempt number) is already
    stored the call fails, with [MaxAttemptsError] beyond the ceiling and
    with the unique-index violation otherwise, and hands back no new
    store; when it succeeds exactly one row is appended, so the table never
    holds two attempts with the same pair.  Running the job step again
    after a successful run asks for the next attempt number. *)
Theorem C9_createCallAttempt_unique :
  forall (db : Database) (dealerId leadId : string) (n : Z)
         (scheduledFor : option Z),
    NoDup (map Spec.attemptKey (callAttempts db)) ->
    let ceiling :=
      CallingProfile.maxAttemptsPerLead
        (DealerService.getCallingProfile db dealerId) in
    (CallService.attemptExists db leadId n = true ->
     CallService.createCallAttempt db dealerId leadId n scheduledFor
     = inl (if ceiling <? n then Thrown (MaxAttemptsError leadId ceiling)
            else PostgresError "unique_violation"))
    /\ (forall attempt db',
          CallService.createCallAttempt db dealerId leadId n scheduledFor
          = inr (attempt, db') ->
          callAttempts db' = callAttempts db ++ [attempt]
          /\ Spec.attemptKey attempt = (leadId, n)
          /\ CallService.attemptExists db leadId n = false
          /\ NoDup (map Spec.attemptKey (callAttempts db')))
    /\ (forall attempt db',
          TriggerCall.createCallAttemptStep db dealerId leadId
          = inr (attempt, db') ->
          CallService.nextAttemptNumber
            (CallService.getLatestCallAttempt db' leadId)
          = CallAttempt.attemptNumber attempt + 1).
Proof.
  intros db dealerId leadId n scheduledFor Hnd ceiling.
  split; [|split].
  - intros Hex. unfold CallService.createCallAttempt. fold ceiling.
    destruct (ceiling <? n); [reflexivity|].
    unfold CallService.insertCallAttempt. rewrite Hex. reflexivity.
  - intros attempt db'. unfold CallService.createCallAttempt. fold ceiling.
    destruct (ceiling <? n); [discriminate|].
    unfold CallService.insertCallAttempt.
    destruct (CallService.attemptExists db leadId n) eqn:Hex; [discriminate|].
    intros H. injection H as <- <-. simpl.
    repeat split.
    rewrite map_app. apply NoDup_snoc; [exact Hnd|].
    simpl. unfold Spec.attemptKey at 1. simpl.
    rewrite <- attemptExists_In, Hex. discriminate.
  - intros attempt db'. unfold TriggerCall.createCallAttemptStep.
    pose proof (nextAttemptNumber_spec db leadId) as [Hlt _].
    set (m := CallService.nextAttemptNumber
                (CallService.getLatestCallAttempt db leadId)) in *.
    unfold CallService.createCallAttempt.
    destruct (_ <? m); [discriminate|].
    unfold CallService.insertCallAttempt.
    rewrite (attemptExists_false db leadId m Hlt).
    intros H. injection H as <- <-. simpl.
    apply next_after_append; [reflexivity | exact Hlt].
Qed.

(** C9 on the store that already holds attempt 1 of the lead. *)
Lemma C9_duplicate_is_rejected :
  CallService.createCallAttempt Examples.oneAttemptDb "dealer-1" "lead-1" 1 None
  = inl (PostgresError "unique_violation").
Proof.
  apply (C9_createCallAttempt_unique Examples.oneAttemptDb "dealer-1" "lead-1"
           1 None).
  - simpl. constructor; [intros [] | constructor].
  - reflexivity.
Defined.

(** C9 (counterexample to the claim as stated).  The job step run once
    creates attempt 1; run again on the resulting store it does not detect
    the existing attempt but creates attempt 2, so the store after two runs
    differs from the store after one. *)
Lemma C9_rerun_creates_second_attempt :
  TriggerCall.createCallAttemptStep Examples.quietDb "dealer-1" "lead-1"
  = inr (Examples.attempt 0 1, Examples.oneAttemptDb)
  /\ (exists db'',
        TriggerCall.createCallAttemptStep Examples.oneAttemptDb "dealer-1" "lead-1"
        = inr (Examples.attempt 1 2, db'')
        /\ callAttempts db'' = [Examples.attempt 0 1; Examples.attempt 1 2]
        /\ callAttempts db'' <> callAttempts Examples.oneAttemptDb).
Proof.
  split; [reflexivity|].
  eexists. split; [reflexivity|].
  split; [reflexivity | discriminate].
Qed.

(** ** Further properties of the routing engine and the profile *)

Lemma findFirst_object {A : Type} (where_ : A -> bool) (rows : list A) (a : A) :
  Drizzle.findFirst where_ rows = Js.RefObject a ->
  In a rows /\ where_ a = true.
Proof.
  unfold Drizzle.findFirst.
  destruct (filter where_ rows) as [|x rest] eqn:E; [discriminate|].
  intros H. injection H as ->.
  apply filter_In. rewrite E. left. reflexivity.
Qed.

Lemma findFirst_undefined {A : Type} (where_ : A -> bool) (rows : list A) :
  (forall a, In a rows -> where_ a = false) ->
  Drizzle.findFirst where_ rows = Js.RefUndefined.
Proof.
  intros H. unfold Drizzle.findFirst.
  destruct (filter where_ rows) as [|x rest] eqn:E; [reflexivity|].
  assert (In x (filter where_ rows)) as Hin by (rewrite E; left; reflexivity).
  apply filter_In in Hin. destruct Hin as [Hin Hx].
  rewrite (H x Hin) in Hx. discriminate Hx.
Qed.

Lemma fallbackChainFrom_length (db : Database) (remaining : nat)
    (currentRuleId : option string) :
  (List.length (RoutingEngine.fallbackChainFrom db remaining currentRuleId)
   <= remaining)%nat.
Proof.
  revert currentRuleId.
  induction remaining as [|n IH]; intros currentRuleId; simpl; [lia|].
  destruct currentRuleId as [ruleId|]; [|simpl; lia].
  destruct (String.eqb ruleId EmptyString); [simpl; lia|].
  destruct (Drizzle.findFirst _ _) as [| |rule]; simpl; try lia.
  specialize (IH (RoutingRule.fallbackRuleId rule)). lia.
Qed.

Lemma fallbackChainFrom_rules (db : Database) (remaining : nat)
    (currentRuleId : option string) (r : RoutingRule.t) :
  In r (RoutingEngine.fallbackChainFrom db remaining currentRuleId) ->
  In r (routingRules db).
Proof.
  revert currentRuleId.
  induction remaining as [|n IH]; intros currentRuleId; simpl; [intros []|].
  destruct currentRuleId as [ruleId|]; [|intros []].
  destruct (String.eqb ruleId EmptyString); [intros []|].
  destruct (Drizzle.findFirst _ _) as [| |rule] eqn:E;
    [intros [] | intros [] |].
  intros [<-|Hin].
  - apply findFirst_object in E. apply E.
  - apply (IH _ Hin).
Qed.

(** X1.  [getFallbackChain] follows fallback pointers for at most ten
    rules, all of them rows of the rule table, and therefore ends on a
    cycle as well: two rules that name each other give a chain of exactly
    ten. *)
Theorem X1_getFallbackChain_bounded :
  forall (db : Database) (ruleId : string),
    (List.length (RoutingEngine.getFallbackChain db ruleId) <= 10)%nat
    /\ (forall r, In r (RoutingEngine.getFallbackChain db ruleId) ->
                  In r (routingRules db))
    /\ map RoutingRule.id (RoutingEngine.getFallbackChain Examples.cycleDb "A")
       = ["A"; "B"; "A"; "B"; "A"; "B"; "A"; "B"; "A"; "B"]%string.
Proof.
  intros db ruleId. split; [apply fallbackChainFrom_length|].
  split; [intros r; apply fallbackChainFrom_rules | reflexivity].
Qed.

(** X2.  A dealer without a calling-profile row gets the default profile:
    08:00 to 20:00, Monday to Saturday, 3 concurrent calls, 50 calls per
    hour, 3 attempts per lead and the delays 30, 120 and 1440 minutes; a
    missing row is never an error. *)
Theorem X2_getCallingProfile_default :
  forall (db : Database) (dealerId : string),
    (forall p, In p (dealerCallingProfiles db) ->
               CallingProfile.dealerId p <> dealerId) ->
    DealerService.getCallingProfile db dealerId
    = DealerService.defaultProfile dealerId
    /\ DealerService.timeMinutes
         (CallingProfile.callingHoursStart
            (DealerService.getCallingProfile db dealerId)) = Js.Fin 480
    /\ DealerService.timeMinutes
         (CallingProfile.callingHoursEnd
            (DealerService.getCallingProfile db dealerId)) = Js.Fin 1200
    /\ CallingProfile.callingDaysOfWeek
         (DealerService.getCallingProfile db dealerId) = [1; 2; 3; 4; 5; 6]
    /\ CallingProfile.maxConcurrentCalls
         (DealerService.getCallingProfile db dealerId) = 3
    /\ CallingProfile.maxCallsPerHour
         (DealerService.getCallingProfile db dealerId) = 50
    /\ CallingProfile.maxAttemptsPerLead
         (DealerService.getCallingProfile db dealerId) = 3
    /\ CallingProfile.retryDelayMinutes
         (DealerService.getCallingProfile db dealerId) = [30; 120; 1440].
Proof.
  intros db dealerId Hnone.
  assert (DealerService.getCallingProfile db dealerId
          = DealerService.defaultProfile dealerId) as E.
  { unfold DealerService.getCallingProfile.
    rewrite findFirst_undefined; [reflexivity|].
    intros p Hp. apply String.eqb_neq, Hnone, Hp. }
  rewrite E. repeat split.
Qed.

(** X2 on the store without profile rows. *)
Lemma X2_default_profile_witness :
  DealerService.getCallingProfile Examples.quietDb "dealer-1"
  = DealerService.defaultProfile "dealer-1".
Proof.
  apply (X2_getCallingProfile_default Examples.quietDb "dealer-1").
  intros p [].
Defined.

Lemma findAvailableUser_sound (db : Database) (userId : string)
    (t : RoutingEngine.RoutingTarget) :
  RoutingEngine.findAvailableUser db userId = Some t ->
  exists u, In u (dealerUsers db)
            /\ RoutingEngine.acceptingTransfers u = true
            /\ t = RoutingEngine.targetOfUser u.
Proof.
  unfold RoutingEngine.findAvailableUser.
  destruct (Drizzle.findFirst _ _) as [| |u] eqn:E; try discriminate.
  intros H. injection H as <-.
  apply findFirst_object in E. destruct E as [Hin Hp].
  apply andb_prop in Hp. exists u. repeat split; [exact Hin | apply Hp].
Qed.

Lemma findAvailableUserByDepartment_sound (pg : Postgres.Executor)
    (db : Database) (dealerId : string) (department : Js.jsval)
    (t : RoutingEngine.RoutingTarget) :
  Postgres.sound pg ->
  RoutingEngine.findAvailableUserByDepartment pg db dealerId department
  = inr (Some t) ->
  exists u, In u (dealerUsers db)
            /\ RoutingEngine.acceptingTransfers u = true
            /\ t = RoutingEngine.targetOfUser u.
Proof.
  intros Hpg. unfold RoutingEngine.findAvailableUserByDepartment, bind, ret.
  destruct (Postgres.textParameter pg department) as [e|parameter];
    [discriminate|].
  destruct (Postgres.orderedBy _ _ _ _) as [|u rest] eqn:E; [discriminate|].
  intros H. injection H as <-.
  assert (In u (u :: rest)) as Hin by (left; reflexivity).
  rewrite <- E in Hin.
  apply (Permutation_in _ (orderedBy_perm _ _ _ _ Hpg)) in Hin.
  apply filter_In in Hin. destruct Hin as [Hin Hp].
  apply andb_prop in Hp. exists u. repeat split; [exact Hin | apply Hp].
Qed.

Lemma resolveRuleTarget_sound (pg : Postgres.Executor) (db : Database)
    (rule : RoutingRule.t) (t : RoutingEngine.RoutingTarget) :
  Postgres.sound pg ->
  RoutingEngine.resolveRuleTarget pg db rule = inr (Some t) ->
  t = RoutingEngine.voicemailTarget
  \/ exists u, In u (dealerUsers db)
               /\ RoutingEngine.acceptingTransfers u = true
               /\ t = RoutingEngine.targetOfUser u.
Proof.
  intros Hpg. unfold RoutingEngine.resolveRuleTarget, ret, throw.
  destruct (String.eqb (RoutingRule.routeToType rule) "user").
  { destruct (RoutingRule.routeToId rule) as [i|]; [|discriminate].
    destruct (String.eqb i EmptyString); [discriminate|].
    intros H. injection H as H. right. eapply findAvailableUser_sound, H. }
  destruct (String.eqb (RoutingRule.routeToType rule) "department").
  { intros H. right.
    eapply findAvailableUserByDepartment_sound; [exact Hpg | exact H]. }
  destruct (String.eqb (RoutingRule.routeToType rule) "team"); [discriminate|].
  destruct (String.eqb (RoutingRule.routeToType rule) "voicemail");
    [|discriminate].
  intros H. injection H as <-. left. reflexivity.
Qed.

(** X3.  A target returned by [route] is the voicemail target or a user of
    the store who is active and accepts transfers, whatever order the
    database returns rows in and whatever the driver sends for a
    department that is not a text. *)
Theorem X3_route_target_available :
  forall (pg : Postgres.Executor) (db : Database)
         (context : RoutingEngine.RoutingContext)
         (t : RoutingEngine.RoutingTarget),
    Postgres.sound pg ->
    RoutingEngine.route pg db context = inr t ->
    t = RoutingEngine.voicemailTarget
    \/ exists u, In u (dealerUsers db)
                 /\ DealerUser.status u = "active"%string
                 /\ DealerUser.acceptsTransfers u = true
                 /\ t = RoutingEngine.targetOfUser u.
Proof.
  intros pg db context t Hpg H.
  assert (exists rule, RoutingEngine.resolveRuleTarget pg db rule = inr (Some t))
    as [rule Hr].
  { unfold RoutingEngine.route in H.
    destruct (RoutingEngine.getActiveRules _ _ _ _) as [|r rest]; [discriminate|].
    apply routeLoop_ok in H. destruct H as (_ & rule & _ & _ & _ & _ & Hm).
    apply resolveMatched_some in Hm. destruct Hm as [Hm|[_ Hf]].
    - exists rule. exact Hm.
    - unfold RoutingEngine.resolveFallback, ret in Hf.
      destruct (RoutingRule.fallbackRuleId rule) as [f|]; [|discriminate].
      destruct (String.eqb f EmptyString); [discriminate|].
      destruct (Drizzle.findFirst _ _) as [| |fb]; try discriminate.
      exists fb. exact Hf. }
  apply resolveRuleTarget_sound in Hr; [|exact Hpg].
  destruct Hr as [->|(u & Hin & Hacc & ->)]; [left; reflexivity|].
  right. exists u. unfold RoutingEngine.acceptingTransfers in Hacc.
  apply andb_prop in Hacc. destruct Hacc as [Hs Ha].
  apply String.eqb_eq in Hs. apply Bool.eqb_prop in Ha.
  repeat split; assumption.
Qed.

(** X3 on the priority and fallback scenario. *)
Lemma X3_route_target_witness :
  RoutingEngine.targetOfUser (Examples.rep "manager" "new" true)
  = RoutingEngine.voicemailTarget
  \/ exists u, In u (dealerUsers Examples.fallbackDb)
               /\ DealerUser.status u = "active"%string
               /\ DealerUser.acceptsTransfers u = true
               /\ RoutingEngine.targetOfUser (Examples.rep "manager" "new" true)
                  = RoutingEngine.targetOfUser u.
Proof.
  apply (X3_route_target_available Postgres.inStorageOrder Examples.fallbackDb
           (Examples.context (Some "new"%string)));
    [exact inStorageOrder_sound | reflexivity].
Defined.

(** A department condition that is a number: the query runs with the text
    the driver sends for it, and finds the rep of that department or
    none. *)
Example department_given_as_number :
  forall encode : Js.jsval -> string + string,
    RoutingEngine.resolveRuleTarget
      (Postgres.mkExecutor (fun A where_ rows => filter where_ rows) encode)
      (Examples.rulesDb [Examples.rep "rep-5" "5" true] [])
      (Examples.rule "by-number" 1 [("department", Js.JNum (Js.Fin 5))]%string
         "department" None None)
    = match encode (Js.JNum (Js.Fin 5)) with
      | inr text =>
          if String.eqb "5" text
          then inr (Some (RoutingEngine.targetOfUser
                            (Examples.rep "rep-5" "5" true)))
          else inr None
      | inl condition => inl (PostgresError condition)
      end.
Proof.
  intros encode.
  destruct (encode (Js.JNum (Js.Fin 5))) as [c|text] eqn:E.
  - unfold RoutingEngine.resolveRuleTarget. simpl.
    unfold RoutingEngine.findAvailableUserByDepartment, Postgres.textParameter.
    simpl. rewrite E. reflexivity.
  - set (same := String.eqb "5" text).
    unfold RoutingEngine.resolveRuleTarget. simpl.
    unfold RoutingEngine.findAvailableUserByDepartment, Postgres.textParameter.
    simpl. rewrite E. unfold bind, ret, Postgres.orderedBy.
    change (Postgres.scan _ _ _ _)
      with (if (same && true)%bool
            then [Examples.rep "rep-5" "5" true] else []).
    clearbody same. destruct same; reflexivity.
Qed.

(** ** Phone numbers *)

Lemma strip_all_digits (s : string) :
  Js.all_digits (Js.strip_non_digits s) = true.
Proof.
  induction s as [|c s IH]; simpl; [reflexivity|].
  destruct (Js.is_digit c) eqn:E; simpl; [rewrite E; exact IH | exact IH].
Qed.

Lemma strip_digits_id (s : string) :
  Js.all_digits s = true -> Js.strip_non_digits s = s.
Proof.
  induction s as [|c s IH]; simpl; [reflexivity|].
  intros H. apply andb_prop in H. destruct H as [Hc Hs].
  rewrite Hc, (IH Hs). reflexivity.
Qed.

Lemma strip_app (a b : string) :
  Js.strip_non_digits (a ++ b)
  = (Js.strip_non_digits a ++ Js.strip_non_digits b)%string.
Proof.
  induction a as [|c a IH]; simpl; [reflexivity|].
  destruct (Js.is_digit c); simpl; rewrite IH; reflexivity.
Qed.

Lemma digits_never_start_with_plus (d : string) :
  Js.all_digits d = true -> Js.startsWith d "+" = false.
Proof.
  destruct d as [|c d]; [reflexivity|].
  simpl. intros H. apply andb_prop in H. destruct H as [Hc _].
  destruct c as [[|] [|] [|] [|] [|] [|] [|] [|]];
    try reflexivity; discriminate Hc.
Qed.

(** [toE164] in terms of the digits of its argument. *)
Lemma toE164_digits (phone : string) :
  toE164 phone
  = (if (String.length (Js.strip_non_digits phone) =? 10)%nat
     then "+1" ++ Js.strip_non_digits phone
     else "+" ++ Js.strip_non_digits phone)%string.
Proof.
  unfold toE164.
  rewrite (digits_never_start_with_plus _ (strip_all_digits phone)).
  destruct (String.length (Js.strip_non_digits phone) =? 10)%nat; [reflexivity|].
  destruct (_ && _); reflexivity.
Qed.

Lemma strip_toE164 (phone : string) :
  Js.strip_non_digits (toE164 phone)
  = (if (String.length (Js.strip_non_digits phone) =? 10)%nat
     then "1" ++ Js.strip_non_digits phone
     else Js.strip_non_digits phone)%string.
Proof.
  rewrite toE164_digits.
  destruct (String.length (Js.strip_non_digits phone) =? 10)%nat;
    simpl; rewrite (strip_digits_id _ (strip_all_digits phone)); reflexivity.
Qed.

(** X4.  [toE164] yields a normal form: the result is a plus sign followed
    by digits only, it depends on nothing but the digits of the input, and
    normalising a normalised number changes nothing; a ten-digit number,
    the same number behind the country code 1 and its [+1] form all
    normalise to the [+1] form. *)
Theorem X4_toE164_normal_form :
  forall phone : string,
    toE164 (toE164 phone) = toE164 phone
    /\ (exists digits, toE164 phone = ("+" ++ digits)%string
                       /\ Js.all_digits digits = true)
    /\ (forall other, Js.strip_non_digits other = Js.strip_non_digits phone ->
                      toE164 other = toE164 phone)
    /\ (forall national,
          Js.all_digits national = true -> String.length national = 10%nat ->
          toE164 national = ("+1" ++ national)%string
          /\ toE164 ("1" ++ national) = ("+1" ++ national)%string
          /\ toE164 ("+1" ++ national) = ("+1" ++ national)%string).
Proof.
  intros phone.
  split; [|split; [|split]].
  - rewrite (toE164_digits (toE164 phone)), strip_toE164, toE164_digits.
    destruct (String.length (Js.strip_non_digits phone) =? 10)%nat eqn:E.
    + apply Nat.eqb_eq in E. simpl. rewrite E. reflexivity.
    + rewrite E. reflexivity.
  - rewrite toE164_digits.
    destruct (String.length (Js.strip_non_digits phone) =? 10)%nat.
    + exists ("1" ++ Js.strip_non_digits phone)%string.
      split; [reflexivity|]. simpl. apply strip_all_digits.
    + exists (Js.strip_non_digits phone).
      split; [reflexivity | apply strip_all_digits].
  - intros other H. rewrite !toE164_digits, H. reflexivity.
  - intros national Hd Hl.
    rewrite !toE164_digits. simpl.
    rewrite (strip_digits_id _ Hd), Hl. simpl. repeat split.
Qed.

Lemma strip_display (a b c : string) :
  Js.all_digits a = true -> Js.all_digits b = true -> Js.all_digits c = true ->
  Js.strip_non_digits ("(" ++ a ++ ") " ++ b ++ "-" ++ c)
  = (a ++ b ++ c)%string.
Proof.
  intros Ha Hb Hc.
  change ("(" ++ a ++ ") " ++ b ++ "-" ++ c)%string
    with ("(" ++ (a ++ (") " ++ (b ++ ("-" ++ c)))))%string.
  rewrite !strip_app.
  rewrite (strip_digits_id a Ha), (strip_digits_id b Hb), (strip_digits_id c Hc).
  reflexivity.
Qed.

(** X5.  Formatting a phone number for display never changes the number:
    [toE164] of the displayed form is [toE164] of the original, for every
    input; a valid number is displayed in 14 characters. *)
Theorem X5_toDisplay_keeps_number :
  forall phone : string,
    toE164 (PhoneUtils.toDisplay phone) = toE164 phone
    /\ (PhoneUtils.isValid phone = true ->
        String.length (PhoneUtils.toDisplay phone) = 14%nat)
    /\ (PhoneUtils.isValid phone = false ->
        PhoneUtils.toDisplay phone = phone).
Proof.
  intros phone. unfold PhoneUtils.toDisplay, PhoneUtils.isValid.
  pose proof (strip_all_digits phone) as Hd.
  rewrite (toE164_digits phone).
  remember (Js.strip_non_digits phone) as d eqn:Ed.
  destruct ((String.length d =? 11)%nat && Js.startsWith d "1") eqn:E11.
  - apply andb_prop in E11. destruct E11 as [Hlen Hone].
    destruct d as [|c0 [|c1 [|c2 [|c3 [|c4 [|c5 [|c6 [|c7 [|c8 [|c9 [|c10
                   [|c11 d]]]]]]]]]]]]; try discriminate Hlen.
    cbn [Js.all_digits] in Hd.
    repeat (apply andb_prop in Hd; destruct Hd as [? Hd]).
    assert (c0 = "1"%char) as ->.
    { destruct c0 as [[|] [|] [|] [|] [|] [|] [|] [|]];
        try reflexivity; discriminate Hone. }
    split; [|split; [intros _; reflexivity | discriminate]].
    rewrite toE164_digits.
    change (PhoneUtils.slice _ 1 4) with (String c1 (String c2 (String c3 ""))).
    change (PhoneUtils.slice _ 4 7) with (String c4 (String c5 (String c6 ""))).
    change (PhoneUtils.sliceFrom _ 7)
      with (String c7 (String c8 (String c9 (String c10 "")))).
    rewrite strip_display;
      [reflexivity | | |];
      cbn [Js.all_digits];
      repeat match goal with H : Js.is_digit _ = true |- _ => rewrite H; clear H end;
      reflexivity.
  - rewrite orb_comm. cbn [orb].
    destruct (String.length d =? 10)%nat eqn:E10.
    + destruct d as [|c0 [|c1 [|c2 [|c3 [|c4 [|c5 [|c6 [|c7 [|c8 [|c9
                     [|c10 d]]]]]]]]]]]; try discriminate E10.
      cbn [Js.all_digits] in Hd.
      repeat (apply andb_prop in Hd; destruct Hd as [? Hd]).
      split; [|split; [intros _; reflexivity | discriminate]].
      rewrite toE164_digits.
      change (PhoneUtils.slice _ 0 3) with (String c0 (String c1 (String c2 ""))).
      change (PhoneUtils.slice _ 3 6) with (String c3 (String c4 (String c5 ""))).
      change (PhoneUtils.sliceFrom _ 6)
        with (String c6 (String c7 (String c8 (String c9 "")))).
      rewrite strip_display;
        [reflexivity | | |];
        cbn [Js.all_digits];
        repeat match goal with H : Js.is_digit _ = true |- _ => rewrite H; clear H end;
        reflexivity.
    + split; [|split; [discriminate | intros _; reflexivity]].
      rewrite toE164_digits, <- Ed, E10. reflexivity.
Qed.

(** ** The throwing dealer checks *)

(** X6.  [getActiveDealer] returns a dealer exactly when a dealer with the
    id is stored and its status is ['active']; it throws
    [DealerNotFoundError] exactly when none is stored and
    [DealerInactiveError] exactly when the stored one has another status. *)
Theorem X6_getActiveDealer_cases :
  forall (db : Database) (dealerId : string),
    (forall dealer,
        DealerChecks.getActiveDealer db dealerId = inr dealer
        <-> DealerService.getDealer db dealerId = inr dealer
            /\ Dealer.status dealer = "active"%string)
    /\ (DealerChecks.getActiveDealer db dealerId
        = inl (Thrown (DealerNotFoundError dealerId))
        <-> forall dealer, In dealer (dealers db) -> Dealer.id dealer <> dealerId)
    /\ (DealerChecks.getActiveDealer db dealerId
        = inl (Thrown (DealerInactiveError dealerId))
        <-> exists dealer, DealerService.getDealer db dealerId = inr dealer
                           /\ Dealer.status dealer <> "active"%string).
Proof.
  intros db dealerId.
  unfold DealerChecks.getActiveDealer, DealerService.getDealer, bind, ret, throw.
  destruct (Drizzle.findFirst _ (dealers db)) as [| |d] eqn:E.
  - assert (forall dealer, In dealer (dealers db) -> Dealer.id dealer <> dealerId)
      as Hnone.
    { intros dealer Hin Hid. unfold Drizzle.findFirst in E.
      destruct (filter _ (dealers db)) as [|x rest] eqn:F; [|discriminate E].
      assert (In dealer (filter (fun d => String.eqb (Dealer.id d) dealerId)
                           (dealers db))) as Hf
          by (apply filter_In; split; [exact Hin | apply String.eqb_eq, Hid]).
      rewrite F in Hf. exact Hf. }
    split; [|split].
    + intros dealer. split; [discriminate | intros [H _]; discriminate H].
    + split; [intros _; exact Hnone | reflexivity].
    + split; [discriminate | intros (dealer & H & _); discriminate H].
  - unfold Drizzle.findFirst in E. destruct (filter _ _); discriminate E.
  - pose proof (findFirst_object _ _ _ E) as [Hin Hid].
    apply String.eqb_eq in Hid.
    destruct (String.eqb_spec (Dealer.status d) "active") as [Hs|Hs]; simpl.
    + split; [|split].
      * intros dealer. split.
        -- intros H. injection H as <-. split; [reflexivity | exact Hs].
        -- intros [H _]. exact H.
      * split; [discriminate | intros H; exfalso; apply (H d Hin Hid)].
      * split; [discriminate|].
        intros (dealer & H & Hne). injection H as <-. contradiction.
    + split; [|split].
      * intros dealer. split; [discriminate|].
        intros [H Hact]. injection H as <-. contradiction.
      * split; [discriminate | intros H; exfalso; apply (H d Hin Hid)].
      * split; [intros _; exists d; split; [reflexivity | exact Hs] | reflexivity].
Qed.

Lemma includesDay_not_In (days : list Z) (day : Z) :
  DealerService.includesDay days day = false <-> ~ In day days.
Proof.
  rewrite <- includesDay_In. destruct (DealerService.includesDay days day).
  - split; [discriminate | intros H; exfalso; apply H; reflexivity].
  - split; [intros _ H; discriminate H | reflexivity].
Qed.

(** X7.  [checkCallingWindow] passes exactly when [isWithinCallingWindow]
    answers [true] and hands on its errors; when the answer is [false] it
    throws [CallingWindowError] with a reason that names the weekday when
    the local weekday is not allowed, and otherwise the local time [HH:mm]
    next to the allowed hours. *)
Theorem X7_checkCallingWindow_reason :
  forall (tz : DealerService.TzDatabase) (db : Database) (dealerId : string)
         (date : Z),
    (DealerChecks.checkCallingWindow tz db dealerId date = inr tt
     <-> DealerService.isWithinCallingWindow tz db dealerId date = inr true)
    /\ (forall e,
          DealerService.isWithinCallingWindow tz db dealerId date = inl e ->
          DealerChecks.checkCallingWindow tz db dealerId date = inl e)
    /\ (forall dealer,
          DealerService.getDealer db dealerId = inr dealer ->
          DealerService.isWithinCallingWindow tz db dealerId date = inr false ->
          let profile := DealerService.getCallingProfile db dealerId in
          let zonedDate :=
            DealerService.toZonedTime tz date (Dealer.timezone dealer) in
          let dayOfWeek := DealerService.getDay zonedDate in
          exists reason,
            DealerChecks.checkCallingWindow tz db dealerId date
            = inl (Thrown (CallingWindowError dealerId reason))
            /\ (~ In dayOfWeek (CallingProfile.callingDaysOfWeek profile) ->
                reason
                = ("Day of week not allowed (" ++ TriggerCall.decimal dayOfWeek
                   ++ ")")%string)
            /\ (In dayOfWeek (CallingProfile.callingDaysOfWeek profile) ->
                reason
                = ("Outside calling hours (current: "
                   ++ DealerChecks.formatHHmm zonedDate
                   ++ ", allowed: " ++ CallingProfile.callingHoursStart profile
                   ++ "-" ++ CallingProfile.callingHoursEnd profile ++ ")")%string)).
Proof.
  intros tz db dealerId date.
  unfold DealerChecks.checkCallingWindow.
  destruct (DealerService.isWithinCallingWindow tz db dealerId date)
    as [e|[|]] eqn:W; simpl.
  - split; [split; discriminate|].
    split; [intros e' H; injection H as <-; reflexivity
           | intros dealer _ H; discriminate H].
  - split; [split; reflexivity|].
    split; [intros e H; discriminate H | intros dealer _ H; discriminate H].
  - split.
    { split; [|discriminate].
      destruct (DealerService.getDealer db dealerId); discriminate. }
    split; [intros e H; discriminate H|].
    intros dealer Hd _. cbv zeta.
    rewrite Hd. simpl.
    exists (DealerChecks.windowReason
              (DealerService.getCallingProfile db dealerId)
              (DealerService.toZonedTime tz date (Dealer.timezone dealer))).
    split; [reflexivity|].
    unfold DealerChecks.windowReason.
    split.
    + intros Hnot. apply includesDay_not_In in Hnot. rewrite Hnot. reflexivity.
    + intros Hin. apply includesDay_In in Hin. rewrite Hin. reflexivity.
Qed.

(** The two reasons on the default profile in New York: a Sunday
    afternoon, and a Monday one minute after the window closed. *)
Example checkCallingWindow_reasons :
  DealerChecks.checkCallingWindow Examples.fixedOffsets Examples.quietDb
    "dealer-1" (3 * 86400000 + 19 * 3600000)
  = inl (Thrown (CallingWindowError "dealer-1" "Day of week not allowed (0)"))
  /\ DealerChecks.checkCallingWindow Examples.fixedOffsets Examples.quietDb
       "dealer-1" 435660000
     = inl (Thrown (CallingWindowError "dealer-1"
              "Outside calling hours (current: 20:01, allowed: 08:00:00-20:00:00)")).
Proof. split; reflexivity. Qed.

(** ** testRoute *)

Ltac recorded M :=
  unfold Terms.recordsRule; simpl;
  split;
  [ symmetry; exact M
  | split;
    [ intros Hhas;
      first [ discriminate Hhas | split; [exact M | eexists; eassumption] ]
    | intros [Hm [t' Ht']]; first [ reflexivity | congruence ] ] ].

Lemma testRouteLoop_spec (pg : Postgres.Executor) (db : Database)
    (context : RoutingEngine.RoutingContext) (rules : list RoutingRule.t) :
  forall state res,
    RoutingDebug.testRouteLoop pg db context rules state = inr res ->
    map RoutingDebug.rule (RoutingDebug.allRulesEvaluated res)
    = map RoutingDebug.rule (RoutingDebug.allRulesEvaluated state) ++ rules
    /\ (forall e, In e (RoutingDebug.allRulesEvaluated res) ->
                  In e (RoutingDebug.allRulesEvaluated state)
                  \/ (In (RoutingDebug.rule e) rules
                      /\ Terms.recordsRule pg db context e))
    /\ (forall r, In r rules -> Spec.matches context r = true ->
                  exists o, RoutingEngine.resolveRuleTarget pg db r = inr o)
    /\ (RoutingDebug.target state <> None ->
        RoutingDebug.target res = RoutingDebug.target state
        /\ RoutingDebug.matchedRule res = RoutingDebug.matchedRule state)
    /\ (RoutingDebug.target state = None ->
        (RoutingDebug.target res = None
         /\ RoutingDebug.matchedRule res = RoutingDebug.matchedRule state
         /\ forall r, In r rules -> Spec.matches context r = true ->
                      RoutingEngine.resolveRuleTarget pg db r = inr None)
        \/ exists r t,
             RoutingDebug.target res = Some t
             /\ RoutingDebug.matchedRule res = Some r
             /\ Terms.firstOwnTarget pg db context rules r t).
Proof.
  induction rules as [|r rest IH]; intros state res; simpl.
  - intros H. injection H as <-. rewrite app_nil_r.
    split; [reflexivity|]. split; [intros e He; left; exact He|].
    split; [intros r []|]. split; [intros _; split; reflexivity|].
    intros Hn. left. split; [exact Hn|]. split; [reflexivity | intros r []].
  - fold (Spec.matches context r).
    destruct (Spec.matches context r) eqn:M; simpl.
    + destruct (RoutingEngine.resolveRuleTarget pg db r) as [e|[t|]] eqn:R; simpl;
        [discriminate| |].
      * destruct (RoutingDebug.target state) as [t0|] eqn:T; intros H;
          apply IH in H; simpl in H;
          destruct H as (Hmap & Hflags & Hres & Hkeep & Hfirst);
          rewrite map_app in Hmap; simpl in Hmap; rewrite <- app_assoc in Hmap.
        -- split; [exact Hmap|]. split.
           { intros e He. destruct (Hflags e He) as [Hin|[Hin Hm]].
             - apply in_app_or in Hin. destruct Hin as [Hin|[<-|[]]].
               + left. exact Hin.
               + right. split; [left; reflexivity | recorded M].
             - right. split; [right; exact Hin | exact Hm]. }
           split.
           { intros r' [<-|Hin] Hm; [exists (Some t); exact R | apply Hres; assumption]. }
           split; [intros _; apply Hkeep; discriminate | discriminate].
        -- split; [exact Hmap|]. split.
           { intros e He. destruct (Hflags e He) as [Hin|[Hin Hm]].
             - apply in_app_or in Hin. destruct Hin as [Hin|[<-|[]]].
               + left. exact Hin.
               + right. split; [left; reflexivity | recorded M].
             - right. split; [right; exact Hin | exact Hm]. }
           split.
           { intros r' [<-|Hin] Hm; [exists (Some t); exact R | apply Hres; assumption]. }
           split; [intros Hc; contradiction Hc; reflexivity|].
           intros _. right. exists r, t.
           destruct (Hkeep ltac:(discriminate)) as [Ht Hr].
           split; [exact Ht|]. split; [exact Hr|].
           exists [], rest. repeat split; try assumption. intros r' [].
      * intros H. apply IH in H. simpl in H.
        destruct H as (Hmap & Hflags & Hres & Hkeep & Hfirst).
        rewrite map_app in Hmap; simpl in Hmap; rewrite <- app_assoc in Hmap.
        split; [exact Hmap|]. split.
        { intros e He. destruct (Hflags e He) as [Hin|[Hin Hm]].
          - apply in_app_or in Hin. destruct Hin as [Hin|[<-|[]]].
            + left. exact Hin.
            + right. split; [left; reflexivity | recorded M].
          - right. split; [right; exact Hin | exact Hm]. }
        split.
        { intros r' [<-|Hin] Hm; [exists None; exact R | apply Hres; assumption]. }
        split; [exact Hkeep|].
        intros Hn. destruct (Hfirst Hn) as [(Ht & Hr & Hall)|(r0 & t0 & Ht & Hr & Hf)].
        -- left. split; [exact Ht|]. split; [exact Hr|].
           intros r' [<-|Hin] Hm; [exact R | apply Hall; assumption].
        -- right. exists r0, t0. split; [exact Ht|]. split; [exact Hr|].
           destruct Hf as (before & after & E & Hb & Hm & Hr0).
           exists (r :: before), after. subst rest.
           repeat split; try assumption.
           intros r' [<-|Hin] Hm'; [exact R | apply Hb; assumption].
    + intros H. apply IH in H. simpl in H.
      destruct H as (Hmap & Hflags & Hres & Hkeep & Hfirst).
      rewrite map_app in Hmap; simpl in Hmap; rewrite <- app_assoc in Hmap.
      split; [exact Hmap|]. split.
      { intros e He. destruct (Hflags e He) as [Hin|[Hin Hm]].
        - apply in_app_or in Hin. destruct Hin as [Hin|[<-|[]]].
          + left. exact Hin.
          + right. split; [left; reflexivity | recorded M].
        - right. split; [right; exact Hin | exact Hm]. }
      split.
      { intros r' [<-|Hin] Hm; [rewrite M in Hm; discriminate Hm
                               | apply Hres; assumption]. }
      split; [exact Hkeep|].
      intros Hn. destruct (Hfirst Hn) as [(Ht & Hr & Hall)|(r0 & t0 & Ht & Hr & Hf)].
      * left. split; [exact Ht|]. split; [exact Hr|].
        intros r' [<-|Hin] Hm; [rewrite M in Hm; discriminate Hm
                               | apply Hall; assumption].
      * right. exists r0, t0. split; [exact Ht|]. split; [exact Hr|].
        destruct Hf as (before & after & E & Hb & Hm & Hr0).
        exists (r :: before), after. subst rest.
        repeat split; try assumption.
        intros r' [<-|Hin] Hm'; [rewrite M in Hm'; discriminate Hm'
                                | apply Hb; assumption].
Qed.

Lemma split_at_first {A : Type} (b1 b2 a1 a2 : list A) (x y : A) :
  b1 ++ x :: a1 = b2 ++ y :: a2 ->
  (b1 = b2 /\ x = y /\ a1 = a2) \/ In x b2 \/ In y b1.
Proof.
  revert b2. induction b1 as [|h b1 IH]; intros b2 E.
  - destruct b2 as [|h2 b2]; simpl in E; injection E as <- E.
    + left. repeat split. exact E.
    + right. left. left. reflexivity.
  - destruct b2 as [|h2 b2]; simpl in E; injection E as <- E.
    + right. right. left. reflexivity.
    + destruct (IH b2 E) as [(-> & -> & ->)|[H|H]].
      * left. repeat split.
      * right. left. right. exact H.
      * right. right. right. exact H.
Qed.

Lemma firstOwnTarget_unique (pg : Postgres.Executor) (db : Database)
    (context : RoutingEngine.RoutingContext) (rules : list RoutingRule.t)
    (r1 r2 : RoutingRule.t) (t1 t2 : RoutingEngine.RoutingTarget) :
  Terms.firstOwnTarget pg db context rules r1 t1 ->
  Terms.firstOwnTarget pg db context rules r2 t2 ->
  r1 = r2 /\ t1 = t2.
Proof.
  intros (b1 & a1 & E1 & Hb1 & Hm1 & Hr1) (b2 & a2 & E2 & Hb2 & Hm2 & Hr2).
  rewrite E1 in E2.
  destruct (split_at_first _ _ _ _ _ _ E2) as [(_ & <- & _)|[H|H]].
  - split; [reflexivity|]. rewrite Hr1 in Hr2. injection Hr2 as ->. reflexivity.
  - rewrite (Hb2 _ H Hm1) in Hr1. discriminate Hr1.
  - rewrite (Hb1 _ H Hm2) in Hr2. discriminate Hr2.
Qed.

Lemma testRouteLoop_returns (pg : Postgres.Executor) (db : Database)
    (context : RoutingEngine.RoutingContext) (rules : list RoutingRule.t) :
  (forall r, In r rules -> Spec.matches context r = true ->
             exists o, RoutingEngine.resolveRuleTarget pg db r = inr o) ->
  forall state,
    exists res, RoutingDebug.testRouteLoop pg db context rules state = inr res.
Proof.
  induction rules as [|r rest IH]; intros Hall state; simpl.
  - exists state. reflexivity.
  - fold (Spec.matches context r).
    assert (forall r', In r' rest -> Spec.matches context r' = true ->
                       exists o, RoutingEngine.resolveRuleTarget pg db r' = inr o)
      as Hrest by (intros r' Hin; apply Hall; right; exact Hin).
    destruct (Spec.matches context r) eqn:M; simpl.
    + destruct (Hall r (or_introl eq_refl) M) as [o ->]. simpl.
      destruct o as [t|]; [destruct (RoutingDebug.target state)|];
        apply IH, Hrest.
    + apply IH, Hrest.
Qed.

Lemma getActiveRules_listing (pg : Postgres.Executor) (db : Database)
    (dealerId : string) (storeId : option string) :
  Postgres.sound pg ->
  Permutation (RoutingEngine.getActiveRules pg db dealerId storeId)
    (Spec.storeMatches db dealerId storeId ++ Spec.dealerMatches db dealerId).
Proof.
  intros Hpg. unfold RoutingEngine.getActiveRules, Spec.storeMatches.
  destruct storeId as [sid|]; [destruct (String.eqb sid EmptyString)|];
    try (apply rulesByPriority_perm, Hpg).
  eapply perm_trans; [apply sort_desc_perm|].
  apply Permutation_app; apply rulesByPriority_perm, Hpg.
Qed.

(** X8.  [testRoute] returns exactly when the own target of every matching
    active rule resolves without a query error.  It then lists the rules
    of [getActiveRules] in evaluation order (with a store in the context
    a rule scoped to that store is listed twice: once as a rule of the
    store and once as a rule of the dealer), each with its match flag and
    with whether its own target resolved; its [target] is the own target
    of the first matching rule whose own target resolves, fallback rules
    never being consulted, and [matchedRule] is that rule.  It agrees with
    [route] whenever no matching rule without an own target has a fallback
    that resolves. *)
Theorem X8_testRoute_spec :
  forall (pg : Postgres.Executor) (db : Database)
         (context : RoutingEngine.RoutingContext),
    let rules :=
      RoutingEngine.getActiveRules pg db (RoutingEngine.dealerId context)
        (RoutingEngine.storeId context) in
    ((exists res, RoutingDebug.testRoute pg db context = inr res)
     <-> forall r, In r rules -> Spec.matches context r = true ->
                   exists o, RoutingEngine.resolveRuleTarget pg db r = inr o)
    /\ (Postgres.sound pg ->
        Permutation rules
          (Spec.storeMatches db (RoutingEngine.dealerId context)
             (RoutingEngine.storeId context)
           ++ Spec.dealerMatches db (RoutingEngine.dealerId context)))
    /\ forall res : RoutingDebug.TestRouteResult,
         RoutingDebug.testRoute pg db context = inr res ->
         map RoutingDebug.rule (RoutingDebug.allRulesEvaluated res) = rules
         /\ (forall e, In e (RoutingDebug.allRulesEvaluated res) ->
                       Terms.recordsRule pg db context e)
         /\ (forall r t,
               RoutingDebug.matchedRule res = Some r
               /\ RoutingDebug.target res = Some t
               <-> Terms.firstOwnTarget pg db context rules r t)
         /\ (RoutingDebug.target res = None
             <-> forall r, In r rules -> Spec.matches context r = true ->
                           RoutingEngine.resolveRuleTarget pg db r = inr None)
         /\ ((forall r, In r rules -> Spec.matches context r = true ->
                        RoutingEngine.resolveRuleTarget pg db r = inr None ->
                        RoutingEngine.resolveFallback pg db r = inr None) ->
             forall t, RoutingDebug.target res = Some t
                       <-> RoutingEngine.route pg db context = inr t).
Proof.
  intros pg db context rules.
  split.
  { split.
    - intros [res H]. unfold RoutingDebug.testRoute in H. fold rules in H.
      apply testRouteLoop_spec in H. apply H.
    - intros Hall. apply testRouteLoop_returns. exact Hall. }
  split; [apply getActiveRules_listing|].
  intros res H.
  unfold RoutingDebug.testRoute in H. fold rules in H.
  apply testRouteLoop_spec in H. simpl in H.
  destruct H as (Hmap & Hflags & Hres & _ & Hfirst).
  specialize (Hfirst eq_refl).
  assert (forall r t,
             RoutingDebug.matchedRule res = Some r
             /\ RoutingDebug.target res = Some t
             <-> Terms.firstOwnTarget pg db context rules r t) as Hiff.
  { intros r t. split.
    - intros [Hr Ht].
      destruct Hfirst as [(Hn & _)|(r0 & t0 & Ht0 & Hr0 & Hf)].
      + rewrite Hn in Ht. discriminate Ht.
      + rewrite Hr0 in Hr. rewrite Ht0 in Ht.
        injection Hr as <-. injection Ht as <-. exact Hf.
    - intros Hf.
      destruct Hfirst as [(_ & _ & Hall)|(r0 & t0 & Ht0 & Hr0 & Hf0)].
      + destruct Hf as (b & a & E & _ & Hm & Hr).
        rewrite (Hall r) in Hr; [discriminate Hr | | exact Hm].
        rewrite E. apply in_or_app. right. left. reflexivity.
      + destruct (firstOwnTarget_unique _ _ _ _ _ _ _ _ Hf Hf0) as [-> ->].
        split; assumption. }
  assert (RoutingDebug.target res = None
          <-> forall r, In r rules -> Spec.matches context r = true ->
                        RoutingEngine.resolveRuleTarget pg db r = inr None) as Hnone.
  { split.
    - intros Hn. destruct Hfirst as [(_ & _ & Hall)|(r0 & t0 & Ht0 & _)];
        [exact Hall | rewrite Hn in Ht0; discriminate Ht0].
    - intros Hall. destruct Hfirst as [(Hn & _)|(r0 & t0 & _ & _ & Hf)];
        [exact Hn|].
      destruct Hf as (b & a & E & _ & Hm & Hr).
      rewrite (Hall r0) in Hr; [discriminate Hr | | exact Hm].
      rewrite E. apply in_or_app. right. left. reflexivity. }
  split; [exact Hmap|].
  split.
  { intros e He. destruct (Hflags e He) as [[]|[_ Hm]]. exact Hm. }
  split; [exact Hiff|]. split; [exact Hnone|].
  intros Hfb t.
  assert (forall r, In r rules -> Spec.matches context r = true ->
                    RoutingEngine.resolveMatched pg db r
                    = RoutingEngine.resolveRuleTarget pg db r) as Hsame.
  { intros r Hin Hm. unfold RoutingEngine.resolveMatched, bind.
    destruct (RoutingEngine.resolveRuleTarget pg db r) as [e|[t0|]] eqn:R;
      try reflexivity.
    apply Hfb; assumption. }
  assert (RoutingEngine.route pg db context = inr t
          <-> exists r, Terms.firstOwnTarget pg db context rules r t) as Hroute.
  { unfold RoutingEngine.route. fold rules.
    destruct rules as [|r0 rest] eqn:Erules.
    - split; [discriminate|].
      intros (r & b & a & E & _). destruct b; discriminate E.
    - rewrite routeLoop_ok. split.
      + intros (b & r & a & E & Hb & Hm & Hr).
        exists r, b, a. split; [exact E|].
        assert (In r (r0 :: rest)) as Hin
            by (rewrite E; apply in_or_app; right; left; reflexivity).
        rewrite (Hsame r Hin Hm) in Hr.
        split; [|split; assumption].
        intros r' Hin' Hm'.
        assert (In r' (r0 :: rest)) as Hin2
            by (rewrite E; apply in_or_app; left; exact Hin').
        rewrite <- (Hsame r' Hin2 Hm'). apply Hb; assumption.
      + intros (r & b & a & E & Hb & Hm & Hr).
        exists b, r, a. split; [exact E|].
        assert (In r (r0 :: rest)) as Hin
            by (rewrite E; apply in_or_app; right; left; reflexivity).
        rewrite (Hsame r Hin Hm).
        split; [|split; assumption].
        intros r' Hin' Hm'.
        assert (In r' (r0 :: rest)) as Hin2
            by (rewrite E; apply in_or_app; left; exact Hin').
        rewrite (Hsame r' Hin2 Hm'). apply Hb; assumption. }
  rewrite Hroute. split.
  - intros Ht. destruct Hfirst as [(Hn & _)|(r0 & t0 & Ht0 & Hr0 & Hf)].
    + rewrite Hn in Ht. discriminate Ht.
    + rewrite Ht0 in Ht. injection Ht as <-. exists r0. exact Hf.
  - intros (r & Hf). apply (Hiff r t) in Hf. apply Hf.
Qed.

(** X8 on the priority and fallback scenario, where [testRoute] reports the
    catch-all rule C and its rep. *)
Lemma X8_testRoute_on_fallback_scenario :
  map RoutingDebug.rule
    (RoutingDebug.allRulesEvaluated
       {| RoutingDebug.matchedRule :=
            Some (Examples.rule "C" 10 [] "user" (Some "rep-c"%string) None);
          RoutingDebug.target :=
            Some (RoutingEngine.targetOfUser (Examples.rep "rep-c" "used" true));
          RoutingDebug.allRulesEvaluated :=
            [ RoutingDebug.mkEvaluation
                (Examples.rule "A" 100 [("department", Js.JStr "new")]%string
                   "user" (Some "rep-a"%string) (Some "B"%string)) true false;
              RoutingDebug.mkEvaluation
                (Examples.rule "C" 10 [] "user" (Some "rep-c"%string) None)
                true true;
              RoutingDebug.mkEvaluation
                (Examples.rule "B" 0 [("department", Js.JStr "never")]%string
                   "user" (Some "manager"%string) None) false false ] |})
  = RoutingEngine.getActiveRules Postgres.inStorageOrder Examples.fallbackDb
      "dealer-1" None.
Proof.
  apply (proj2 (proj2 (X8_testRoute_spec Postgres.inStorageOrder
                         Examples.fallbackDb
                         (Examples.context (Some "new"%string))))).
  reflexivity.
Defined.

(** With the store in the context the rule of the store is listed twice. *)
Example testRoute_lists_store_rule_twice :
  exists res,
    RoutingDebug.testRoute Postgres.inStorageOrder Examples.scopedDb
      {| RoutingEngine.dealerId := "dealer-1";
         RoutingEngine.storeId := Some "store-1"%string;
         RoutingEngine.department := None;
         RoutingEngine.vehicleOfInterest := None;
         RoutingEngine.source := None;
         RoutingEngine.intentScore := None;
         RoutingEngine.leadValue := None;
         RoutingEngine.metadata := None |} = inr res
    /\ map (fun e => RoutingRule.id (RoutingDebug.rule e))
         (RoutingDebug.allRulesEvaluated res)
       = map RoutingRule.id
           (RoutingEngine.getActiveRules Postgres.inStorageOrder
              Examples.scopedDb "dealer-1" (Some "store-1"%string))
    /\ List.length (RoutingDebug.allRulesEvaluated res) = 3%nat
    /\ List.length (Spec.dealerMatches Examples.scopedDb "dealer-1") = 2%nat.
Proof. eexists. repeat split; reflexivity. Qed.

(** In that scenario the two answers differ: [route] resolves rule A through
    its fallback to the manager, [testRoute] names the rep of rule C. *)
Example testRoute_ignores_fallback :
  RoutingEngine.route Postgres.inStorageOrder Examples.fallbackDb (Examples.context (Some "new"%string))
  = inr (RoutingEngine.targetOfUser (Examples.rep "manager" "new" true))
  /\ (exists res,
        RoutingDebug.testRoute Postgres.inStorageOrder Examples.fallbackDb
          (Examples.context (Some "new"%string)) = inr res
        /\ RoutingDebug.target res
           = Some (RoutingEngine.targetOfUser (Examples.rep "rep-c" "used" true))).
Proof. split; [reflexivity|]. eexists. split; reflexivity. Qed.

(** ** Conditions on a field the context does not carry *)

Lemma context_get_no_field (context : RoutingEngine.RoutingContext)
    (key : string) :
  ~ In key ["dealerId"; "storeId"; "department"; "vehicleOfInterest"; "source";
            "intentScore"; "leadValue"; "metadata"]%string ->
  RoutingEngine.context_get context key
  = if Js.inherited key then Js.JBuiltin key else Js.JUndefined.
Proof.
  intros H. unfold RoutingEngine.context_get.
  repeat match goal with
         | |- context [String.eqb key ?k] =>
             destruct (String.eqb_spec key k) as [->|_];
             [exfalso; apply H; simpl; tauto|]
         end.
  reflexivity.
Qed.

Lemma evaluateRuleConditions_entry (conditions : list (string * Js.jsval))
    (context : RoutingEngine.RoutingContext) (key : string) (value : Js.jsval) :
  In (key, value) conditions ->
  RoutingEngine.evaluateCondition key value context = false ->
  RoutingEngine.evaluateRuleConditions conditions context = false.
Proof.
  intros Hin Hf. rewrite evaluateRuleConditions_forallb.
  destruct (forallb _ conditions) eqn:E; [|reflexivity].
  rewrite forallb_forall in E. specialize (E _ Hin). simpl in E.
  rewrite Hf in E. discriminate E.
Qed.

(** X9.  A condition on a field that the routing context does not carry,
    or on a key that is neither a field of the context nor a member every
    object inherits, reads [undefined]: it fails when it is a range ([min]
    or [max]), a membership test over JSON values, an [exists] test with a
    truthy flag or an equality with a JSON literal, and a rule holding such
    a condition does not match; only an [exists] test with a falsy flag
    holds on the missing field.  A key that is no field of the context
    reads [undefined] exactly when no object inherits a member of that
    name; on an inherited name such as [toString] the context yields the
    inherited member, and an [exists] test has the truth value of its
    flag. *)
Theorem X9_condition_on_missing_field :
  forall (context : RoutingEngine.RoutingContext) (key : string),
    RoutingEngine.context_get context key = Js.JUndefined ->
    (forall props,
        Js.has_prop props "min" || Js.has_prop props "max" = true ->
        RoutingEngine.evaluateCondition key (Js.JObj props) context = false)
    /\ (forall props elems,
          Js.has_prop props "min" || Js.has_prop props "max" = false ->
          Js.has_prop props "in" = true ->
          Js.get_prop props "in" = Js.JArr elems ->
          ~ In Js.JUndefined elems ->
          RoutingEngine.evaluateCondition key (Js.JObj props) context = false)
    /\ (forall props,
          Js.has_prop props "min" || Js.has_prop props "max" = false ->
          Js.has_prop props "in" = false ->
          Js.has_prop props "exists" = true ->
          RoutingEngine.evaluateCondition key (Js.JObj props) context
          = negb (Js.truthy (Js.get_prop props "exists")))
    /\ (forall literal,
          literal <> Js.JUndefined ->
          (forall props, literal <> Js.JObj props) ->
          RoutingEngine.evaluateCondition key literal context = false)
    /\ (forall conditions value,
          In (key, value) conditions ->
          RoutingEngine.evaluateCondition key value context = false ->
          RoutingEngine.evaluateRuleConditions conditions context = false)
    /\ (forall other : string,
          ~ In other ["dealerId"; "storeId"; "department"; "vehicleOfInterest";
                      "source"; "intentScore"; "leadValue"; "metadata"]%string ->
          (RoutingEngine.context_get context other = Js.JUndefined
           <-> Js.inherited other = false)
          /\ (Js.inherited other = true ->
              RoutingEngine.context_get context other = Js.JBuiltin other
              /\ forall props,
                   Js.has_prop props "min" || Js.has_prop props "max" = false ->
                   Js.has_prop props "in" = false ->
                   Js.has_prop props "exists" = true ->
                   RoutingEngine.evaluateCondition other (Js.JObj props) context
                   = Js.truthy (Js.get_prop props "exists"))).
Proof.
  intros context key Hmissing.
  split; [|split; [|split; [|split; [|split]]]].
  - intros props H. unfold RoutingEngine.evaluateCondition.
    rewrite Hmissing, H. simpl.
    destruct (if Js.has_prop props "min" then _ else _); reflexivity.
  - intros props elems Hr Hin Hget Hno. unfold RoutingEngine.evaluateCondition.
    rewrite Hmissing, Hr, Hin, Hget. unfold Js.includes.
    destruct (existsb _ elems) eqn:E; [|reflexivity].
    apply existsb_exists in E. destruct E as (x & Hx & Hsame).
    destruct x as [| |b|n|s|l|o|k]; try discriminate Hsame;
      try (destruct n; discriminate Hsame).
    contradiction.
  - intros props Hr Hin Hex. unfold RoutingEngine.evaluateCondition.
    rewrite Hmissing, Hr, Hin, Hex. simpl.
    destruct (Js.truthy (Js.get_prop props "exists")); reflexivity.
  - intros literal Hu Ho. unfold RoutingEngine.evaluateCondition.
    rewrite Hmissing.
    destruct literal as [| |b|n|s|l|o|k]; try reflexivity.
    + contradiction Hu; reflexivity.
    + contradiction (Ho o); reflexivity.
  - intros conditions value. apply evaluateRuleConditions_entry.
  - intros other Hother.
    pose proof (context_get_no_field context other Hother) as Hget.
    split.
    + rewrite Hget. destruct (Js.inherited other); split; intros H;
        first [reflexivity | discriminate H].
    + intros Hinh. rewrite Hinh in Hget. split; [exact Hget|].
      intros props Hr Hin Hex. unfold RoutingEngine.evaluateCondition.
      rewrite Hget, Hr, Hin, Hex. simpl.
      destruct (Js.truthy (Js.get_prop props "exists")); reflexivity.
Qed.

(** X9 on a rule that asks for an intent score of at least 70 while the
    context carries no score. *)
Lemma X9_range_on_missing_score :
  RoutingEngine.evaluateCondition "intentScore"
    (Js.JObj [("min", Js.JNum (Js.Fin 70))]%string)
    (Examples.context (Some "new"%string)) = false.
Proof.
  apply (proj1 (X9_condition_on_missing_field
                  (Examples.context (Some "new"%string)) "intentScore" eq_refl)).
  reflexivity.
Defined.

(** A rule that asks for [toString] to exist matches every context. *)
Example exists_on_inherited_member :
  RoutingEngine.evaluateRuleConditions
    [("toString", Js.JObj [("exists", Js.JBool true)])]%string
    (Examples.context None) = true.
Proof. reflexivity. Qed.

(** ** Call sessions: update and lookup *)


Lemma map_filter_fixed {A : Type} (p : A -> bool) (f : A -> A) (l : list A) :
  (forall x, p x = true -> f x = x) -> map f (filter p l) = filter p l.
Proof.
  intros H. induction l as [|x rest IH]; simpl.
  - reflexivity.
  - destruct (p x) eqn:E; simpl; [rewrite (H x E), IH|]; auto.
Qed.



Lemma getCallSession_throws (db : Database) (callSessionId : string) :
  CallService.getCallSession db callSessionId = inl Terms.undeclaredRelation.
Proof. reflexivity. Qed.

Lemma sessionById_rows (db : Database) (callSessionId : string) :
  Terms.sessionById db callSessionId
  = match filter (fun s => String.eqb (CallSession.id s) callSessionId)
            (callSessions db) with
    | [] => Js.RefUndefined
    | s :: _ => Js.RefObject s
    end.
Proof. reflexivity. Qed.

Lemma rewritten_hit (callSessionId : string)
    (input : CallService.UpdateCallSessionInput) (now : Z)
    (rows : list CallSession.t) :
  filter (fun s => String.eqb (CallSession.id s) callSessionId)
    (Spec.rewritten callSessionId input now rows)
  = map (CallService.applyUpdate input now)
      (filter (fun s => String.eqb (CallSession.id s) callSessionId) rows).
Proof.
  unfold Spec.rewritten.
  induction rows as [|x rest IH]; simpl; [reflexivity|].
  destruct (String.eqb (CallSession.id x) callSessionId) eqn:E; simpl.
  - rewrite E. simpl. rewrite IH. reflexivity.
  - rewrite E. exact IH.
Qed.




(** The update of an unknown session on the store with one completed
    session, and a lookup through [getCallSession]. *)
Example updateCallSession_unknown_id :
  CallService.updateCallSession Examples.completedDb "cs-404"
    (SignalwireWebhook.statusUpdates "ringing" "ringing" None 5) 5
  = inr (Js.RefUndefined, Examples.completedDb)
  /\ CallService.getCallSession Examples.completedDb "cs-1"
     = inl (TypeError
              "Cannot read properties of undefined (reading 'referencedTable')").
Proof. split; reflexivity. Qed.

(** ** Call sessions: creation *)

Lemma sessionCollides_false (db : Database) (s : CallSession.t) :
  CallStore.sessionCollides db s = false ->
  filter (fun old => String.eqb (CallSession.id old) (CallSession.id s))
    (callSessions db) = []
  /\ forall sid, CallSession.swaigSessionId s = Some sid ->
       filter (fun old => Drizzle.eq_nullable (CallSession.swaigSessionId old) sid)
         (callSessions db) = [].
Proof.
  unfold CallStore.sessionCollides. intros H.
  induction (callSessions db) as [|old rest IH]; simpl in *.
  - split; [reflexivity | intros; reflexivity].
  - apply orb_false_elim in H. destruct H as [Hold Hrest].
    apply orb_false_elim in Hold. destruct Hold as [Hid Hsw].
    destruct (IH Hrest) as [IH1 IH2]. rewrite Hid. split; [exact IH1|].
    intros sid Es. rewrite Es in Hsw. rewrite Hsw. apply IH2, Es.
Qed.

(** X11.  A session that [createCallSession] returns starts in status
    [initiated] with the numbers and owners of the input, is stored behind
    the existing rows, and is afterwards the row stored under its id and
    the session found under its SWAIG session id, while the rows under any
    other id, the lookups by any other SWAIG session id and all lookups by
    SignalWire call SID answer as before; [getCallSession] throws on the
    new id as on every id.  When a stored session has the new id or the
    SWAIG session id of the input the call fails with the unique
    violation. *)
Theorem X11_createCallSession_lookup :
  forall (db : Database) (input : CallStore.CreateCallSessionInput)
         (newId : string) (now : Z) (session : CallSession.t) (db' : Database),
    CallStore.createCallSession db input newId now = inr (session, db') ->
    CallSession.id session = newId
    /\ CallSession.status session = "initiated"%string
    /\ CallSession.dealerId session = CallStore.dealerId input
    /\ CallSession.leadId session = CallStore.leadId input
    /\ CallSession.toNumber session = CallStore.toNumber input
    /\ callSessions db' = callSessions db ++ [session]
    /\ Terms.sessionById db' newId = Js.RefObject session
    /\ CallService.getCallSession db' newId = inl Terms.undeclaredRelation
    /\ (forall sid, CallStore.swaigSessionId input = Some sid ->
          CallStore.getCallSessionBySwaigId db' sid = Js.RefObject session)
    /\ (forall other, other <> newId ->
          Terms.sessionById db' other = Terms.sessionById db other)
    /\ (forall sid, CallStore.swaigSessionId input <> Some sid ->
          CallStore.getCallSessionBySwaigId db' sid
          = CallStore.getCallSessionBySwaigId db sid)
    /\ (forall sid,
          CallService.getCallSessionBySignalwireSid db' sid
          = CallService.getCallSessionBySignalwireSid db sid)
    /\ (forall input' newId' now',
          (exists old, In old (callSessions db)
                /\ (CallSession.id old = newId'
                    \/ (CallSession.swaigSessionId old <> None
                        /\ CallSession.swaigSessionId old
                           = CallStore.swaigSessionId input'))) ->
          CallStore.createCallSession db input' newId' now'
          = inl (PostgresError "unique_violation")).
Proof.
  intros db input newId now session db'.
  unfold CallStore.createCallSession.
  destruct (CallStore.sessionCollides db (CallStore.newSession input newId now))
    eqn:Hc; [discriminate|].
  intros H. injection H as <- <-.
  destruct (sessionCollides_false _ _ Hc) as [Hid Hsw]. simpl in Hid, Hsw.
  repeat match goal with |- _ /\ _ => split end; try reflexivity.
  - rewrite sessionById_rows. simpl. rewrite filter_app, Hid. simpl.
    rewrite String.eqb_refl. reflexivity.
  - intros sid Es. unfold CallStore.getCallSessionBySwaigId, Drizzle.findFirst.
    simpl. rewrite filter_app, (Hsw sid Es). simpl. rewrite Es. simpl.
    rewrite String.eqb_refl. reflexivity.
  - intros other Hne. rewrite !sessionById_rows. simpl. rewrite filter_app.
    simpl. destruct (String.eqb_spec newId other) as [E|_];
      [congruence | rewrite app_nil_r; reflexivity].
  - intros sid Hne. unfold CallStore.getCallSessionBySwaigId. f_equal.
    unfold Drizzle.findFirst. simpl. rewrite filter_app. simpl.
    destruct (CallStore.swaigSessionId input) as [sid'|]; simpl.
    + destruct (String.eqb_spec sid' sid) as [E|_];
        [congruence | rewrite app_nil_r; reflexivity].
    + rewrite app_nil_r; reflexivity.
  - intros sid. unfold CallService.getCallSessionBySignalwireSid. f_equal.
    unfold Drizzle.findFirst. simpl. rewrite filter_app. simpl.
    rewrite app_nil_r. reflexivity.
  - intros input' newId' now' (old & Hin & Hold).
    assert (CallStore.sessionCollides db
              (CallStore.newSession input' newId' now') = true) as Ht.
    { unfold CallStore.sessionCollides. apply existsb_exists.
      exists old. split; [exact Hin|]. simpl.
      destruct Hold as [E|[Hsome E]].
      - rewrite E, String.eqb_refl. reflexivity.
      - rewrite <- E.
        destruct (CallSession.swaigSessionId old) as [sid0|];
          [|contradiction Hsome; reflexivity].
        simpl. rewrite String.eqb_refl. apply orb_true_r. }
    rewrite Ht. reflexivity.
Qed.

(** X11 on the store without sessions. *)
Lemma X11_first_session_is_found :
  Terms.sessionById
    (CallService.withCallSessions Examples.quietDb
       [CallStore.newSession
          (CallStore.mkCreate "dealer-1" "lead-1" "+19195550100" "+19195550123"
             (Some "swaig-1") None None)%string "cs-1" 7])
    "cs-1"
  = Js.RefObject
      (CallStore.newSession
         (CallStore.mkCreate "dealer-1" "lead-1" "+19195550100" "+19195550123"
            (Some "swaig-1") None None)%string "cs-1" 7).
Proof.
  exact (proj1 (proj2 (proj2 (proj2 (proj2 (proj2 (proj2
           (X11_createCallSession_lookup Examples.quietDb
              (CallStore.mkCreate "dealer-1" "lead-1" "+19195550100"
                 "+19195550123" (Some "swaig-1") None None)%string
              "cs-1" 7 _ _ eq_refl)))))))).
Defined.

(** ** Call attempts: listing and update *)

Lemma attemptNumbers_NoDup (leadId : string) (l : list CallAttempt.t) :
  (forall a, In a l -> CallAttempt.leadId a = leadId) ->
  NoDup (map Spec.attemptKey l) -> NoDup (map CallAttempt.attemptNumber l).
Proof.
  induction l as [|x rest IH]; simpl; intros Hl H.
  - constructor.
  - inversion H as [|? ? Hx Hrest]; subst.
    constructor; [|apply IH; [intros a Ha; apply Hl; right; exact Ha | exact Hrest]].
    intros Hin. apply Hx. apply in_map_iff in Hin.
    destruct Hin as (y & Ey & Hy). apply in_map_iff. exists y.
    split; [|exact Hy]. unfold Spec.attemptKey.
    rewrite Ey, (Hl y (or_intror Hy)), (Hl x (or_introl eq_refl)). reflexivity.
Qed.

Lemma sorted_strict {A : Type} (key : A -> Z) (l : list A) :
  StronglySorted (fun a b => key b <= key a) l ->
  NoDup (map key l) ->
  StronglySorted (fun a b => key b < key a) l.
Proof.
  induction 1 as [|x rest Hs IH Hall]; simpl; intros Hnd.
  - constructor.
  - inversion Hnd as [|? ? Hx Hrest]; subst.
    constructor; [apply IH, Hrest|].
    rewrite Forall_forall in *. intros b Hb.
    specialize (Hall b Hb). simpl in Hall.
    assert (key b <> key x); [|lia].
    intros E. apply Hx. rewrite <- E. apply in_map, Hb.
Qed.

(** X12.  [getCallAttempts] returns exactly the stored attempts of the lead,
    each once, from the highest attempt number down; under the unique index
    on (lead, attempt number) the numbers fall strictly.  Its first element
    is the attempt [getLatestCallAttempt] returns, and the list is empty
    exactly when the lead has no attempt, in which case
    [getLatestCallAttempt] gives [null]. *)
Theorem X12_getCallAttempts_order :
  forall (db : Database) (leadId : string),
    let attempts := CallStore.getCallAttempts db leadId in
    Permutation attempts (Spec.attemptsOf db leadId)
    /\ (forall a, In a attempts <->
                  In a (callAttempts db) /\ CallAttempt.leadId a = leadId)
    /\ StronglySorted
         (fun a b => CallAttempt.attemptNumber b <= CallAttempt.attemptNumber a)
         attempts
    /\ (NoDup (map Spec.attemptKey (callAttempts db)) ->
        StronglySorted
          (fun a b => CallAttempt.attemptNumber b < CallAttempt.attemptNumber a)
          attempts)
    /\ CallService.getLatestCallAttempt db leadId
       = match attempts with
         | [] => Js.RefNull
         | latest :: _ => Js.RefObject latest
         end
    /\ (attempts = [] <->
        forall a, In a (callAttempts db) -> CallAttempt.leadId a <> leadId).
Proof.
  intros db leadId attempts.
  assert (Permutation attempts (Spec.attemptsOf db leadId)) as P
      by apply sort_desc_perm.
  assert (forall a, In a attempts <->
                    In a (callAttempts db) /\ CallAttempt.leadId a = leadId) as Hin.
  { intros a. split.
    - intros H. apply (Permutation_in _ P) in H.
      apply filter_In in H. destruct H as [H E].
      apply String.eqb_eq in E. tauto.
    - intros [H E]. apply (Permutation_in _ (Permutation_sym P)).
      apply filter_In. split; [exact H | apply String.eqb_eq, E]. }
  assert (StronglySorted
            (fun a b => CallAttempt.attemptNumber b <= CallAttempt.attemptNumber a)
            attempts) as S
      by apply (sort_desc_sorted CallAttempt.attemptNumber).
  repeat match goal with |- _ /\ _ => split end;
    try assumption; try apply Hin; try reflexivity.
  - intros Hnd. apply (sorted_strict CallAttempt.attemptNumber); [exact S|].
    apply (Permutation_NoDup
             (l := map CallAttempt.attemptNumber (Spec.attemptsOf db leadId))).
    + apply Permutation_map, Permutation_sym, P.
    + apply (attemptNumbers_NoDup leadId).
      * intros a Ha. apply filter_In in Ha. apply String.eqb_eq, Ha.
      * apply NoDup_keys_of_filter, Hnd.
  - split.
    + intros E a Ha El. assert (In a attempts) as H by (apply Hin; tauto).
      rewrite E in H. destruct H.
    + intros H. destruct attempts as [|a rest] eqn:E; [reflexivity|].
      exfalso. assert (In a (a :: rest)) as Ha by (left; reflexivity).
      apply Hin in Ha. destruct Ha as [Ha El]. exact (H a Ha El).
Qed.



(** ** Webhooks: conference end, call started, call ended *)

(** X14.  The conference-status handler never changes the store.  On the
    event [conference-end] for a conference whose name starts with
    [transfer-] it reads the session through [getCallSession], which
    throws, and answers with the 500 of its [catch] block; on every other
    event, name or missing name it answers with success.  So a session that
    [markAsTransferred] has written stays as that call left it when the
    conference ends. *)
Theorem X14_conference_end_changes_nothing :
  forall (db : Database) (statusCallbackEvent : string)
         (friendlyName : option string) (now : Z),
    let result :=
      Webhooks.postConferenceStatus db statusCallbackEvent friendlyName now in
    snd result = db
    /\ (fst result = SignalwireWebhook.InternalServerError
        <-> statusCallbackEvent = "conference-end"%string
            /\ exists name, friendlyName = Some name
                            /\ Js.startsWith name "transfer-" = true)
    /\ (fst result = SignalwireWebhook.Success
        <-> ~ (statusCallbackEvent = "conference-end"%string
               /\ exists name, friendlyName = Some name
                               /\ Js.startsWith name "transfer-" = true))
    /\ (forall db0 callSessionId userId completed now0 updated,
          CallService.markAsTransferred db0 callSessionId userId completed now0
          = inr (updated, db) ->
          Webhooks.postConferenceStatus db "conference-end"
            (Some ("transfer-" ++ callSessionId)%string) now
          = (SignalwireWebhook.InternalServerError, db)).
Proof.
  intros db event friendlyName now result.
  assert (result = (SignalwireWebhook.InternalServerError, db)
          /\ (event = "conference-end"%string
              /\ exists name, friendlyName = Some name
                              /\ Js.startsWith name "transfer-" = true)
          \/ result = (SignalwireWebhook.Success, db)
             /\ ~ (event = "conference-end"%string
                   /\ exists name, friendlyName = Some name
                                   /\ Js.startsWith name "transfer-" = true))
    as Hcases.
  { subst result.
    unfold Webhooks.postConferenceStatus, Webhooks.conferenceStatusHandler.
    destruct friendlyName as [name|].
    2:{ right. split; [reflexivity|]. intros (_ & n & E & _). discriminate E. }
    destruct (Js.startsWith name "transfer-") eqn:Hp.
    2:{ right. split; [reflexivity|]. intros (_ & n & E & Hn).
        injection E as <-. rewrite Hn in Hp. discriminate Hp. }
    cbv zeta.
    destruct (String.eqb_spec event "participant-join") as [->|_].
    { right. split; [reflexivity|]. intros (E & _). discriminate E. }
    destruct (String.eqb_spec event "participant-leave") as [->|_].
    { right. split; [reflexivity|]. intros (E & _). discriminate E. }
    destruct (String.eqb_spec event "conference-end") as [->|Hne].
    - left. rewrite getCallSession_throws. split; [reflexivity|].
      split; [reflexivity|]. exists name. split; [reflexivity | exact Hp].
    - right. split; [reflexivity|]. intros (E & _). contradiction. }
  split; [destruct Hcases as [[-> _]|[-> _]]; reflexivity|].
  split; [|split].
  - destruct Hcases as [[-> H]|[-> H]]; simpl.
    + split; [intros _; exact H | reflexivity].
    + split; [discriminate | intros H'; contradiction].
  - destruct Hcases as [[-> H]|[-> H]]; simpl.
    + split; [discriminate | intros H'; contradiction].
    + split; [intros _; exact H | reflexivity].
  - intros db0 callSessionId userId completed now0 updated _.
    unfold Webhooks.postConferenceStatus, Webhooks.conferenceStatusHandler.
    change (Js.startsWith ("transfer-" ++ callSessionId) "transfer-")
      with (String.prefix "" callSessionId).
    replace (String.prefix "" callSessionId) with true
      by (destruct callSessionId; reflexivity).
    cbv zeta. simpl String.eqb. rewrite getCallSession_throws. reflexivity.
Qed.

(** The end of the conference of a transfer, and a participant joining
    it. *)
Example conference_end_is_refused :
  Webhooks.postConferenceStatus Examples.completedDb "conference-end"
    (Some "transfer-cs-1"%string) 9
  = (SignalwireWebhook.InternalServerError, Examples.completedDb)
  /\ Webhooks.postConferenceStatus Examples.completedDb "participant-join"
       (Some "transfer-cs-1"%string) 9
     = (SignalwireWebhook.Success, Examples.completedDb).
Proof. split; reflexivity. Qed.

Lemma rows_by_unique_id (rows : list CallSession.t) (session : CallSession.t) :
  NoDup (map CallSession.id rows) -> In session rows ->
  filter (fun s => String.eqb (CallSession.id s) (CallSession.id session)) rows
  = [session].
Proof.
  induction rows as [|x rest IH]; simpl; intros Hnd Hin; [destruct Hin|].
  inversion Hnd as [|? ? Hx Hrest]; subst.
  destruct Hin as [->|Hin].
  - rewrite String.eqb_refl. f_equal.
    destruct (filter _ rest) as [|y ys] eqn:E; [reflexivity|].
    exfalso. apply Hx.
    assert (In y (filter (fun s => String.eqb (CallSession.id s)
                                     (CallSession.id session)) rest)) as Hy
        by (rewrite E; left; reflexivity).
    apply filter_In in Hy. destruct Hy as [Hy Ey]. apply String.eqb_eq in Ey.
    rewrite <- Ey. apply in_map, Hy.
  - destruct (String.eqb_spec (CallSession.id x) (CallSession.id session)) as [E|_].
    + exfalso. apply Hx. rewrite E. apply in_map, Hin.
    + apply IH; assumption.
Qed.

Lemma filter_map_rows {A : Type} (p q : A -> bool) (f : A -> A) (rows : list A) :
  (forall x, In x rows -> p (f x) = q x) ->
  filter p (map f rows) = map f (filter q rows).
Proof.
  induction rows as [|x rest IH]; simpl; intros H; [reflexivity|].
  rewrite (H x (or_introl eq_refl)).
  rewrite IH by (intros y Hy; apply H; right; exact Hy).
  destruct (q x); reflexivity.
Qed.

Lemma bySignalwireSid_none (db : Database) (callSid : string) :
  (forall s, In s (callSessions db) ->
             CallSession.signalwireCallSid s <> Some callSid) ->
  CallService.getCallSessionBySignalwireSid db callSid = Js.RefNull.
Proof.
  intros H. unfold CallService.getCallSessionBySignalwireSid.
  rewrite findFirst_undefined; [reflexivity|].
  intros s Hs. specialize (H s Hs).
  destruct (CallSession.signalwireCallSid s) as [sid|]; [|reflexivity].
  simpl. destruct (String.eqb_spec sid callSid) as [->|_];
    [contradiction H; reflexivity | reflexivity].
Qed.

Lemma bySwaigId_In (db : Database) (swaigSessionId : string)
    (session : CallSession.t) :
  CallStore.getCallSessionBySwaigId db swaigSessionId = Js.RefObject session ->
  In session (callSessions db).
Proof.
  unfold CallStore.getCallSessionBySwaigId. intros Hfound.
  destruct (Drizzle.findFirst _ _) as [| |s] eqn:E; try discriminate Hfound.
  injection Hfound as <-. apply findFirst_object in E. apply E.
Qed.

(** X15.  The [call-started] webhook is what links a session to the
    provider's status callbacks.  For a session found under the SWAIG
    session id and a call SID that no other session carries, the handler
    answers with success and stores the SID and the status [ringing] on
    that session; from then on the session is the one found under the SID,
    and a status callback for the SID that carries a provider status of
    the status table (or any other status that no object inherits a member
    for) and no duration sets its status to the mapped status.  A status
    callback for a SID that no session carries changes nothing, and so does
    a [call-started] for an unknown SWAIG session id; a [call-started] with
    a SID that another session already carries is refused by the unique
    index: the handler answers 500 and nothing is written. *)
Theorem X15_callStarted_links_status_callbacks :
  forall (pg : Postgres.Executor) (db : Database)
         (swaigSessionId callSid : string) (now : Z) (session : CallSession.t),
    NoDup (map CallSession.id (callSessions db)) ->
    CallStore.getCallSessionBySwaigId db swaigSessionId = Js.RefObject session ->
    CallService.sidTaken db (CallSession.id session) callSid = false ->
    let result := Webhooks.postCallStarted db swaigSessionId (Some callSid) now in
    let db' := snd result in
    let session' :=
      CallService.applyUpdate (Webhooks.callStartedUpdate (Some callSid)) now
        session in
    fst result = SignalwireWebhook.Success
    /\ CallService.getCallSessionBySignalwireSid db' callSid
       = Js.RefObject session'
    /\ Terms.sessionById db' (CallSession.id session) = Js.RefObject session'
    /\ CallSession.signalwireCallSid session' = Some callSid
    /\ CallSession.status session' = "ringing"%string
    /\ map CallSession.id (callSessions db') = map CallSession.id (callSessions db)
    /\ (forall (callStatus v : string) (now' : Z),
          SignalwireWebhook.mapSignalWireStatus callStatus = Js.JStr v ->
          let answered :=
            SignalwireWebhook.postStatus pg db'
              (SignalwireWebhook.mkStatusBody (Some callSid) (Some callStatus)
                 None) now' in
          fst answered = SignalwireWebhook.Success
          /\ exists session'',
               Terms.sessionById (snd answered) (CallSession.id session)
               = Js.RefObject session''
               /\ CallSession.status session'' = v
               /\ CallSession.signalwireCallSid session'' = Some callSid)
    /\ (forall (other : Database) (sid : string)
               (body : SignalwireWebhook.StatusBody) (now' : Z),
          SignalwireWebhook.CallSid body = Some sid ->
          (forall s, In s (callSessions other) ->
                     CallSession.signalwireCallSid s <> Some sid) ->
          SignalwireWebhook.postStatus pg other body now'
          = (SignalwireWebhook.Success, other))
    /\ (forall (other : Database) (unknown : string) sid now',
          CallStore.getCallSessionBySwaigId other unknown = Js.RefNull ->
          Webhooks.postCallStarted other unknown sid now'
          = (SignalwireWebhook.Success, other))
    /\ (forall (other : Database) (swaigId sid : string) found now',
          CallStore.getCallSessionBySwaigId other swaigId = Js.RefObject found ->
          CallService.sidTaken other (CallSession.id found) sid = true ->
          Webhooks.postCallStarted other swaigId (Some sid) now'
          = (SignalwireWebhook.InternalServerError, other)).
Proof.
  intros pg db swaigSessionId callSid now session Hnd Hfound Hfree
    result db' session'.
  pose proof (bySwaigId_In _ _ _ Hfound) as Hin.
  assert (result
          = (SignalwireWebhook.Success,
             CallService.withCallSessions db
               (Spec.rewritten (CallSession.id session)
                  (Webhooks.callStartedUpdate (Some callSid)) now
                  (callSessions db)))) as Eres.
  { unfold result, Webhooks.postCallStarted, Webhooks.callStartedHandler.
    rewrite Hfound. rewrite updateCallSession_accepted; try reflexivity.
    intros _. unfold CallService.violation. simpl. rewrite Hfree. reflexivity. }
  assert (callSessions db'
          = Spec.rewritten (CallSession.id session)
              (Webhooks.callStartedUpdate (Some callSid)) now (callSessions db))
    as Erows by (unfold db'; rewrite Eres; reflexivity).
  assert (Terms.sessionById db' (CallSession.id session) = Js.RefObject session')
    as Hget'.
  { rewrite sessionById_rows, Erows, rewritten_hit.
    rewrite (rows_by_unique_id _ _ Hnd Hin). reflexivity. }
  assert (CallService.getCallSessionBySignalwireSid db' callSid
          = Js.RefObject session') as Hsid.
  { unfold CallService.getCallSessionBySignalwireSid, Drizzle.findFirst.
    rewrite Erows. unfold Spec.rewritten.
    rewrite (filter_map_rows _
               (fun s => String.eqb (CallSession.id s) (CallSession.id session))).
    - rewrite (rows_by_unique_id _ _ Hnd Hin). simpl.
      rewrite String.eqb_refl. reflexivity.
    - intros x Hx.
      destruct (String.eqb (CallSession.id x) (CallSession.id session)) eqn:Ex.
      + simpl. apply String.eqb_refl.
      + unfold CallService.sidTaken in Hfree.
        destruct (Drizzle.eq_nullable (CallSession.signalwireCallSid x) callSid)
          eqn:Es; [|reflexivity].
        assert (existsb
                  (fun s => negb (String.eqb (CallSession.id s) (CallSession.id session))
                            && Drizzle.eq_nullable (CallSession.signalwireCallSid s)
                                 callSid)
                  (callSessions db) = true) as Ht.
        { apply existsb_exists. exists x. split; [exact Hx|].
          rewrite Ex, Es. reflexivity. }
        rewrite Ht in Hfree. discriminate Hfree. }
  split; [unfold result in *; rewrite Eres; reflexivity|].
  split; [exact Hsid|]. split; [exact Hget'|].
  split; [reflexivity|]. split; [reflexivity|].
  split.
  { rewrite Erows. unfold Spec.rewritten. rewrite map_map. apply map_ext.
    intros s. destruct (String.eqb (CallSession.id s) (CallSession.id session));
      reflexivity. }
  split.
  { intros callStatus v now' Hmap answered.
    assert (answered
            = (SignalwireWebhook.Success,
               CallService.withCallSessions db'
                 (Spec.rewritten (CallSession.id session')
                    (SignalwireWebhook.statusUpdates v callStatus None now') now'
                    (callSessions db')))) as Ea.
    { unfold answered, SignalwireWebhook.postStatus.
      rewrite (statusHandler_found pg db'
                 (SignalwireWebhook.mkStatusBody (Some callSid) (Some callStatus)
                    None) now' callSid v session' eq_refl Hsid Hmap).
      rewrite updateCallSession_accepted; try reflexivity.
      simpl. rewrite andb_false_r. reflexivity. }
    rewrite Ea. split; [reflexivity|]. simpl snd.
    exists (CallService.applyUpdate
              (SignalwireWebhook.statusUpdates v callStatus None now') now'
              session').
    split; [|split; reflexivity].
    rewrite sessionById_rows. simpl callSessions.
    change (CallSession.id session') with (CallSession.id session).
    rewrite rewritten_hit.
    rewrite sessionById_rows in Hget'.
    destruct (filter _ (callSessions db')) as [|s rest]; [discriminate Hget'|].
    injection Hget' as ->. reflexivity. }
  split.
  { intros other sid body now' Hbody Hnone.
    unfold SignalwireWebhook.postStatus, SignalwireWebhook.statusHandler.
    rewrite Hbody. simpl. rewrite (bySignalwireSid_none _ _ Hnone). reflexivity. }
  split.
  { intros other unknown sid now' Hnone.
    unfold Webhooks.postCallStarted, Webhooks.callStartedHandler.
    rewrite Hnone. reflexivity. }
  intros other swaigId sid found now' Hf Ht.
  unfold Webhooks.postCallStarted, Webhooks.callStartedHandler.
  rewrite Hf. unfold CallService.updateCallSession. simpl.
  rewrite (sessionStored_In other found (bySwaigId_In _ _ _ Hf)).
  unfold CallService.violation. simpl. rewrite Ht. reflexivity.
Qed.

(** X15 on the store with one session that waits for its agent. *)
Lemma X15_first_callback_reaches_session :
  CallService.getCallSessionBySignalwireSid
    (snd (Webhooks.postCallStarted Scenarios.swaigDb "swaig-1"
            (Some "CA77"%string) 3))
    "CA77"
  = Js.RefObject
      (CallService.applyUpdate
         (Webhooks.callStartedUpdate (Some "CA77"%string)) 3
         Scenarios.swaigSession).
Proof.
  refine (proj1 (proj2 (X15_callStarted_links_status_callbacks
                          Postgres.inStorageOrder Scenarios.swaigDb
                          "swaig-1" "CA77" 3 Scenarios.swaigSession
                          _ eq_refl eq_refl))).
  simpl. constructor; [intros [] | constructor].
Defined.

(** The provider's status callback before [call-started] arrived finds no
    session and is dropped. *)
Example status_before_call_started :
  SignalwireWebhook.postStatus Postgres.inStorageOrder Scenarios.swaigDb
    (SignalwireWebhook.mkStatusBody (Some "CA77") (Some "ringing") None)%string 2
  = (SignalwireWebhook.Success, Scenarios.swaigDb).
Proof. reflexivity. Qed.

Lemma lookup_in_values (table : list (string * string)) (key value : string) :
  SignalwireWebhook.lookup table key = Some value -> In value (map snd table).
Proof.
  induction table as [|[k v] rest IH]; simpl; [discriminate|].
  destruct (String.eqb k key).
  - intros H. injection H as ->. left. reflexivity.
  - intros H. right. apply IH, H.
Qed.

Lemma mapSwaigOutcome_cases (outcome : option string) :
  (exists v, Webhooks.mapSwaigOutcome outcome = Js.JStr v
             /\ In v ["qualified"; "transferred"; "appointment_set"; "no_answer";
                      "not_interested"]%string)
  \/ (Webhooks.mapSwaigOutcome outcome
      = Js.JBuiltin (SignalwireWebhook.propertyKey outcome)
      /\ Js.inherited (SignalwireWebhook.propertyKey outcome) = true).
Proof.
  unfold Webhooks.mapSwaigOutcome, SignalwireWebhook.member.
  destruct (SignalwireWebhook.lookup Webhooks.outcomeMap _) as [v|] eqn:E.
  - left. apply lookup_in_values in E. simpl in E.
    repeat (destruct E as [<-|E]; [eexists; split; [reflexivity | simpl; tauto]|]).
    destruct E.
  - destruct (Js.inherited _) eqn:I.
    + right. split; reflexivity.
    + left. eexists. split; [reflexivity | left; reflexivity].
Qed.

(** X16.  [mapSwaigOutcome] yields one of [qualified], [transferred],
    [appointment_set], [no_answer] and [not_interested] for every outcome
    that is not the name of a member every object inherits, an outcome
    outside the table or none at all counting as [qualified]; for an
    inherited name such as [constructor] it yields the inherited member.
    The [call-ended] webhook closes the session found under the SWAIG
    session id when the mapped outcome is a text and the reported duration
    is absent or an integer the column takes: it answers with success,
    every row with the session's id gets status [completed], whatever the
    agent reports, the end time of the request, the mapped outcome and the
    reported duration, and the transcript event is sent exactly when the
    body carried a transcript.  When the duration is no such integer, or
    the driver refuses the mapped outcome, the handler answers 500, stores
    nothing and sends nothing; for an unknown SWAIG session id it answers
    with success, stores nothing and sends nothing. *)
Theorem X16_callEnded_completes_session :
  forall (pg : Postgres.Executor) (db : Database) (swaigSessionId : string)
         (duration : option Js.jsnum) (outcome : option string)
         (transcript : bool) (now : Z),
    let result :=
      Webhooks.postCallEnded pg db swaigSessionId duration outcome transcript
        now in
    (Js.inherited (SignalwireWebhook.propertyKey outcome) = false ->
     exists v, Webhooks.mapSwaigOutcome outcome = Js.JStr v
               /\ In v ["qualified"; "transferred"; "appointment_set";
                        "no_answer"; "not_interested"]%string)
    /\ (Js.inherited (SignalwireWebhook.propertyKey outcome) = true ->
        Webhooks.mapSwaigOutcome outcome
        = Js.JBuiltin (SignalwireWebhook.propertyKey outcome))
    /\ (~ In (SignalwireWebhook.propertyKey outcome)
             (map fst Webhooks.outcomeMap) ->
        Js.inherited (SignalwireWebhook.propertyKey outcome) = false ->
        Webhooks.mapSwaigOutcome outcome = Js.JStr "qualified")
    /\ (CallStore.getCallSessionBySwaigId db swaigSessionId = Js.RefNull ->
        result = (SignalwireWebhook.Success, db, []))
    /\ (forall session,
          CallStore.getCallSessionBySwaigId db swaigSessionId
          = Js.RefObject session ->
          (forall v,
              Webhooks.mapSwaigOutcome outcome = Js.JStr v ->
              Spec.storable duration = true ->
              exists db',
                result
                = (SignalwireWebhook.Success, db',
                   if transcript
                   then [Webhooks.mkTranscriptReady (CallSession.id session)
                           (CallSession.dealerId session)
                           (CallSession.leadId session)]
                   else [])
                /\ (forall s', In s' (callSessions db') ->
                      CallSession.id s' = CallSession.id session ->
                      CallSession.status s' = "completed"%string
                      /\ CallSession.outcome s' = Some v
                      /\ CallSession.endedAt s' = Some now
                      /\ (forall d, duration = Some (Js.Fin d) ->
                                    CallSession.durationSeconds s' = Some d))
                /\ (forall s, In s (callSessions db) ->
                      CallSession.id s <> CallSession.id session ->
                      In s (callSessions db')))
          /\ (Spec.storable duration = false ->
              result = (SignalwireWebhook.InternalServerError, db, []))
          /\ (forall e,
                Postgres.textParameter pg (Webhooks.mapSwaigOutcome outcome)
                = inl e ->
                result = (SignalwireWebhook.InternalServerError, db, []))).
Proof.
  intros pg db swaigSessionId duration outcome transcript now result.
  split; [|split; [|split; [|split]]].
  - intros Hinh. destruct (mapSwaigOutcome_cases outcome) as [H|[_ H]];
      [exact H | rewrite H in Hinh; discriminate Hinh].
  - intros Hinh. unfold Webhooks.mapSwaigOutcome, SignalwireWebhook.member.
    destruct (SignalwireWebhook.lookup Webhooks.outcomeMap _) as [v|] eqn:E.
    + exfalso. revert E Hinh. generalize (SignalwireWebhook.propertyKey outcome).
      intros key E.
      unfold Webhooks.outcomeMap in E. cbn [SignalwireWebhook.lookup] in E.
      revert E.
      repeat match goal with
             | |- (if String.eqb ?k key then _ else _) = _ -> _ =>
                 destruct (String.eqb_spec k key) as [<-|_];
                 [intros _ Hinh; vm_compute in Hinh; discriminate Hinh|]
             end.
      intros E. discriminate E.
    + rewrite Hinh. reflexivity.
  - intros Hout Hinh. unfold Webhooks.mapSwaigOutcome, SignalwireWebhook.member.
    rewrite lookup_missing by exact Hout. rewrite Hinh. reflexivity.
  - intros Hnone. unfold result, Webhooks.postCallEnded, Webhooks.callEndedHandler.
    rewrite Hnone. reflexivity.
  - intros session Hfound.
    pose proof (bySwaigId_In _ _ _ Hfound) as Hin.
    split; [|split].
    + intros v Hmap Hd.
      exists (CallService.withCallSessions db
                (Spec.rewritten (CallSession.id session)
                   (Webhooks.callEndedUpdate duration (Some v) now) now
                   (callSessions db))).
      split.
      * unfold result, Webhooks.postCallEnded, Webhooks.callEndedHandler.
        rewrite Hfound, Hmap. simpl Postgres.textParameter. unfold bind, ret.
        rewrite updateCallSession_accepted;
          [reflexivity | exact Hd | reflexivity | intros _; reflexivity].
      * simpl callSessions. split.
        -- intros s' Hs' Hid'. unfold Spec.rewritten in Hs'.
           apply in_map_iff in Hs'. destruct Hs' as (s & Es & _).
           destruct (String.eqb_spec (CallSession.id s) (CallSession.id session))
             as [E|NE].
           ++ subst s'. simpl. repeat split. intros d ->. reflexivity.
           ++ subst s'. contradiction.
        -- intros s Hs Hne. unfold Spec.rewritten.
           apply in_map_iff. exists s. split; [|exact Hs].
           destruct (String.eqb_spec (CallSession.id s) (CallSession.id session));
             [contradiction | reflexivity].
    + intros Hd.
      unfold result, Webhooks.postCallEnded, Webhooks.callEndedHandler.
      rewrite Hfound. unfold bind.
      destruct (Postgres.textParameter pg _) as [e|sent]; [reflexivity|].
      apply optionalInteger_refused in Hd. destruct Hd as [e Hd].
      unfold CallService.updateCallSession, bind. simpl CallService.durationSeconds.
      rewrite Hd. reflexivity.
    + intros e He.
      unfold result, Webhooks.postCallEnded, Webhooks.callEndedHandler.
      rewrite Hfound, He. reflexivity.
Qed.

(** A call the agent reports as failed is stored as a completed session
    with the outcome [no_answer]; an outcome named [constructor] is mapped
    to the inherited member, which the driver of the examples refuses. *)
Example callEnded_failed_outcome :
  let result :=
    Webhooks.postCallEnded Postgres.inStorageOrder Scenarios.swaigDb "swaig-1"
      (Some (Js.Fin 0)) (Some "failed"%string) false 9 in
  fst (fst result) = SignalwireWebhook.Success
  /\ map CallSession.status (callSessions (snd (fst result)))
     = ["completed"%string]
  /\ map CallSession.outcome (callSessions (snd (fst result)))
     = [Some "no_answer"%string]
  /\ Webhooks.postCallEnded Postgres.inStorageOrder Scenarios.swaigDb
       "swaig-404" (Some (Js.Fin 0)) (Some "failed"%string) true 9
     = (SignalwireWebhook.Success, Scenarios.swaigDb, [])
  /\ Webhooks.mapSwaigOutcome (Some "constructor"%string)
     = Js.JBuiltin "constructor"
  /\ Webhooks.postCallEnded Postgres.inStorageOrder Scenarios.swaigDb "swaig-1"
       (Some (Js.Fin 0)) (Some "constructor"%string) true 9
     = (SignalwireWebhook.InternalServerError, Scenarios.swaigDb, []).
Proof. repeat split. Qed.

(** ** The pixel webhook *)

Lemma calculateIntentScore_unfold (eventType : string)
    (eventData : list (string * Js.jsval)) :
  PixelWebhook.calculateIntentScore eventType eventData
  = Z.min
      ((match PixelWebhook.lookupScore PixelWebhook.scores eventType with
        | Some v => v
        | None => 0
        end)
       + (if PixelWebhook.longVisit eventData then 10 else 0)
       + (if PixelWebhook.returnVisit eventData then 15 else 0)
       + (if PixelWebhook.savedVehicle eventData then 20 else 0))
      100.
Proof.
  unfold PixelWebhook.calculateIntentScore.
  destruct (PixelWebhook.lookupScore PixelWebhook.scores eventType) as [v|];
    [destruct (Z.eqb_spec v 0) as [->|_]|];
    destruct (PixelWebhook.longVisit eventData),
             (PixelWebhook.returnVisit eventData),
             (PixelWebhook.savedVehicle eventData); f_equal; lia.
Qed.

Lemma lookupScore_none (table : list (string * Z)) (key : string) :
  ~ In key (map fst table) -> PixelWebhook.lookupScore table key = None.
Proof.
  induction table as [|[k v] rest IH]; simpl; intros H; [reflexivity|].
  destruct (String.eqb_spec k key) as [E|_]; [tauto|].
  apply IH. tauto.
Qed.

Lemma existsb_eqb_false (x : string) (l : list string) :
  ~ In x l -> existsb (String.eqb x) l = false.
Proof.
  induction l as [|y rest IH]; simpl; intros H; [reflexivity|].
  destruct (String.eqb_spec x y) as [E|_]; [symmetry in E; tauto|].
  apply IH. tauto.
Qed.

Ltac pick_disjunct :=
  first [reflexivity | split; pick_disjunct | left; pick_disjunct
         | right; pick_disjunct].

Ltac event_type_cases eventType :=
  destruct (String.eqb_spec "page_view" eventType) as [<-|?];
  [|destruct (String.eqb_spec "vehicle_view" eventType) as [<-|?];
    [|destruct (String.eqb_spec "form_started" eventType) as [<-|?];
      [|destruct (String.eqb_spec "form_submitted" eventType) as [<-|?];
        [|destruct (String.eqb_spec "payment_calculator" eventType) as [<-|?];
          [|destruct (String.eqb_spec "trade_in_tool" eventType) as [<-|?];
            [|destruct (String.eqb_spec "finance_preapproval" eventType) as [<-|?];
              [|destruct (String.eqb_spec "test_drive_request" eventType)
                  as [<-|?]]]]]]]].

(** X17.  Which pixel events start a call.  The intent score lies between 0
    and 100.  An event triggers a call exactly when its type is
    [form_submitted], [finance_preapproval], [test_drive_request] or
    [trade_in_tool], or it is a [payment_calculator] event with at least
    one of the three boosts (long visit, return visit, saved vehicle), a
    [form_started] event with a saved vehicle or with both other boosts, or
    a [vehicle_view] event with all three boosts; a [page_view] and an
    event of a type outside the score table never do.  The guard of the
    call event holds only for an event that carries a phone number, and
    with it the guard of the [scoreIntent] call holds as well. *)
Theorem X17_shouldTriggerCall_cases :
  forall (eventType : string) (eventData : list (string * Js.jsval)),
    let score := PixelWebhook.calculateIntentScore eventType eventData in
    let long := PixelWebhook.longVisit eventData in
    let back := PixelWebhook.returnVisit eventData in
    let saved := PixelWebhook.savedVehicle eventData in
    0 <= score <= 100
    /\ (PixelWebhook.shouldTriggerCall eventType score = true
        <-> In eventType PixelWebhook.triggerEvents
            \/ (eventType = "payment_calculator"%string
                /\ long || back || saved = true)
            \/ (eventType = "form_started"%string
                /\ saved || long && back = true)
            \/ (eventType = "vehicle_view"%string
                /\ long && back && saved = true))
    /\ (forall phone email,
          PixelWebhook.triggersCall phone email eventType eventData = true ->
          (exists number, phone = Some number /\ number <> EmptyString)
          /\ PixelWebhook.shouldTriggerCall eventType score = true)
    /\ (forall phone email,
          PixelWebhook.triggersCall phone email eventType eventData = true ->
          PixelWebhook.storesIntentScore phone email eventType eventData = true).
Proof.
  intros eventType eventData score long back saved.
  assert (PixelWebhook.shouldTriggerCall eventType score = true
          <-> In eventType PixelWebhook.triggerEvents
              \/ (eventType = "payment_calculator"%string
                  /\ long || back || saved = true)
              \/ (eventType = "form_started"%string
                  /\ saved || long && back = true)
              \/ (eventType = "vehicle_view"%string
                  /\ long && back && saved = true)) as Hiff.
  { unfold score. rewrite calculateIntentScore_unfold.
    fold long back saved.
    unfold PixelWebhook.shouldTriggerCall, PixelWebhook.triggerEvents.
    clearbody long back saved. clear score.
    event_type_cases eventType;
      try (destruct long, back, saved;
           match goal with
           | |- ?lhs = true <-> _ =>
               let b := eval vm_compute in lhs in change lhs with b
           end;
           simpl In;
           (split; [intros H; first [discriminate H | pick_disjunct]
                   | intros H; first [reflexivity | exfalso; simpl in H;
                                      intuition congruence]])).
    assert (~ In eventType (map fst PixelWebhook.scores)) as Hout
        by (simpl; intuition).
    rewrite (lookupScore_none _ _ Hout).
    assert (existsb (String.eqb eventType)
              ["form_submitted"; "finance_preapproval"; "test_drive_request";
               "trade_in_tool"]%string = false) as ->.
    { apply existsb_eqb_false. intros Hin. apply Hout. simpl in *. tauto. }
    split.
    - destruct long, back, saved; simpl; discriminate.
    - intros H. exfalso. apply Hout. simpl in *.
      intuition (subst; tauto). }
  split; [|split; [exact Hiff|split]].
  - unfold score. rewrite calculateIntentScore_unfold.
    assert (0 <= match PixelWebhook.lookupScore PixelWebhook.scores eventType with
                 | Some v => v
                 | None => 0
                 end) as Hv.
    { assert (forall table, Forall (fun kv => 0 <= snd kv) table ->
                0 <= match PixelWebhook.lookupScore table eventType with
                     | Some v => v
                     | None => 0
                     end) as Hpos.
      { induction 1 as [|[k v] rest Hk _ IH]; simpl; [lia|].
        destruct (String.eqb k eventType); [exact Hk | exact IH]. }
      apply Hpos. repeat constructor; simpl; lia. }
    destruct (PixelWebhook.longVisit eventData),
             (PixelWebhook.returnVisit eventData),
             (PixelWebhook.savedVehicle eventData); lia.
  - intros phone email H. unfold PixelWebhook.triggersCall in H.
    apply andb_prop in H. destruct H as [H Hs].
    apply andb_prop in H. destruct H as [_ Hp].
    split; [|exact Hs].
    destruct phone as [number|]; [|discriminate Hp].
    exists number. split; [reflexivity|].
    intros ->. discriminate Hp.
  - intros phone email H. unfold PixelWebhook.triggersCall in H.
    apply andb_prop in H. destruct H as [H Hs].
    apply andb_prop in H. destruct H as [Hl _].
    unfold PixelWebhook.storesIntentScore. rewrite Hl. simpl.
    fold score. apply Z.leb_le.
    unfold PixelWebhook.shouldTriggerCall in Hs.
    apply orb_prop in Hs. destruct Hs as [Hs|Hs]; [|apply Z.leb_le in Hs; lia].
    unfold score. rewrite calculateIntentScore_unfold.
    unfold PixelWebhook.triggerEvents in Hs. simpl in Hs.
    repeat match type of Hs with
           | (String.eqb eventType ?k || _)%bool = true =>
               destruct (String.eqb_spec eventType k) as [->|_];
               [clear Hs|simpl in Hs]
           end; try discriminate Hs;
      simpl;
      destruct (PixelWebhook.longVisit eventData),
               (PixelWebhook.returnVisit eventData),
               (PixelWebhook.savedVehicle eventData); lia.
Qed.

(** A vehicle view after two minutes on the page by a returning visitor
    who saved no vehicle scores 55: the score is stored, no call starts. *)
Example vehicle_view_without_save :
  let eventData := [("time_on_page", Js.JNum (Js.Fin 300));
                    ("return_visit", Js.JBool true)]%string in
  PixelWebhook.calculateIntentScore "vehicle_view" eventData = 55
  /\ PixelWebhook.storesIntentScore (Some "9195551234"%string) None
       "vehicle_view" eventData = true
  /\ PixelWebhook.triggersCall (Some "9195551234"%string) None
       "vehicle_view" eventData = false.
Proof. repeat split. Qed.

(** ** LeadService: the intent score *)

Lemma num_min_Fin (a b : Z) :
  Leads.num_min (Js.Fin a) (Js.Fin b) = Js.Fin (Z.min a b).
Proof.
  unfold Leads.num_min. simpl.
  destruct (Z.leb_spec a b); f_equal; lia.
Qed.

Lemma orZero_count (factors : list (string * Js.jsval)) (key : string) (n : Z) :
  Terms.factorCount factors key n ->
  Js.Number (Leads.orZero (Js.get_prop factors key)) = Js.Fin n.
Proof.
  intros [[-> ->]|[_ ->]]; [reflexivity|].
  unfold Leads.orZero. simpl.
  destruct (Z.eqb_spec n 0) as [->|_]; reflexivity.
Qed.

Lemma num_min_cap (n : Js.jsnum) (cap : Z) :
  match Leads.num_min n (Js.Fin cap) with
  | Js.Fin s => s <= cap
  | Js.PosInf => False
  | _ => True
  end.
Proof.
  destruct n as [| |z| |m d]; unfold Leads.num_min; simpl; try exact I; try lia.
  - destruct (Z.leb_spec z cap); lia.
  - destruct (m <=? cap * Z.pos d); [exact I | lia].
Qed.

(** X18.  The score [scoreIntent] computes is never above 100 and never
    infinite upwards.  For factors that are absent or non-negative integers
    it is 4 points per page view up to 20, one point per 30 seconds on the
    site up to 20, 10 points per vehicle view up to 30, and 30 points for a
    submitted form or else 15 for a started one; it then lies between 0
    and 100 and reaches 100 exactly with five page views, ten minutes on
    the site, three vehicle views and a submitted form.  The factors the
    pixel handler passes score 0 when the event data carries none of the
    five factor keys, whatever the event type. *)
Theorem X18_intentScoreOf_formula :
  forall (factors : list (string * Js.jsval)) (pageViews timeOnSite vehicleViews : Z),
    Terms.factorCount factors "page_views" pageViews ->
    Terms.factorCount factors "time_on_site" timeOnSite ->
    Terms.factorCount factors "vehicle_views" vehicleViews ->
    let score :=
      Z.min (pageViews * 4) 20 + Z.min (timeOnSite / 30) 20
      + Z.min (vehicleViews * 10) 30 + Terms.formPoints factors in
    Leads.intentScoreOf factors = Js.Fin score
    /\ 0 <= score <= 100
    /\ (score = 100
        <-> 5 <= pageViews /\ 600 <= timeOnSite /\ 3 <= vehicleViews
            /\ Js.truthy (Js.get_prop factors "form_submit") = true)
    /\ (forall anyFactors,
          match Leads.intentScoreOf anyFactors with
          | Js.Fin s => s <= 100
          | Js.PosInf => False
          | _ => True
          end)
    /\ (forall eventType pageUrl eventData,
          (forall key,
              In key ["page_views"; "time_on_site"; "vehicle_views";
                      "form_submit"; "form_started"]%string ->
              Js.get_prop eventData key = Js.JUndefined) ->
          Leads.intentScoreOf (Leads.pixelFactors eventType pageUrl eventData)
          = Js.Fin 0).
Proof.
  intros factors pv t vv Hpv Ht Hvv score.
  assert (0 <= pv) as Hpv0 by (destruct Hpv as [[_ ->]|[H _]]; lia).
  assert (0 <= t) as Ht0 by (destruct Ht as [[_ ->]|[H _]]; lia).
  assert (0 <= vv) as Hvv0 by (destruct Hvv as [[_ ->]|[H _]]; lia).
  assert (0 <= t / 30) as Hdiv by (apply Z.div_pos; lia).
  assert (0 <= Terms.formPoints factors <= 30) as Hform.
  { unfold Terms.formPoints.
    destruct (Js.truthy (Js.get_prop factors "form_submit"));
      [|destruct (Js.truthy (Js.get_prop factors "form_started"))]; lia. }
  split; [|split; [|split; [|split]]].
  - unfold Leads.intentScoreOf.
    rewrite (orZero_count _ _ _ Hpv), (orZero_count _ _ _ Ht),
      (orZero_count _ _ _ Hvv).
    cbn [Js.num_mul Leads.floorDiv30]. rewrite !num_min_Fin.
    cbn [Js.num_add]. unfold score, Terms.formPoints.
    destruct (Js.truthy (Js.get_prop factors "form_submit"));
      [|destruct (Js.truthy (Js.get_prop factors "form_started"))];
      cbn [Js.num_add]; rewrite num_min_Fin; f_equal; lia.
  - unfold score. lia.
  - unfold score. split.
    + intros H.
      assert (Terms.formPoints factors = 30) as Hf by lia.
      assert (20 <= pv * 4) by lia. assert (20 <= t / 30) by lia.
      assert (30 <= vv * 10) by lia.
      repeat split; try lia.
      * destruct (Z.lt_ge_cases t 600) as [Hlt|]; [|assumption].
        assert (t / 30 < 20) by (apply Z.div_lt_upper_bound; lia). lia.
      * unfold Terms.formPoints in Hf.
        destruct (Js.truthy (Js.get_prop factors "form_submit"));
          [reflexivity|].
        destruct (Js.truthy (Js.get_prop factors "form_started")); lia.
    + intros (H1 & H2 & H3 & H4).
      assert (20 <= t / 30) by (apply Z.div_le_lower_bound; lia).
      unfold Terms.formPoints. rewrite H4. lia.
  - intros anyFactors. unfold Leads.intentScoreOf. apply num_min_cap.
  - intros eventType pageUrl eventData Hnone.
    assert (forall key,
               In key ["page_views"; "time_on_site"; "vehicle_views";
                       "form_submit"; "form_started"]%string ->
               Js.get_prop (Leads.pixelFactors eventType pageUrl eventData) key
               = Js.JUndefined) as Hget.
    { intros key Hkey. unfold Leads.pixelFactors.
      specialize (Hnone key Hkey). revert Hnone.
      induction eventData as [|[k v] rest IH]; simpl.
      - intros _. simpl in Hkey.
        repeat (destruct Hkey as [<-|Hkey]; [reflexivity|]). destruct Hkey.
      - destruct (String.eqb k key); [auto | exact IH]. }
    unfold Leads.intentScoreOf.
    rewrite !Hget by (simpl; tauto). reflexivity.
Qed.

(** X18 on a visitor with three page views, two minutes on the site, one
    vehicle view and a started form: 12 + 4 + 10 + 15 points. *)
Lemma X18_started_form_scores_41 :
  Leads.intentScoreOf
    [("page_views", Js.JNum (Js.Fin 3)); ("time_on_site", Js.JNum (Js.Fin 120));
     ("vehicle_views", Js.JNum (Js.Fin 1)); ("form_started", Js.JBool true)]%string
  = Js.Fin 41.
Proof.
  refine (proj1 (X18_intentScoreOf_formula _ 3 120 1 _ _ _));
    right; split; (lia || reflexivity).
Defined.

(** ** LeadService: stored scores, ownership and status *)

Lemma existsb_eqb_id_false (rows : list Leads.Lead.t) (leadId : string) :
  (forall lead, In lead rows -> Leads.Lead.id lead <> leadId) ->
  existsb (fun l => String.eqb (Leads.Lead.id l) leadId) rows = false.
Proof.
  intros H. destruct (existsb _ rows) eqn:E; [|reflexivity].
  apply existsb_exists in E. destruct E as (l & Hin & Hid).
  apply String.eqb_eq in Hid. contradiction (H l Hin).
Qed.

(** X19.  A score that [scoreIntent] stored at a time later than every
    earlier score of the lead is what [getLatestIntentScore] returns for
    the lead afterwards, with the factors it was computed from; the score
    returned is the computed one, a lead with the id is stored, and the latest score of
    every other lead and the leads themselves are as before.  For a lead
    that is not stored the call fails and stores nothing. *)
Theorem X19_scoreIntent_is_latest :
  forall (tables : Leads.Tables) (leadId : string)
         (factors : list (string * Js.jsval)) (now score : Z)
         (tables' : Leads.Tables),
    Leads.scoreIntent tables leadId factors now = inr (score, tables') ->
    (forall s, In s (Leads.leadIntentScores tables) ->
               Leads.IntentScore.leadId s = leadId ->
               Leads.IntentScore.scoredAt s < now) ->
    Leads.getLatestIntentScore tables' leadId
    = Js.RefObject (Leads.IntentScore.mk leadId score factors now)
    /\ Leads.intentScoreOf factors = Js.Fin score
    /\ score <= 100
    /\ (exists lead, In lead (Leads.leads tables)
                     /\ Leads.Lead.id lead = leadId)
    /\ Leads.leads tables' = Leads.leads tables
    /\ (forall other, other <> leadId ->
          Leads.getLatestIntentScore tables' other
          = Leads.getLatestIntentScore tables other)
    /\ (forall (anyTables : Leads.Tables) (unknown : string) anyFactors time,
          (forall lead, In lead (Leads.leads anyTables) ->
                        Leads.Lead.id lead <> unknown) ->
          exists e, Leads.scoreIntent anyTables unknown anyFactors time = inl e).
Proof.
  intros tables leadId factors now score tables' H Hlater.
  unfold Leads.scoreIntent in H.
  destruct (Leads.intentScoreOf factors) as [| |s| |m d] eqn:Es;
    try discriminate H.
  destruct (s <? -2147483648); [discriminate H|].
  destruct (existsb _ (Leads.leads tables)) eqn:Ex; [|discriminate H].
  injection H as <- <-.
  split; [|split; [reflexivity|split; [|split; [|split; [reflexivity|split]]]]].
  - unfold Leads.getLatestIntentScore, Drizzle.findMany. simpl.
    rewrite filter_app. simpl. rewrite String.eqb_refl.
    set (new := Leads.IntentScore.mk leadId s factors now).
    set (old := filter _ (Leads.leadIntentScores tables)).
    destruct (Js.sort_desc Leads.scoredAt_geb (old ++ [new])) as [|a rest] eqn:E.
    + apply sort_desc_nil in E. destruct old; discriminate E.
    + apply (sort_desc_head Leads.IntentScore.scoredAt) in E.
      destruct E as [Hin Hmax]. f_equal.
      apply in_app_or in Hin. destruct Hin as [Hin|[<-|[]]]; [|reflexivity].
      exfalso.
      assert (Leads.IntentScore.scoredAt new <= Leads.IntentScore.scoredAt a) as Hle
          by (apply Hmax, in_or_app; right; left; reflexivity).
      unfold old in Hin. apply filter_In in Hin. destruct Hin as [Hin Hl].
      apply String.eqb_eq in Hl. specialize (Hlater a Hin Hl).
      simpl in Hle. lia.
  - assert (match Leads.intentScoreOf factors with
            | Js.Fin z => z <= 100
            | Js.PosInf => False
            | _ => True
            end) as Hcap by (unfold Leads.intentScoreOf; apply num_min_cap).
    rewrite Es in Hcap. exact Hcap.
  - apply existsb_exists in Ex. destruct Ex as (lead & Hin & Hid).
    exists lead. split; [exact Hin | apply String.eqb_eq, Hid].
  - intros other Hne. unfold Leads.getLatestIntentScore, Drizzle.findMany.
    simpl. rewrite filter_app. simpl.
    destruct (String.eqb_spec leadId other) as [E|_]; [congruence|].
    rewrite app_nil_r. reflexivity.
  - intros anyTables unknown anyFactors time Hnone.
    unfold Leads.scoreIntent.
    destruct (Leads.intentScoreOf anyFactors) as [| |z| |m d];
      try (eexists; reflexivity).
    destruct (z <? -2147483648); [eexists; reflexivity|].
    rewrite existsb_eqb_id_false; [eexists; reflexivity | exact Hnone].
Qed.

(** X19 on the first score of a stored lead. *)
Lemma X19_first_score_is_latest :
  Leads.getLatestIntentScore
    (Leads.mkTables [Scenarios.aiLead] []
       [Leads.IntentScore.mk "lead-1" 30
          [("form_submit", Js.JBool true)]%string 5])
    "lead-1"
  = Js.RefObject
      (Leads.IntentScore.mk "lead-1" 30 [("form_submit", Js.JBool true)]%string 5).
Proof.
  refine (proj1 (X19_scoreIntent_is_latest Scenarios.oneLead "lead-1"
                   [("form_submit", Js.JBool true)]%string 5 30 _ eq_refl _)).
  intros s [].
Defined.

Lemma getLead_throws (tables : Leads.Tables) (leadId : string) :
  Leads.getLead tables leadId = inl (Leads.Raised Terms.inverseMissing).
Proof. reflexivity. Qed.

(** X20.  [getLead] asks for the relation [identities] of the lead, which
    the schema declares on leads without its inverse on the identities: on
    every store and for every id the query builder throws [Error('There is
    not enough information to infer relation ...')] before a row is read.
    [transferToHuman] starts with [getLead] and so fails with that error on
    every input: it reports neither [LeadNotFoundError] nor
    [LeadOwnershipError], and it hands no lead over. *)
Theorem X20_transferToHuman_never_hands_over :
  forall (tables : Leads.Tables) (leadId userId : string) (now : Z),
    Leads.getLead tables leadId
    = inl (Leads.Raised
             (PlainError
                ("There is not enough information to infer relation "
                 ++ Drizzle.doubleQuote ++ "leads.identities"
                 ++ Drizzle.doubleQuote)))
    /\ Leads.transferToHuman tables leadId userId now
       = inl (Leads.Raised Terms.inverseMissing)
    /\ Leads.transferToHuman tables leadId userId now
       <> inl (Leads.LeadNotFoundError leadId)
    /\ (forall reason,
          Leads.transferToHuman tables leadId userId now
          <> inl (Leads.LeadOwnershipError leadId reason))
    /\ (forall result,
          Leads.transferToHuman tables leadId userId now <> inr result).
Proof.
  intros tables leadId userId now.
  assert (Leads.transferToHuman tables leadId userId now
          = inl (Leads.Raised Terms.inverseMissing)) as E
      by (unfold Leads.transferToHuman; rewrite getLead_throws; reflexivity).
  split; [reflexivity|]. split; [exact E|]. rewrite E.
  repeat split; intros; discriminate.
Qed.

(** A lead the assistant owns is not handed over either. *)
Example transferToHuman_of_ai_lead :
  Leads.transferToHuman Scenarios.oneLead "lead-1" "rep-1" 9
  = inl (Leads.Raised Terms.inverseMissing)
  /\ Leads.Lead.ownedBy Scenarios.aiLead = "ai"%string.
Proof. split; reflexivity. Qed.

Lemma validStatuses_In (status : string) :
  existsb (String.eqb status) Leads.validStatuses = true
  <-> In status Leads.validStatuses.
Proof.
  rewrite existsb_exists. split.
  - intros (x & Hin & E). apply String.eqb_eq in E. subst x. exact Hin.
  - intros Hin. exists status. split; [exact Hin | apply String.eqb_refl].
Qed.

(** X21.  [updateStatus] refuses a status outside the eight lead statuses
    with [ValidationError] before any query is made.  With one of the eight
    it calls [updateLead], and [updateLead] starts with [getLead]: both
    then fail with the query builder's error on every store, for every
    lead id and input, so neither of them rewrites a lead. *)
Theorem X21_lead_updates_fail :
  forall (tables : Leads.Tables) (leadId status : string)
         (input : Leads.UpdateLeadInput) (now : Z),
    (In status Leads.validStatuses ->
     Leads.updateStatus tables leadId status now
     = inl (Leads.Raised Terms.inverseMissing))
    /\ (~ In status Leads.validStatuses ->
        Leads.updateStatus tables leadId status now
        = inl (Leads.Raised
                 (Thrown (ValidationError
                            ("Invalid lead status: " ++ status)%string))))
    /\ Leads.updateLead tables leadId input now
       = inl (Leads.Raised Terms.inverseMissing)
    /\ (forall result,
          Leads.updateStatus tables leadId status now <> inr result
          /\ Leads.updateLead tables leadId input now <> inr result).
Proof.
  intros tables leadId status input now.
  assert (forall i, Leads.updateLead tables leadId i now
                    = inl (Leads.Raised Terms.inverseMissing)) as Hu
      by (intros i; unfold Leads.updateLead; rewrite getLead_throws; reflexivity).
  assert (In status Leads.validStatuses ->
          Leads.updateStatus tables leadId status now
          = inl (Leads.Raised Terms.inverseMissing)) as Hvalid.
  { intros Hin. unfold Leads.updateStatus.
    apply validStatuses_In in Hin. rewrite Hin. simpl. apply Hu. }
  assert (~ In status Leads.validStatuses ->
          Leads.updateStatus tables leadId status now
          = inl (Leads.Raised
                   (Thrown (ValidationError
                              ("Invalid lead status: " ++ status)%string))))
    as Hinvalid.
  { intros Hnot. unfold Leads.updateStatus.
    destruct (existsb (String.eqb status) Leads.validStatuses) eqn:E;
      [apply validStatuses_In in E; contradiction | reflexivity]. }
  split; [exact Hvalid|]. split; [exact Hinvalid|]. split; [apply Hu|].
  intros result. split; [|rewrite Hu; discriminate].
  destruct (existsb (String.eqb status) Leads.validStatuses) eqn:E.
  - rewrite Hvalid by (apply validStatuses_In, E). discriminate.
  - rewrite Hinvalid; [discriminate|].
    intros Hin. apply validStatuses_In in Hin. rewrite Hin in E. discriminate E.
Qed.

(** A stored lead set to [contacted], and to a status that is none. *)
Example updateStatus_of_stored_lead :
  Leads.updateStatus Scenarios.oneLead "lead-1" "contacted" 9
  = inl (Leads.Raised Terms.inverseMissing)
  /\ Leads.updateStatus Scenarios.oneLead "lead-1" "archived" 9
     = inl (Leads.Raised
              (Thrown (ValidationError "Invalid lead status: archived"))).
Proof. split; reflexivity. Qed.

(** ** LeadService: identity resolution *)















(** Without a phone number and an e-mail address nothing identifies the
    visitor: every call creates another lead. *)
Example resolveOrCreateLead_without_identity :
  let anonymous :=
    {| Leads.dealerId := "dealer-1"; Leads.phone := None; Leads.email := None;
       Leads.cookieId := Some "ck-1"; Leads.ipAddress := None;
       Leads.deviceId := None; Leads.storeId := None; Leads.firstName := None;
       Leads.lastName := None; Leads.department := None;
       Leads.vehicleOfInterest := None; Leads.source := "website";
       Leads.sourceDetail := None; Leads.metadata := None |}%string in
  exists lead1 tables1 lead2 tables2,
    Leads.resolveOrCreateLead (fun s => s) (Leads.mkTables [] [] []) anonymous
      "lead-1" 1 = inr (lead1, tables1)
    /\ Leads.resolveOrCreateLead (fun s => s) tables1 anonymous "lead-2" 2
       = inr (lead2, tables2)
    /\ map Leads.Lead.id (Leads.leads tables2) = ["lead-1"; "lead-2"]%string.
Proof. eexists _, _, _, _. repeat split. Qed.

(** ** LeadService: adding an opt-out *)

Lemma findFirst_app_right {A : Type} (where_ : A -> bool) (rows : list A) (a : A) :
  where_ a = false ->
  Drizzle.findFirst where_ (rows ++ [a]) = Drizzle.findFirst where_ rows.
Proof.
  intros H. unfold Drizzle.findFirst. rewrite filter_app. simpl.
  rewrite H, app_nil_r. reflexivity.
Qed.

Lemma findFirst_app_found {A : Type} (where_ : A -> bool) (rows : list A) (a : A) :
  where_ a = true ->
  exists found, Drizzle.findFirst where_ (rows ++ [a]) = Js.RefObject found.
Proof.
  intros H. unfold Drizzle.findFirst. rewrite filter_app. simpl. rewrite H.
  destruct (filter where_ rows); eexists; reflexivity.
Qed.

(** X23.  [addOptOut] refuses a contact without phone and e-mail address.
    Otherwise it appends one record and touches no other table.  A record
    added for a phone number is found by the opt-out lookup of the dealer
    for every spelling of the number with the same digits, on the channel
    of the record or on every channel when its type is [all]; it is not
    what the lookup finds for another dealer.  A record added for an e-mail
    address alone is found by no phone lookup. *)
Theorem X23_addOptOut_is_found :
  forall (normalize : string -> string) (db : Database) (dealerId : string)
         (phone email : option string) (type : string) (reason : option string)
         (newId : string),
    (Webhooks.truthyText phone = false -> Webhooks.truthyText email = false ->
     Leads.addOptOut normalize db dealerId phone email type reason newId
     = inl (Thrown (ValidationError "Must provide phone or email for opt-out")))
    /\ (Webhooks.truthyText phone || Webhooks.truthyText email = true ->
        exists db',
          Leads.addOptOut normalize db dealerId phone email type reason newId
          = inr db'
          /\ List.length (optOuts db') = S (List.length (optOuts db))
          /\ callSessions db' = callSessions db
          /\ callAttempts db' = callAttempts db
          /\ dealers db' = dealers db
          /\ (forall number spelled channel,
                phone = Some number -> number <> EmptyString ->
                Js.strip_non_digits spelled = Js.strip_non_digits number ->
                type = LeadService.channel_name channel
                \/ type = "all"%string ->
                exists record,
                  Drizzle.findFirst
                    (LeadService.optOutWhere dealerId (toE164 spelled) channel)
                    (optOuts db')
                  = Js.RefObject record)
          /\ (forall otherDealer anyPhone channel,
                otherDealer <> dealerId ->
                Drizzle.findFirst
                  (LeadService.optOutWhere otherDealer anyPhone channel)
                  (optOuts db')
                = Drizzle.findFirst
                    (LeadService.optOutWhere otherDealer anyPhone channel)
                    (optOuts db))
          /\ (Webhooks.truthyText phone = false ->
              forall anyDealer anyPhone channel,
                Drizzle.findFirst
                  (LeadService.optOutWhere anyDealer anyPhone channel)
                  (optOuts db')
                = Drizzle.findFirst
                    (LeadService.optOutWhere anyDealer anyPhone channel)
                    (optOuts db))).
Proof.
  intros normalize db dealerId phone email type reason newId.
  split.
  - intros Hp He. unfold Leads.addOptOut. rewrite Hp, He. reflexivity.
  - intros Hsome. unfold Leads.addOptOut.
    destruct (negb (Webhooks.truthyText phone)
              && negb (Webhooks.truthyText email)) eqn:E.
    { apply andb_prop in E. destruct E as [E1 E2].
      apply negb_true_iff in E1, E2. rewrite E1, E2 in Hsome.
      discriminate Hsome. }
    eexists. split; [reflexivity|]. simpl.
    repeat match goal with |- _ /\ _ => split end; try reflexivity.
    + rewrite length_app. simpl. lia.
    + intros number spelled channel -> Hne Hd Htype.
      apply findFirst_app_found.
      unfold LeadService.optOutWhere, Leads.whenTruthy. simpl.
      destruct (String.eqb_spec number EmptyString); [contradiction|].
      simpl. rewrite String.eqb_refl.
      replace (toE164 spelled) with (toE164 number)
        by (rewrite !toE164_digits, Hd; reflexivity).
      rewrite String.eqb_refl. simpl.
      destruct Htype as [->| ->].
      * rewrite String.eqb_refl. reflexivity.
      * apply orb_true_r.
    + intros otherDealer anyPhone channel Hne.
      apply findFirst_app_right.
      unfold LeadService.optOutWhere. simpl.
      destruct (String.eqb_spec dealerId otherDealer) as [E'|_];
        [congruence | reflexivity].
    + intros Hp anyDealer anyPhone channel.
      apply findFirst_app_right.
      unfold LeadService.optOutWhere, Leads.whenTruthy. simpl.
      destruct phone as [number|]; simpl.
      * simpl in Hp. apply negb_false_iff in Hp. rewrite Hp. simpl.
        rewrite andb_false_r. reflexivity.
      * rewrite andb_false_r. reflexivity.
Qed.

(** An opt-out from text messages is not what the lookup for calls finds. *)
Example addOptOut_other_channel :
  exists db',
    Leads.addOptOut (fun s => s) Examples.quietDb "dealer-1"
      (Some "(919) 555-1234"%string) None "sms" None "opt-1" = inr db'
    /\ Drizzle.findFirst
         (LeadService.optOutWhere "dealer-1" (toE164 "919-555-1234")
            LeadService.call)
         (optOuts db') = Js.RefUndefined
    /\ (exists record,
          Drizzle.findFirst
            (LeadService.optOutWhere "dealer-1" (toE164 "919-555-1234")
               LeadService.sms)
            (optOuts db') = Js.RefObject record).
Proof. eexists. repeat split. eexists. reflexivity. Qed.

(** ** The trigger-call job *)

(** X24.  The trigger-call job never gets past its checks.  Whatever the
    stores hold, a run ends before the steps that check the rate limits,
    pick a number, create an attempt and place the call: it fails with the
    error of the calling-window step, it is skipped outside the calling
    window, and inside the window the second step fails at its first
    statement, [getLead], with the query builder's error, for every lead,
    stored or not, before the phone number or the opt-outs are looked at.
    The result of a run therefore does not depend on the remaining
    steps. *)
Theorem X24_triggerCall_stops_at_checks :
  forall (A : Type) (tz : DealerService.TzDatabase) (db : Database)
         (tables : Leads.Tables) (dealer_id lead_id : string) (date : Z)
         (rest : Leads.Lead.t -> TriggerCallJob.Run A),
    (forall rest' : Leads.Lead.t -> TriggerCallJob.Run A,
        TriggerCallJob.triggerCall tz db tables dealer_id lead_id date rest
        = TriggerCallJob.triggerCall tz db tables dealer_id lead_id date rest')
    /\ (forall a : A,
          TriggerCallJob.triggerCall tz db tables dealer_id lead_id date
            (fun _ => TriggerCallJob.Continued a)
          <> TriggerCallJob.Continued a)
    /\ (forall e,
          DealerService.isWithinCallingWindow tz db dealer_id date = inl e ->
          TriggerCallJob.triggerCall tz db tables dealer_id lead_id date rest
          = TriggerCallJob.Failed (Leads.Raised e))
    /\ (DealerService.isWithinCallingWindow tz db dealer_id date = inr false ->
        TriggerCallJob.triggerCall tz db tables dealer_id lead_id date rest
        = TriggerCallJob.Skipped "outside_calling_hours" false)
    /\ (DealerService.isWithinCallingWindow tz db dealer_id date = inr true ->
        TriggerCallJob.triggerCall tz db tables dealer_id lead_id date rest
        = TriggerCallJob.Failed (Leads.Raised Terms.inverseMissing))
    /\ TriggerCallJob.getLeadAndCheckOptout db tables dealer_id lead_id
       = inl (Leads.Raised
                (PlainError
                   ("There is not enough information to infer relation "
                    ++ Drizzle.doubleQuote ++ "leads.identities"
                    ++ Drizzle.doubleQuote))).
Proof.
  intros A tz db tables dealer_id lead_id date rest.
  assert (TriggerCallJob.getLeadAndCheckOptout db tables dealer_id lead_id
          = inl (Leads.Raised Terms.inverseMissing)) as Hstep
      by (unfold TriggerCallJob.getLeadAndCheckOptout;
          rewrite getLead_throws; reflexivity).
  assert (forall B (k : Leads.Lead.t -> TriggerCallJob.Run B),
             TriggerCallJob.triggerCall tz db tables dealer_id lead_id date k
             = match DealerService.isWithinCallingWindow tz db dealer_id date with
               | inl e => TriggerCallJob.Failed (Leads.Raised e)
               | inr canCall =>
                   if negb canCall
                   then TriggerCallJob.Skipped "outside_calling_hours" false
                   else TriggerCallJob.Failed (Leads.Raised Terms.inverseMissing)
               end) as Hrun.
  { intros B k. unfold TriggerCallJob.triggerCall. rewrite Hstep.
    reflexivity. }
  split; [|split; [|split; [|split; [|split]]]].
  - intros rest'. rewrite !Hrun. reflexivity.
  - intros a. rewrite Hrun.
    destruct (DealerService.isWithinCallingWindow tz db dealer_id date)
      as [e|canCall]; [discriminate|].
    destruct (negb canCall); discriminate.
  - intros e Hw. rewrite Hrun, Hw. reflexivity.
  - intros Hw. rewrite Hrun, Hw. reflexivity.
  - intros Hw. rewrite Hrun, Hw. reflexivity.
  - exact Hstep.
Qed.

(** A run at noon New York time on a Monday, for a stored lead with a phone
    number and a dealer without any opt-out record. *)
Example triggerCall_on_quiet_store :
  TriggerCallJob.triggerCall Examples.fixedOffsets Examples.quietDb
    Scenarios.oneLead "dealer-1" "lead-1" (4 * 86400000 + 17 * 3600000)
    (fun lead => TriggerCallJob.Continued lead)
  = TriggerCallJob.Failed (Leads.Raised Terms.inverseMissing).
Proof. reflexivity. Qed.

(** ** Dealer numbers *)

Lemma find_some_filter {A : Type} (p : A -> bool) (l : list A) (a : A) :
  find p l = Some a <-> exists rest, filter p l = a :: rest.
Proof.
  induction l as [|x xs IH]; simpl.
  - split; [discriminate | intros [rest H]; discriminate H].
  - destruct (p x).
    + split.
      * intros H. injection H as ->. eexists. reflexivity.
      * intros [rest H]. injection H as -> _. reflexivity.
    + exact IH.
Qed.

(** X25.  The outbound number of the service and the number the job dials
    from.  [getPrimaryOutboundNumber] returns the first active number of
    the dealer whose purpose is [outbound] or [both], a member of
    [getActiveNumbers], and throws exactly when the dealer has no such
    number.  Step ['get-dealer-number'] of the job returns the first active
    number of the dealer whatever its purpose, and throws exactly when the
    dealer has no active number; the two agree exactly when that first
    active number is for outbound calls. *)
Theorem X25_outbound_number :
  forall (numbers : list DealerNumbers.DealerNumber.t) (dealerId : string),
    let active := DealerNumbers.getActiveNumbers numbers dealerId in
    let outbound :=
      fun n => String.eqb (DealerNumbers.DealerNumber.purpose n) "outbound"
               || String.eqb (DealerNumbers.DealerNumber.purpose n) "both" in
    (forall n, In n active <->
               In n numbers
               /\ DealerNumbers.DealerNumber.dealerId n = dealerId
               /\ DealerNumbers.DealerNumber.status n = "active"%string)
    /\ (forall n,
          DealerNumbers.getPrimaryOutboundNumber numbers dealerId = inr n
          <-> exists rest, filter outbound active = n :: rest)
    /\ (DealerNumbers.getPrimaryOutboundNumber numbers dealerId
        = inl (PlainError
                 ("No outbound phone number found for dealer " ++ dealerId))
        <-> forall n, In n active -> outbound n = false)
    /\ (forall n,
          DealerNumbers.getDealerNumberStep numbers dealerId = inr n
          <-> exists rest, active = n :: rest)
    /\ (DealerNumbers.getDealerNumberStep numbers dealerId
        = inl (PlainError "No active dealer phone number found")
        <-> active = [])
    /\ (forall n,
          DealerNumbers.getDealerNumberStep numbers dealerId = inr n ->
          (DealerNumbers.getPrimaryOutboundNumber numbers dealerId = inr n
           <-> outbound n = true)).
Proof.
  intros numbers dealerId active outbound.
  assert (forall n,
             DealerNumbers.getPrimaryOutboundNumber numbers dealerId = inr n
             <-> exists rest, filter outbound active = n :: rest) as Hprimary.
  { intros n. unfold DealerNumbers.getPrimaryOutboundNumber.
    fold active. fold outbound. rewrite <- find_some_filter.
    destruct (find outbound active) as [m|].
    - split; intros H; injection H as ->; reflexivity.
    - split; discriminate. }
  assert (forall n,
             DealerNumbers.getDealerNumberStep numbers dealerId = inr n
             <-> exists rest, active = n :: rest) as Hstep.
  { intros n. unfold DealerNumbers.getDealerNumberStep.
    fold (DealerNumbers.getActiveNumbers numbers dealerId). fold active.
    destruct active as [|m rest].
    - split; [discriminate | intros [r H]; discriminate H].
    - split.
      + intros H. injection H as ->. eexists. reflexivity.
      + intros [r H]. injection H as -> _. reflexivity. }
  split; [|split; [exact Hprimary|split; [|split; [exact Hstep|split]]]].
  - intros n. unfold active, DealerNumbers.getActiveNumbers, Drizzle.findMany.
    rewrite filter_In, andb_true_iff, !String.eqb_eq. tauto.
  - unfold DealerNumbers.getPrimaryOutboundNumber. fold active. fold outbound.
    destruct (find outbound active) as [m|] eqn:E.
    + split; [discriminate|]. intros Hnone. exfalso.
      apply find_some in E. destruct E as [Hin Hm].
      rewrite (Hnone m Hin) in Hm. discriminate Hm.
    + split; [|reflexivity]. intros _ n Hin.
      apply (find_none _ _ E n Hin).
  - unfold DealerNumbers.getDealerNumberStep.
    fold (DealerNumbers.getActiveNumbers numbers dealerId). fold active.
    destruct active; split; (reflexivity || discriminate).
  - intros n Hn. apply Hstep in Hn. destruct Hn as [rest Ea].
    rewrite Hprimary, Ea. simpl.
    destruct (outbound n) eqn:Eo.
    + split; [reflexivity|]. intros _. eexists. reflexivity.
    + split; [|discriminate]. intros [r H].
      assert (In n (filter outbound rest)) as Hin
          by (rewrite H; left; reflexivity).
      apply filter_In in Hin. destruct Hin as [_ Hin].
      rewrite Eo in Hin. discriminate Hin.
Qed.

(** A dealer whose first active number takes inbound calls only: the
    service picks the outbound number, the job step the inbound one. *)
Example job_dials_from_inbound_number :
  let numbers :=
    [ DealerNumbers.DealerNumber.mk "n-1" "dealer-1" "+19195550100" "inbound"
        "active";
      DealerNumbers.DealerNumber.mk "n-2" "dealer-1" "+19195550101" "outbound"
        "active" ]%string in
  option_map DealerNumbers.DealerNumber.id
    (match DealerNumbers.getPrimaryOutboundNumber numbers "dealer-1" with
     | inr n => Some n
     | inl _ => None
     end) = Some "n-2"%string
  /\ option_map DealerNumbers.DealerNumber.id
       (match DealerNumbers.getDealerNumberStep numbers "dealer-1" with
        | inr n => Some n
        | inl _ => None
        end) = Some "n-1"%string.
Proof. split; reflexivity. Qed.

(** ** The agent's tools *)

(** X26.  [initiateTransfer] never starts a transfer.  On a validated
    body its first query is [getCallSession], which throws, so the [catch]
    block answers with 500 [Internal server error] whatever the stores
    hold: whether or not the session, the rep and an active number of the
    dealer exist, no rep is looked up or dialled, no answer is a 404, and
    the store is left as it was. *)
Theorem X26_initiateTransfer_always_fails :
  forall (db : Database) (numbers : list DealerNumbers.DealerNumber.t)
         (call_session_id dealer_id user_id : string) (dialed : bool) (now : Z),
    Tools.initiateTransfer db numbers call_session_id dealer_id user_id dialed
      now
    = (Tools.TransferFailed, db)
    /\ (forall conference_name rep_name,
          fst (Tools.initiateTransfer db numbers call_session_id dealer_id
                 user_id dialed now)
          <> Tools.TransferStarted conference_name rep_name)
    /\ (forall error,
          fst (Tools.initiateTransfer db numbers call_session_id dealer_id
                 user_id dialed now)
          <> Tools.TransferNotFound error)
    /\ CallService.getCallSession db call_session_id
       = inl (TypeError
                "Cannot read properties of undefined (reading 'referencedTable')").
Proof.
  intros db numbers sid dealer_id user_id dialed now.
  assert (Tools.initiateTransfer db numbers sid dealer_id user_id dialed now
          = (Tools.TransferFailed, db)) as E
      by (unfold Tools.initiateTransfer; rewrite getCallSession_throws;
          reflexivity).
  rewrite E. repeat split; intros; discriminate.
Qed.

(** A transfer of a stored session to a stored rep of the dealer, with an
    active number and a rep who could be dialled. *)
Example initiateTransfer_to_stored_rep :
  let db :=
    mkDatabase [Examples.dealer1] [Examples.rep "rep-a" "new" true] [] [] []
      [Examples.sessionWithStatus "cs-1" "CA1" "answered"] [] in
  let numbers :=
    [DealerNumbers.DealerNumber.mk "n-1" "dealer-1" "+19195550100" "outbound"
       "active"]%string in
  Tools.initiateTransfer db numbers "cs-1" "dealer-1" "rep-a" true 3
  = (Tools.TransferFailed, db).
Proof. reflexivity. Qed.

(** X27.  [lookupLead] answers from the dealer and the digits of the phone
    number.  For a dealer that is not stored it answers with the server
    error of its [catch] block, never with a ['Dealer not found'] body.
    For a stored dealer it answers that no lead record exists exactly when
    no lead of the dealer carries the normalised number; otherwise it
    returns the first such lead with its latest intent score, or 0 when the
    lead has no score.  Two spellings of a number with the same digits get
    the same answer. *)
Theorem X27_lookupLead_cases :
  forall (db : Database) (tables : Leads.Tables) (dealer_id phone : string),
    Tools.lookupLead db tables dealer_id phone <> Tools.DealerNotFoundMessage
    /\ ((forall dealer, In dealer (dealers db) -> Dealer.id dealer <> dealer_id) ->
        Tools.lookupLead db tables dealer_id phone = Tools.LookupFailed)
    /\ (forall dealer,
          DealerService.getDealer db dealer_id = inr dealer ->
          (Tools.lookupLead db tables dealer_id phone
           = Tools.NoLeadRecord (Dealer.name dealer)
           <-> forall lead, In lead (Leads.leads tables) ->
                 Leads.Lead.dealerId lead = dealer_id ->
                 Leads.Lead.phone lead <> Some (toE164 phone))
          /\ (forall lead intent_score dealer_name timezone,
                Tools.lookupLead db tables dealer_id phone
                = Tools.LeadFound lead intent_score dealer_name timezone ->
                In lead (Leads.leads tables)
                /\ Leads.Lead.dealerId lead = dealer_id
                /\ Leads.Lead.phone lead = Some (toE164 phone)
                /\ dealer_name = Dealer.name dealer
                /\ timezone = Dealer.timezone dealer
                /\ ((Leads.getLatestIntentScore tables (Leads.Lead.id lead)
                     = Js.RefNull /\ intent_score = 0)
                    \/ exists latest,
                         Leads.getLatestIntentScore tables (Leads.Lead.id lead)
                         = Js.RefObject latest
                         /\ intent_score = Leads.IntentScore.score latest)))
    /\ (forall spelled,
          Js.strip_non_digits spelled = Js.strip_non_digits phone ->
          Tools.lookupLead db tables dealer_id spelled
          = Tools.lookupLead db tables dealer_id phone).
Proof.
  intros db tables dealer_id phone.
  split; [|split; [|split]].
  - unfold Tools.lookupLead.
    destruct (DealerService.getDealer db dealer_id); [discriminate|].
    destruct (Leads.findLeadByPhone tables dealer_id phone); discriminate.
  - intros Hnone. unfold Tools.lookupLead, DealerService.getDealer.
    rewrite findFirst_undefined; [reflexivity|].
    intros d Hd. specialize (Hnone d Hd).
    destruct (String.eqb_spec (Dealer.id d) dealer_id); [contradiction | reflexivity].
  - intros dealer Hdealer. unfold Tools.lookupLead. rewrite Hdealer.
    unfold Leads.findLeadByPhone, Drizzle.findFirst. cbv zeta.
    destruct (filter _ (Leads.leads tables)) as [|first rest] eqn:E; simpl.
    + split.
      * split; [intros _|reflexivity].
        intros lead Hin Hd Hp.
        assert (In lead
                  (filter (fun l => String.eqb (Leads.Lead.dealerId l) dealer_id
                                    && Drizzle.eq_nullable (Leads.Lead.phone l)
                                         (toE164 phone))
                     (Leads.leads tables))) as Hf.
        { apply filter_In. split; [exact Hin|].
          rewrite Hd, Hp, String.eqb_refl. simpl. apply String.eqb_refl. }
        rewrite E in Hf. destruct Hf.
      * intros lead s dn tz H. discriminate H.
    + assert (In first (Leads.leads tables)
              /\ Leads.Lead.dealerId first = dealer_id
              /\ Leads.Lead.phone first = Some (toE164 phone)) as (Hin & Hd & Hp).
      { assert (In first
                  (filter (fun l => String.eqb (Leads.Lead.dealerId l) dealer_id
                                    && Drizzle.eq_nullable (Leads.Lead.phone l)
                                         (toE164 phone))
                     (Leads.leads tables))) as Hf
            by (rewrite E; left; reflexivity).
        apply filter_In in Hf. destruct Hf as [Hin Hf].
        apply andb_prop in Hf. destruct Hf as [Hd Hp].
        apply String.eqb_eq in Hd.
        destruct (Leads.Lead.phone first) as [p|]; [|discriminate Hp].
        simpl in Hp. apply String.eqb_eq in Hp. subst p. tauto. }
      split.
      * split; [discriminate|]. intros Hnone. exfalso.
        exact (Hnone first Hin Hd Hp).
      * intros lead s dn tz H. injection H as <- <- <- <-.
        repeat (split; [assumption || reflexivity|]).
        unfold Tools.scoreOrZero.
        assert (forall t l, Leads.getLatestIntentScore t l <> Js.RefUndefined)
          as Hdef.
        { intros t l. unfold Leads.getLatestIntentScore.
          destruct (Js.sort_desc _ _); discriminate. }
        destruct (Leads.getLatestIntentScore tables (Leads.Lead.id first))
          as [| |latest] eqn:El.
        -- contradiction (Hdef tables (Leads.Lead.id first)).
        -- left. split; reflexivity.
        -- right. exists latest. split; [reflexivity|].
           destruct (Z.eqb_spec (Leads.IntentScore.score latest) 0) as [->|_];
             reflexivity.
  - intros spelled Hd. unfold Tools.lookupLead, Leads.findLeadByPhone.
    replace (toE164 spelled) with (toE164 phone)
      by (rewrite !toE164_digits, Hd; reflexivity).
    reflexivity.
Qed.

(** The lead with the number [+19195551234] under another spelling, and an
    unknown dealer. *)
Example lookupLead_answers :
  Tools.lookupLead Examples.quietDb Scenarios.oneLead "dealer-1" "(919) 555-1234"
  = Tools.LeadFound Scenarios.aiLead 0 "Bay Motors" "America/New_York"
  /\ Tools.lookupLead Examples.quietDb Scenarios.oneLead "dealer-9" "9195551234"
     = Tools.LookupFailed.
Proof. split; reflexivity. Qed.

(** X28.  [logQualification] never logs.  On a validated body its first
    query is [getCallSession], which throws, so the [catch] block answers
    with 500 whatever the stores hold: the answer is never success and
    never the 404 of an unknown session, neither the lead nor the metadata
    of the session is written, and both stores are left as they were. *)
Theorem X28_logQualification_always_fails :
  forall (db : Database) (tables : Leads.Tables)
         (call_session_id lead_id : string)
         (qualification : list (string * Js.jsval)) (qualified_at : string)
         (now : Z),
    let result :=
      Qualification.logQualification db tables call_session_id lead_id
        qualification qualified_at now in
    result = (Qualification.LogFailed, db, tables)
    /\ fst (fst result) <> Qualification.Logged
    /\ fst (fst result) <> Qualification.SessionNotFound
    /\ CallService.getCallSession db call_session_id
       = inl (TypeError
                "Cannot read properties of undefined (reading 'referencedTable')").
Proof.
  intros db tables sid lead_id qualification qualified_at now result.
  assert (result = (Qualification.LogFailed, db, tables)) as E
      by (unfold result, Qualification.logQualification;
          rewrite getCallSession_throws; reflexivity).
  rewrite E. repeat split; discriminate.
Qed.

(** A qualification with a vehicle for a stored session and a stored
    lead. *)
Example logQualification_with_vehicle :
  Qualification.logQualification Scenarios.swaigDb Scenarios.oneLead "cs-1"
    "lead-1" [("vehicle_interest", Js.JStr "2024 Civic")]%string
    "2026-01-05T17:00:00.000Z" 9
  = (Qualification.LogFailed, Scenarios.swaigDb, Scenarios.oneLead).
Proof. reflexivity. Qed.

(** X29.  Step ['update-lead'] of the process-transcript job fails on
    every input and updates no lead.  When the summary names a vehicle the
    step fails in [updateLead], which starts with [getLead], with the query
    builder's error for the relation [identities]; otherwise it fails in
    [getCallSession] with the [TypeError] for the undeclared relation
    [lead].  The status of the lead is therefore never set from the outcome
    of the call or the sentiment of the summary. *)
Theorem X29_updateLeadStep_always_fails :
  forall (db : Database) (tables : Leads.Tables)
         (call_session_id lead_id : string) (vehicle_interest : option string)
         (sentiment : string) (now1 now2 : Z),
    let result :=
      Qualification.updateLeadStep db tables call_session_id lead_id
        vehicle_interest sentiment now1 now2 in
    (forall vehicle,
        vehicle_interest = Some vehicle -> vehicle <> EmptyString ->
        result = inl (Leads.Raised Terms.inverseMissing))
    /\ (vehicle_interest = None \/ vehicle_interest = Some EmptyString ->
        result = inl (Leads.Raised Terms.undeclaredRelation))
    /\ (forall tables', result <> inr tables')
    /\ (forall status result',
          Leads.updateStatus tables lead_id status now2 <> inr result').
Proof.
  intros db tables sid lead_id vehicle_interest sentiment now1 now2 result.
  assert (forall vehicle,
             vehicle_interest = Some vehicle -> vehicle <> EmptyString ->
             result = inl (Leads.Raised Terms.inverseMissing)) as Hvehicle.
  { intros vehicle -> Hne. unfold result, Qualification.updateLeadStep.
    destruct (String.eqb_spec vehicle EmptyString) as [E|_]; [contradiction|].
    unfold Leads.updateLead. rewrite getLead_throws. reflexivity. }
  assert (vehicle_interest = None \/ vehicle_interest = Some EmptyString ->
          result = inl (Leads.Raised Terms.undeclaredRelation)) as Hnone.
  { intros [->| ->]; unfold result, Qualification.updateLeadStep;
      rewrite getCallSession_throws; reflexivity. }
  split; [exact Hvehicle|]. split; [exact Hnone|]. split.
  - intros tables'.
    destruct vehicle_interest as [vehicle|];
      [destruct (String.eqb_spec vehicle EmptyString) as [->|Hne]|].
    + rewrite Hnone by (right; reflexivity). discriminate.
    + rewrite (Hvehicle vehicle eq_refl Hne). discriminate.
    + rewrite Hnone by (left; reflexivity). discriminate.
  - intros status result'. unfold Leads.updateStatus.
    destruct (negb _); [discriminate|].
    unfold Leads.updateLead. rewrite getLead_throws. discriminate.
Qed.

(** The step after a transferred call with a positive summary that names
    no vehicle, and with one that does. *)
Example updateLeadStep_after_transfer :
  Qualification.updateLeadStep Examples.completedDb Scenarios.oneLead "cs-1"
    "lead-1" None "positive" 8 9
  = inl (Leads.Raised Terms.undeclaredRelation)
  /\ Qualification.updateLeadStep Examples.completedDb Scenarios.oneLead "cs-1"
       "lead-1" (Some "2024 Civic"%string) "positive" 8 9
     = inl (Leads.Raised Terms.inverseMissing).
Proof. split; reflexivity. Qed.

(** ** retry *)

Section RetryFacts.
Context {T : Type} (fn : nat -> Result T) (maxDelay backoffFactor : Z).

Let pause (delay : Z) (j : nat) : Z :=
  Z.min (delay * backoffFactor ^ Z.of_nat j) maxDelay.

Lemma pauses_shift (delay : Z) (n : nat) :
  map (pause delay) (seq 0 (S n))
  = Z.min delay maxDelay :: map (pause (delay * backoffFactor)) (seq 0 n).
Proof.
  simpl. f_equal.
  - unfold pause. simpl. f_equal. lia.
  - rewrite <- seq_shift, map_map. apply map_ext. intros j. unfold pause.
    rewrite Nat2Z.inj_succ, Z.pow_succ_r by lia. f_equal. lia.
Qed.

Lemma attempts_step (left calls : nat) (delay : Z) (slept : list Z)
    (e : Exception) :
  fn calls = inl e ->
  Retry.attempts fn maxDelay backoffFactor (S (S left)) calls delay slept
  = Retry.attempts fn maxDelay backoffFactor (S left) (S calls)
      (delay * backoffFactor) (slept ++ [Z.min delay maxDelay]).
Proof. intros He. simpl. rewrite He. reflexivity. Qed.

Lemma attempts_success (i : nat) :
  forall (left calls : nat) (delay : Z) (slept : list Z) (value : T),
    (i < left)%nat ->
    fn (calls + i) = inr value ->
    (forall j, (j < i)%nat -> exists e, fn (calls + j) = inl e) ->
    Retry.attempts fn maxDelay backoffFactor left calls delay slept
    = (inr value, slept ++ map (pause delay) (seq 0 i)).
Proof.
  induction i as [|i IH]; intros left calls delay slept value Hlt Hok Hfail.
  - destruct left as [|left']; [lia|]. simpl.
    rewrite Nat.add_0_r in Hok. rewrite Hok, app_nil_r. reflexivity.
  - destruct left as [|left']; [lia|].
    destruct (Hfail 0%nat) as [e He]; [lia|]. rewrite Nat.add_0_r in He.
    cbn [Retry.attempts]. rewrite He.
    destruct left' as [|left'']; [lia|].
    rewrite (IH (S left'') (S calls) (delay * backoffFactor)
               (slept ++ [Z.min delay maxDelay]) value).
    + rewrite pauses_shift, <- app_assoc. reflexivity.
    + lia.
    + rewrite <- Hok. f_equal. lia.
    + intros j Hj. destruct (Hfail (S j)) as [e' He']; [lia|].
      exists e'. rewrite <- He'. f_equal. lia.
Qed.

Lemma attempts_failure (left : nat) :
  forall (calls : nat) (delay : Z) (slept : list Z),
    (forall j, (j <= left)%nat -> exists e, fn (calls + j) = inl e) ->
    Retry.attempts fn maxDelay backoffFactor (S left) calls delay slept
    = (fn (calls + left), slept ++ map (pause delay) (seq 0 left)).
Proof.
  induction left as [|left IH]; intros calls delay slept Hfail.
  - destruct (Hfail 0%nat) as [e He]; [lia|].
    cbn [Retry.attempts]. rewrite Nat.add_0_r in *. rewrite He, app_nil_r.
    reflexivity.
  - destruct (Hfail 0%nat) as [e He]; [lia|]. rewrite Nat.add_0_r in He.
    rewrite (attempts_step _ _ _ _ _ He).
    rewrite (IH (S calls) (delay * backoffFactor)
               (slept ++ [Z.min delay maxDelay])).
    + rewrite pauses_shift, <- app_assoc. f_equal. f_equal. lia.
    + intros j Hj. destruct (Hfail (S j)) as [e' He']; [lia|].
      exists e'. rewrite <- He'. f_equal. lia.
Qed.

Lemma attempts_slept (left : nat) :
  forall (calls : nat) (delay : Z) (slept : list Z),
    exists pauses,
      snd (Retry.attempts fn maxDelay backoffFactor left calls delay slept)
      = slept ++ pauses
      /\ (List.length pauses <= left - 1)%nat
      /\ forall ms, In ms pauses -> ms <= maxDelay.
Proof.
  induction left as [|left IH]; intros calls delay slept.
  - exists []. simpl. rewrite app_nil_r. repeat split; [lia | intros ms []].
  - cbn [Retry.attempts].
    destruct (fn calls) as [e|value].
    + destruct left as [|left'].
      * exists []. simpl. rewrite app_nil_r. repeat split; [lia | intros ms []].
      * destruct (IH (S calls) (delay * backoffFactor)
                    (slept ++ [Z.min delay maxDelay])) as (pauses & E & Hlen & Hle).
        exists (Z.min delay maxDelay :: pauses). rewrite E, <- app_assoc.
        split; [reflexivity|]. split; [simpl in *; lia|].
        intros ms [<-|Hin]; [lia | apply Hle, Hin].
    + exists []. simpl. rewrite app_nil_r. repeat split; [lia | intros ms []].
Qed.

End RetryFacts.

Lemma attempts_ext {T : Type} (fn fn' : nat -> Result T)
    (maxDelay backoffFactor : Z) (left : nat) :
  forall (calls : nat) (delay : Z) (slept : list Z),
    (forall j, (j < left)%nat -> fn' (calls + j)%nat = fn (calls + j)%nat) ->
    Retry.attempts fn' maxDelay backoffFactor left calls delay slept
    = Retry.attempts fn maxDelay backoffFactor left calls delay slept.
Proof.
  induction left as [|left IH]; intros calls delay slept Hsame; [reflexivity|].
  cbn [Retry.attempts].
  pose proof (Hsame 0%nat ltac:(lia)) as H0. rewrite Nat.add_0_r in H0.
  rewrite H0.
  destruct (fn calls) as [e|value]; [|reflexivity].
  destruct left as [|left']; [reflexivity|].
  apply IH. intros j Hj.
  replace (S calls + j)%nat with (calls + S j)%nat by lia.
  apply Hsame. lia.
Qed.

(** X30.  [retry] calls [fn] at most [maxAttempts] times and sleeps only
    between attempts.  It returns the value of the first call that
    succeeds, having slept after each failed call before it for the initial
    delay multiplied by the backoff factor once per earlier failure, capped
    at [maxDelay]; when all [maxAttempts] calls fail it throws the error of
    the last call without sleeping after it; with [maxAttempts] below 1 it
    does not call [fn] and throws ['Retry failed with no error'].  It never
    sleeps longer than [maxDelay] at a time nor more than
    [maxAttempts - 1] times, and its result depends on the first
    [maxAttempts] calls only. *)
Theorem X30_retry_attempts :
  forall (T : Type) (fn : nat -> Result T)
         (maxAttempts initialDelay maxDelay backoffFactor : Z),
    let result :=
      fst (Retry.retry fn maxAttempts initialDelay maxDelay backoffFactor) in
    let slept :=
      snd (Retry.retry fn maxAttempts initialDelay maxDelay backoffFactor) in
    let pause :=
      fun j => Z.min (initialDelay * backoffFactor ^ Z.of_nat j) maxDelay in
    (maxAttempts < 1 ->
     result = inl (PlainError "Retry failed with no error") /\ slept = [])
    /\ (forall (i : nat) (value : T),
          Z.of_nat i < maxAttempts ->
          fn i = inr value ->
          (forall j, (j < i)%nat -> exists e, fn j = inl e) ->
          result = inr value /\ slept = map pause (seq 0 i))
    /\ (1 <= maxAttempts ->
        (forall j, Z.of_nat j < maxAttempts -> exists e, fn j = inl e) ->
        result = fn (Z.to_nat maxAttempts - 1)%nat
        /\ slept = map pause (seq 0 (Z.to_nat maxAttempts - 1)))
    /\ (forall ms, In ms slept -> ms <= maxDelay)
    /\ Z.of_nat (List.length slept) <= Z.max (maxAttempts - 1) 0
    /\ (forall fn' : nat -> Result T,
          (forall j, Z.of_nat j < maxAttempts -> fn' j = fn j) ->
          Retry.retry fn' maxAttempts initialDelay maxDelay backoffFactor
          = Retry.retry fn maxAttempts initialDelay maxDelay backoffFactor).
Proof.
  intros T fn maxAttempts initialDelay maxDelay backoffFactor result slept pause.
  unfold result, slept, Retry.retry.
  split; [|split; [|split; [|split; [|split]]]].
  - intros Hlow. replace (Z.to_nat maxAttempts) with 0%nat by lia.
    split; reflexivity.
  - intros i value Hi Hok Hfail.
    rewrite (attempts_success fn maxDelay backoffFactor i (Z.to_nat maxAttempts)
               0 initialDelay [] value); [split; reflexivity | lia | exact Hok
                                          | exact Hfail].
  - intros Hpos Hfail.
    replace (Z.to_nat maxAttempts) with (S (Z.to_nat maxAttempts - 1)) at 1 3
      by lia.
    rewrite (attempts_failure fn maxDelay backoffFactor); [split; reflexivity|].
    intros j Hj. apply Hfail. lia.
  - intros ms Hin.
    destruct (attempts_slept fn maxDelay backoffFactor (Z.to_nat maxAttempts) 0
                initialDelay []) as (pauses & E & _ & Hle).
    rewrite E in Hin. apply Hle, Hin.
  - destruct (attempts_slept fn maxDelay backoffFactor (Z.to_nat maxAttempts) 0
                initialDelay []) as (pauses & E & Hlen & _).
    rewrite E. simpl. lia.
  - intros fn' Hsame. apply attempts_ext. intros j Hj. apply Hsame. lia.
Qed.

(** X30 with the default options on a function that fails twice. *)
Lemma X30_third_attempt_succeeds :
  Retry.retry
    (fun calls => if (calls <? 2)%nat then inl (PlainError "busy") else inr calls)
    3 1000 10000 2
  = (inr 2%nat, [1000; 2000]).
Proof.
  pose proof (proj1 (proj2 (X30_retry_attempts nat
                 (fun calls => if (calls <? 2)%nat then inl (PlainError "busy")
                               else inr calls)
                 3 1000 10000 2)) 2%nat 2%nat) as H.
  cbv zeta in H.
  destruct H as [H1 H2].
  - lia.
  - reflexivity.
  - intros j Hj. exists (PlainError "busy").
    destruct j as [|[|j]]; [reflexivity | reflexivity | lia].
  - rewrite (surjective_pairing (Retry.retry _ 3 1000 10000 2)), H1, H2.
    reflexivity.
Defined.

(** ** Further scenarios *)

(** The attempts of a lead come back highest number first, and a status
    update of the first attempt leaves the numbering alone. *)
Example attempts_listing_and_update :
  let db :=
    mkDatabase [Examples.dealer1] [] [] [] [] []
      [Examples.attempt 0 1; Examples.attempt 1 2] in
  map CallAttempt.attemptNumber (CallStore.getCallAttempts db "lead-1") = [2; 1]
  /\ (exists updated db',
        CallStore.updateCallAttempt db 0
          (CallStore.mkAttemptUpdate (Some "calling"%string)
             (Some "cs-1"%string) (Some 5) None)
        = inr (updated, db')
        /\ map CallAttempt.status (callAttempts db')
           = ["calling"; "pending"]%string
        /\ map Spec.attemptKey (callAttempts db')
           = map Spec.attemptKey (callAttempts db))
  /\ CallStore.updateCallAttempt db 0
       (CallStore.mkAttemptUpdate None None None None)
     = inl (PlainError "No values to set").
Proof.
  split; [reflexivity|]. split; [|reflexivity].
  eexists _, _. repeat split.
Qed.

(** A session that [markAsTransferred] has written, and the end of the
    conference of its transfer: the session stays in progress. *)
Example transfer_marked_and_conference_ended :
  let db :=
    mkDatabase [Examples.dealer1] [Examples.rep "rep-1" "new" true] [] [] []
      [Examples.sessionWithStatus "cs-1" "CA1" "answered"] [] in
  exists updated marked,
    CallService.markAsTransferred db "cs-1" "rep-1" false 3
    = inr (updated, marked)
    /\ map CallSession.status (callSessions marked) = ["in_progress"%string]
    /\ map CallSession.transferredToUserId (callSessions marked)
       = [Some "rep-1"%string]
    /\ Webhooks.postConferenceStatus marked "conference-end"
         (Some "transfer-cs-1"%string) 8
       = (SignalwireWebhook.InternalServerError, marked)
    /\ CallService.markAsTransferred db "cs-1" "rep-9" false 3
       = inl (PostgresError "foreign_key_violation").
Proof. eexists _, _. repeat split. Qed.
